(** * JdSpider: paginated collection with two-level resume

    A shallow embedding of [main.py], [com_spider.py] and [qa_spider.py]:
    the two page parsers, the two fetchers, the persisters, the thread pool
    that runs one task per page, and the orchestrator that walks a
    directory of manifests with a checkpoint file.

    Python values decoded from JSON are the inductive type [pyobj]; Python
    exceptions are the constructors of [exn]; a call that may raise
    returns [res A].  The file system, the checkpoint file and the log of
    observable actions live in a [world] that is passed explicitly. *)

From stdpp Require Import base strings list gmap pretty.
From Stdlib Require Import ZArith Ascii Permutation Lia.
From Stdlib Require Finite.

Local Open Scope Z_scope.
Local Set Warnings "-register-all".

(** ** Python values and exceptions *)

(** What [json.loads] may return; a float is kept as the text Python
    prints for it, a dict as its items in order. *)
Inductive pyobj : Type :=
| PyNone
| PyBool (b : bool)
| PyInt (z : Z)
| PyFloat (repr : string)
| PyStr (s : string)
| PyList (items : list pyobj)
| PyDict (items : list (string * pyobj)).

Inductive exn : Type :=
| JSONDecodeError
| AttributeError
| KeyError
| TypeError
| IndexError
| FileNotFoundError
| RequestException
| ValueError
| OSError.

(** A computation that returns an [A] or raises. *)
Definition res (A : Type) : Type := exn + A.

Definition ret {A} (a : A) : res A := inr a.
Definition raise {A} (e : exn) : res A := inl e.
Definition bind {A B} (m : res A) (k : A -> res B) : res B :=
  match m with
  | inl e => inl e
  | inr a => k a
  end.

Declare Scope res_scope.
Delimit Scope res_scope with res.
Notation "x <- m ; k" := (bind m (fun x => k))
  (at level 200, m at level 100, k at level 200, right associativity) : res_scope.

(** A Python [for] loop whose body may raise: the first exception leaves
    the loop, and the values built so far are lost with it. *)
Fixpoint for_each {A B} (body : A -> res B) (l : list A) : res (list B) :=
  match l with
  | [] => ret []
  | a :: l' =>
      match body a with
      | inl e => inl e
      | inr b =>
          match for_each body l' with
          | inl e => inl e
          | inr bs => ret (b :: bs)
          end
      end
  end.

(** ** Characters and strings *)

Definition LF : ascii := "010"%char.
Definition CR : ascii := "013"%char.
Definition underscore : ascii := "_"%char.
Definition dot : ascii := "."%char.
Definition slash : ascii := "/"%char.
Definition space : ascii := " "%char.

(** [s.replace(old, new)] for one-character [old] and [new]. *)
Fixpoint str_replace (old new : ascii) (s : string) : string :=
  match s with
  | EmptyString => EmptyString
  | String c s' =>
      String (if Ascii.eqb c old then new else c) (str_replace old new s')
  end.

(** [s.split(sep)] for a one-character separator; never the empty list. *)
Fixpoint str_split (sep : ascii) (s : string) : list string :=
  match s with
  | EmptyString => [EmptyString]
  | String c s' =>
      if Ascii.eqb c sep then EmptyString :: str_split sep s'
      else match str_split sep s' with
           | [] => [String c EmptyString]
           | w :: ws => String c w :: ws
           end
  end.

(** [s.endswith(suffix)]. *)
Fixpoint endswith (s suffix : string) : bool :=
  String.eqb s suffix ||
  match s with
  | EmptyString => false
  | String _ s' => endswith s' suffix
  end.

(** [c in s] for a character. *)
Fixpoint has_char (c : ascii) (s : string) : bool :=
  match s with
  | EmptyString => false
  | String d s' => Ascii.eqb d c || has_char c s'
  end.

(** ** Operations on decoded values *)

Fixpoint dict_lookup (k : string) (items : list (string * pyobj)) : option pyobj :=
  match items with
  | [] => None
  | (k', v) :: items' => if String.eqb k' k then Some v else dict_lookup k items'
  end.

(** [d.get(k, default)] on a dict. *)
Definition dict_get (items : list (string * pyobj)) (k : string) (default : pyobj) : pyobj :=
  match dict_lookup k items with
  | Some v => v
  | None => default
  end.

(** [o.get(k, default)]: only a dict has the method. *)
Definition py_get (o : pyobj) (k : string) (default : pyobj) : res pyobj :=
  match o with
  | PyDict items => ret (dict_get items k default)
  | _ => raise AttributeError
  end.

(** [o[k]] with a string key. *)
Definition py_getitem (o : pyobj) (k : string) : res pyobj :=
  match o with
  | PyDict items =>
      match dict_lookup k items with
      | Some v => ret v
      | None => raise KeyError
      end
  | _ => raise TypeError
  end.

Fixpoint chars (s : string) : list pyobj :=
  match s with
  | EmptyString => []
  | String c s' => PyStr (String c EmptyString) :: chars s'
  end.

(** The sequence a [for] loop walks: the items of a list, the keys of a
    dict, the characters of a string; anything else is not iterable. *)
Definition py_iter (o : pyobj) : res (list pyobj) :=
  match o with
  | PyList items => ret items
  | PyDict items => ret (map (fun kv => PyStr (fst kv)) items)
  | PyStr s => ret (chars s)
  | _ => raise TypeError
  end.

(** [o.replace('\n', ' ')]: only a string has the method. *)
Definition py_replace_newline (o : pyobj) : res pyobj :=
  match o with
  | PyStr s => ret (PyStr (str_replace LF space s))
  | _ => raise AttributeError
  end.

(** ** Data frames *)

Definition row : Type := list pyobj.

Record DataFrame : Type := mkDataFrame {
  columns : list string;
  rows : list row
}.

(** [len(df)] is the number of rows. *)
Definition df_len (df : DataFrame) : Z := Z.of_nat (length (rows df)).

(** [df.empty]: some axis has length zero. *)
Definition df_empty (df : DataFrame) : bool :=
  match rows df, columns df with
  | _ :: _, _ :: _ => false
  | _, _ => true
  end.

(** [pd.concat([a, b], ignore_index=True)] for frames with the same columns. *)
Definition df_concat (a b : DataFrame) : DataFrame :=
  {| columns := columns a; rows := rows a ++ rows b |}.

Definition comment_columns : list string :=
  ["user_id"; "user_name"; "content"; "create_time"; "score"; "location";
   "product_id"; "product_name"].

Definition qa_columns : list string :=
  ["id"; "question_content"; "product_id"; "created_time"; "answer_id";
   "answer_content"; "answer_created_time"; "location"].

Definition empty_str : pyobj := PyStr EmptyString.

(** ** Strings of the checkpoint file and of paths *)

(** Reading in text mode: [CR LF] and a lone [CR] become [LF]. *)
Fixpoint universal_newlines (s : string) : string :=
  match s with
  | EmptyString => EmptyString
  | String c s' =>
      if Ascii.eqb c CR then
        match s' with
        | String d s'' =>
            if Ascii.eqb d LF then String LF (universal_newlines s'')
            else String LF (universal_newlines s')
        | EmptyString => String LF EmptyString
        end
      else String c (universal_newlines s')
  end.

(** Cutting after each [LF]; [cur] is the line read so far. *)
Fixpoint lines_from (cur : string) (s : string) : list string :=
  match s with
  | EmptyString =>
      match cur with
      | EmptyString => []
      | _ => [cur]
      end
  | String c s' =>
      if Ascii.eqb c LF then (cur +:+ String LF EmptyString) :: lines_from EmptyString s'
      else lines_from (cur +:+ String c EmptyString) s'
  end.

(** [file.readlines()] of a file opened with mode ['r']. *)
Definition readlines (content : string) : list string :=
  lines_from EmptyString (universal_newlines content).

Fixpoint lstrip (c : ascii) (s : string) : string :=
  match s with
  | EmptyString => EmptyString
  | String d s' => if Ascii.eqb d c then lstrip c s' else s
  end.

Fixpoint rstrip (c : ascii) (s : string) : string :=
  match s with
  | EmptyString => EmptyString
  | String d s' =>
      match rstrip c s' with
      | EmptyString => if Ascii.eqb d c then EmptyString else String d EmptyString
      | r => String d r
      end
  end.

(** [s.strip(c)] for a one-character set. *)
Definition strip (c : ascii) (s : string) : string := lstrip c (rstrip c s).

(** [os.path.split]: the part before the last slash, if there is a slash,
    and the part after it. *)
Fixpoint path_split (p : string) : option string * string :=
  match p with
  | EmptyString => (None, EmptyString)
  | String c p' =>
      match path_split p' with
      | (Some d, b) => (Some (String c d), b)
      | (None, b) =>
          if Ascii.eqb c slash then (Some EmptyString, b) else (None, String c b)
      end
  end.

(** The directory a path lies in; directories are named by their path as
    it is written. *)
Definition directory_of (p : string) : string :=
  match fst (path_split p) with
  | Some EmptyString => "/"
  | Some d => d
  | None => "."
  end.

Definition basename (p : string) : string := snd (path_split p).

(** [range(lo, hi)]. *)
Definition py_range (lo hi : Z) : list Z :=
  map (fun i => lo + Z.of_nat i) (seq 0 (Z.to_nat (hi - lo))).

(** [xs[i]] on a list of strings. *)
Definition list_index (xs : list string) (i : nat) : res string :=
  match nth_error xs i with
  | Some x => ret x
  | None => raise IndexError
  end.

(** ** The environment

    What the program reads from outside itself: the JSON decoder of the
    Python library, the text Python prints for a list or a dict inside an
    f-string, the answers of the remote service (indexed by the number of
    requests sent before), the text pandas writes for a frame, and the
    constants of [config.py], of which the repository holds a template
    only. *)

(** The three families of URLs the spiders build; a URL is kept as the
    values formatted into it. *)
Inductive url : Type :=
| CommentsUrl (product_id : pyobj) (score sort_type page page_size : Z)
| QuestionsUrl (page : Z) (product_id : pyobj)
| AnswersUrl (question_id : pyobj).

(** What [requests.get] meets: no response at all, or a response with a
    status code and a body. *)
Inductive http_outcome : Type :=
| ConnectionFailed
| HttpResponse (status : Z) (text : string).

Record comment_param : Type := mkCommentParam {
  pages : Z;
  score : Z;
  sort_type : Z;
  page_size : Z
}.

Record environment : Type := mkEnvironment {
  json_loads : string -> option pyobj;
  format_other : pyobj -> string;
  http : nat -> url -> http_outcome;
  to_csv_text : DataFrame -> string;
  DATA_PATH : string;
  MAX_WORKERS : Z;
  COMMENT_PARAM : comment_param;
  QA_PARAM_pages : Z
}.

(** ** The world: directories, the checkpoint file, the trace

    A directory is named by its path as the program writes it, and is
    listed in a fixed order.  The checkpoint file [./resume_checkpoint.txt]
    is kept apart: its name ends neither in [.json] nor in [.csv], so no
    listing the program filters is affected.  Nothing but the program
    changes the world.  The trace records, in order, the requests, the
    warnings and errors logged, the sleeps, what the orchestrator decided
    for each target and what it appended to the checkpoint. *)

Inductive PersistResult : Type := Persisted | Skipped | PersistFailed.

Inductive event : Type :=
| Request (u : url)
| LogError
| LogWarning
| Sleep
| TargetSkipped (product_id : pyobj)
| CrawlStarted (product_id : pyobj)
| CrawlFinished (product_id : pyobj) (result : PersistResult)
| CheckpointAppended (filename : string).

Inductive node : Type :=
| Directory
| File (content : string).

Record world : Type := mkWorld {
  dirs : gmap string (list (string * node));
  checkpoint : option string;
  requests_sent : nat;
  trace : list event
}.

Definition log (e : event) (w : world) : world :=
  {| dirs := dirs w; checkpoint := checkpoint w;
     requests_sent := requests_sent w; trace := trace w ++ [e] |}.

Definition sent (u : url) (w : world) : world :=
  {| dirs := dirs w; checkpoint := checkpoint w;
     requests_sent := S (requests_sent w); trace := trace w ++ [Request u] |}.

Definition set_dirs (d : gmap string (list (string * node))) (w : world) : world :=
  {| dirs := d; checkpoint := checkpoint w;
     requests_sent := requests_sent w; trace := trace w |}.

(** [os.listdir]. *)
Definition listdir (dir : string) (w : world) : res (list string) :=
  match dirs w !! dir with
  | Some entries => ret (map fst entries)
  | None => raise FileNotFoundError
  end.

(** The entry of that name in a listing. *)
Fixpoint find_entry (name : string) (entries : list (string * node)) : option node :=
  match entries with
  | [] => None
  | (name', n) :: rest => if String.eqb name' name then Some n else find_entry name rest
  end.

Definition lookup_node (dir name : string) (w : world) : option node :=
  match dirs w !! dir with
  | Some entries => find_entry name entries
  | None => None
  end.

Fixpoint put_entry (name : string) (n : node) (entries : list (string * node))
  : option (list (string * node)) :=
  match entries with
  | [] => Some [(name, n)]
  | (name', n') :: rest =>
      if String.eqb name' name then
        match n' with
        | Directory => None
        | File _ => Some ((name, n) :: rest)
        end
      else
        match put_entry name n rest with
        | Some rest' => Some ((name', n') :: rest')
        | None => None
        end
  end.

(** Creating or overwriting the file at [path]: its directory must exist
    and the name must not be that of a directory. *)
Definition write_file (path : string) (n : node) (w : world) : option world :=
  match dirs w !! directory_of path with
  | None => None
  | Some entries =>
      match put_entry (basename path) n entries with
      | None => None
      | Some entries' => Some (set_dirs (<[directory_of path := entries']> (dirs w)) w)
      end
  end.

(** [open(resume_checkpoint, 'a')] then [write(filename + "\n")]. *)
Definition append_checkpoint (filename : string) (w : world) : world :=
  {| dirs := dirs w;
     checkpoint := Some (default EmptyString (checkpoint w) +:+ filename
                         +:+ String LF EmptyString);
     requests_sent := requests_sent w;
     trace := trace w ++ [CheckpointAppended filename] |}.

Section Spiders.

Variable E : environment.

Definition loads (text : string) : res pyobj :=
  match json_loads E text with
  | Some v => ret v
  | None => raise JSONDecodeError
  end.

(** [f"{o}"]: a list or a dict is printed by the library. *)
Definition py_format (o : pyobj) : string :=
  match o with
  | PyNone => "None"
  | PyBool true => "True"
  | PyBool false => "False"
  | PyInt z => pretty z
  | PyFloat repr => repr
  | PyStr s => s
  | PyList _ | PyDict _ => format_other E o
  end.

Local Open Scope res_scope.

(** ** The comment parser: [JDCommentSpider.parse_comments] *)

Definition comment_row (product_id comment : pyobj) : res row :=
  user_id <- py_get comment "id" empty_str;
  user_name <- py_get comment "nickname" empty_str;
  raw_content <- py_get comment "content" empty_str;
  content <- py_replace_newline raw_content;
  create_time <- py_get comment "creationTime" empty_str;
  score <- py_get comment "score" empty_str;
  location <- py_get comment "location" empty_str;
  product_name <- py_get comment "referenceName" empty_str;
  ret [user_id; user_name; content; create_time; score; location;
       product_id; product_name].

Definition parse_comments (product_id : pyobj) (response : string) : res DataFrame :=
  json_obj <- loads response;
  comments <- py_get json_obj "comments" (PyList []);
  items <- py_iter comments;
  comm_list <- for_each (comment_row product_id) items;
  ret (mkDataFrame comment_columns comm_list).

(** ** The QA parser: [JDQASpider.parse_qa]

    The two nested loops run inside one [try]: they append to [qa_list],
    and an exception ends both loops while [qa_list] keeps what was
    appended before.  [building A] threads that list. *)

Definition building (A : Type) : Type := list row -> res A * list row.

Definition b_ret {A} (a : A) : building A := fun acc => (inr a, acc).
Definition b_lift {A} (m : res A) : building A := fun acc => (m, acc).
Definition b_append (r : row) : building unit := fun acc => (inr tt, acc ++ [r]).
Definition b_bind {A B} (m : building A) (k : A -> building B) : building B :=
  fun acc =>
    match m acc with
    | (inl e, acc') => (inl e, acc')
    | (inr a, acc') => k a acc'
    end.

Notation "x <~ m ; k" := (b_bind m (fun x => k))
  (at level 200, m at level 100, k at level 200, right associativity).

Fixpoint b_for {A} (l : list A) (body : A -> building unit) : building unit :=
  match l with
  | [] => b_ret tt
  | a :: l' => _ <~ body a; b_for l' body
  end.

Definition qa_answer_loop (id content product_id created_time answer : pyobj)
  : building unit :=
  answer_id <~ b_lift (py_get answer "id" empty_str);
  answer_content <~ b_lift (py_get answer "content" empty_str);
  answer_created_time <~ b_lift (py_get answer "created" empty_str);
  location <~ b_lift (py_get answer "location" empty_str);
  b_append [id; content; product_id; created_time; answer_id; answer_content;
            answer_created_time; location].

Definition qa_question_loop (qa : pyobj) : building unit :=
  id <~ b_lift (py_get qa "id" empty_str);
  content <~ b_lift (py_get qa "content" empty_str);
  product_id <~ b_lift (py_get qa "productId" empty_str);
  created_time <~ b_lift (py_get qa "created" empty_str);
  answer_list <~ b_lift (py_getitem qa "answerList");
  answers <~ b_lift (py_iter answer_list);
  b_for answers (qa_answer_loop id content product_id created_time).

Definition qa_try_body (qa_data : pyobj) : building unit :=
  questions <~ b_lift (py_iter qa_data);
  b_for questions qa_question_loop.

Definition parse_qa (response : string) : res DataFrame :=
  json_obj <- loads response;
  qa_data <- py_get json_obj "questionList" (PyList []);
  (* try: ... except Exception as e: print(e) *)
  let qa_list := snd (qa_try_body qa_data []) in
  ret (mkDataFrame qa_columns qa_list).

(** ** The fetchers: [send_request]

    [requests.get] raises a [RequestException] when no response arrives;
    [raise_for_status] raises one when the status is in 400..599.  The
    random user agent of the header plays no part. *)

Definition is_error_status (status : Z) : bool :=
  (400 <=? status) && (status <? 600).

(** [JDCommentSpider.send_request]: logs and raises again. *)
Definition com_send_request (u : url) (w : world) : res string * world :=
  let w1 := sent u w in
  match http E (requests_sent w) u with
  | ConnectionFailed => (raise RequestException, log LogError w1)
  | HttpResponse status text =>
      if is_error_status status then (raise RequestException, log LogError w1)
      else (ret text, w1)
  end.

(** [JDQASpider.send_request]: logs and falls off the end of the
    function, which returns [None]. *)
Definition qa_send_request (u : url) (w : world) : res (option string) * world :=
  let w1 := sent u w in
  match http E (requests_sent w) u with
  | ConnectionFailed => (ret None, log LogError w1)
  | HttpResponse status text =>
      if is_error_status status then (ret None, log LogError w1)
      else (ret (Some text), w1)
  end.

Definition get_comments (product_id : pyobj) (page : Z) (w : world)
  : res string * world :=
  com_send_request
    (CommentsUrl product_id (score (COMMENT_PARAM E)) (sort_type (COMMENT_PARAM E))
       page (page_size (COMMENT_PARAM E))) w.

Definition get_qa (product_id : pyobj) (page : Z) (w : world)
  : res (option string) * world :=
  qa_send_request (QuestionsUrl page product_id) w.

Definition get_answer (question_id : pyobj) (w : world)
  : res (option string) * world :=
  qa_send_request (AnswersUrl question_id) w.

(** ** One page task: [crawl_page]

    The state of a task is the frame [self.comm_data] (or [self.qa_data])
    and the world.  The append happens under the lock of the spider. *)

Definition com_crawl_page (product_id : pyobj) (page : Z)
    (st : DataFrame * world) : res unit * (DataFrame * world) :=
  let '(comm_data, w) := st in
  match get_comments product_id page w with
  | (inl e, w1) => (inl e, (comm_data, w1))
  | (inr response, w1) =>
      if String.eqb response EmptyString then (ret tt, (comm_data, log LogWarning w1))
      else
        match parse_comments product_id response with
        | inl e => (inl e, (comm_data, w1))
        | inr comments =>
            if df_empty comments then (ret tt, (comm_data, log LogWarning w1))
            else (ret tt, (df_concat comm_data comments, log Sleep w1))
        end
  end.

Definition qa_crawl_page (product_id : pyobj) (page : Z)
    (st : DataFrame * world) : res unit * (DataFrame * world) :=
  let '(qa_data, w) := st in
  match get_qa product_id page w with
  | (inl e, w1) => (inl e, (qa_data, w1))
  | (inr None, w1) => (ret tt, (qa_data, log LogWarning w1))
  | (inr (Some response), w1) =>
      if String.eqb response EmptyString then (ret tt, (qa_data, log LogWarning w1))
      else
        match parse_qa response with
        | inl e => (inl e, (qa_data, w1))
        | inr qa =>
            if df_empty qa then (ret tt, (qa_data, log LogWarning w1))
            else (ret tt, (df_concat qa_data qa, log Sleep w1))
        end
  end.

(** [executor.submit(task, page)]: the future keeps an exception of the
    task to itself, and nobody asks the future. *)
Definition submitted {S} (task : S -> res unit * S) (st : S) : S := snd (task st).

(** The pool, along the schedule in which the tasks settle in the order of
    their submission.  [Pool] below treats every schedule. *)
Definition run_pool {S} (task : Z -> S -> res unit * S) (page_list : list Z) (st : S) : S :=
  fold_left (fun st page => submitted (task page) st) page_list st.

(** ** The persisters: [save_comments] and [save_data] *)

Definition artifact_path (kind : string) (product_id : pyobj) : string :=
  DATA_PATH E +:+ "/" +:+ kind +:+ "_" +:+ py_format product_id +:+ ".csv".

Definition save_frame (kind : string) (product_id : pyobj) (data : DataFrame)
    (w : world) : PersistResult * world :=
  if df_len data <=? 1 then (Skipped, log LogWarning w)
  else
    match write_file (artifact_path kind product_id) (File (to_csv_text E data)) w with
    | Some w' => (Persisted, w')
    | None => (PersistFailed, log LogError w)
    end.

Definition save_comments : pyobj -> DataFrame -> world -> PersistResult * world :=
  save_frame "com".

Definition save_data : pyobj -> DataFrame -> world -> PersistResult * world :=
  save_frame "qa".

(** ** One target: [start_crawling] *)

Definition com_page_list : list Z := py_range 0 (pages (COMMENT_PARAM E)).
Definition qa_page_list : list Z := py_range 1 (QA_PARAM_pages E + 1).

(** The accumulation of one target, from the empty frame. *)
Definition com_collect (product_id : pyobj) (w : world) : DataFrame * world :=
  run_pool (com_crawl_page product_id) com_page_list (mkDataFrame comment_columns [], w).

Definition qa_collect (product_id : pyobj) (w : world) : DataFrame * world :=
  run_pool (qa_crawl_page product_id) qa_page_list (mkDataFrame qa_columns [], w).

(** [ThreadPoolExecutor(max_workers=n)] raises [ValueError] unless [n] is
    positive. *)
Definition com_start_crawling (product_id : pyobj) (w : world)
  : res PersistResult * world :=
  let w0 := log (CrawlStarted product_id) w in
  if MAX_WORKERS E <=? 0 then (raise ValueError, w0)
  else
    let '(comm_data, w1) := com_collect product_id w0 in
    let '(result, w2) := save_comments product_id comm_data w1 in
    (ret result, log (CrawlFinished product_id result) w2).

Definition qa_start_crawling (product_id : pyobj) (w : world)
  : res PersistResult * world :=
  let w0 := log (CrawlStarted product_id) w in
  if MAX_WORKERS E <=? 0 then (raise ValueError, w0)
  else
    let '(qa_data, w1) := qa_collect product_id w0 in
    let '(result, w2) := save_data product_id qa_data w1 in
    (ret result, log (CrawlFinished product_id result) w2).

(** ** The orchestrator: [crawl_comments_and_qa] *)

(** [file.split('_')[1].split('.')[0]]. *)
Definition index_entry (file : string) : res string :=
  part <- list_index (str_split underscore file) 1;
  list_index (str_split dot part) 0.

(** The list comprehension over the names that end in [.csv]. *)
Definition build_index (output_files : list string) : res (list string) :=
  for_each index_entry (List.filter (fun file => endswith file ".csv") output_files).

(** The index a pass builds from the output directory. *)
Definition index_of (output_dir : string) (w : world) : res (list string) :=
  files <- listdir output_dir w;
  build_index files.

(** [product_id in output_files]: only a string equals a string. *)
Definition py_in (product_id : pyobj) (output_files : list string) : bool :=
  match product_id with
  | PyStr s => existsb (String.eqb s) output_files
  | _ => false
  end.

(** [list(data.values())[0]]. *)
Definition first_value (data : pyobj) : res pyobj :=
  match data with
  | PyDict [] => raise IndexError
  | PyDict ((_, v) :: _) => ret v
  | _ => raise AttributeError
  end.

(** The loop over the targets of one manifest. *)
Fixpoint crawl_products (output_files : list string) (products : list pyobj)
    (w : world) : res unit * world :=
  match products with
  | [] => (ret tt, w)
  | product_info :: rest =>
      match py_getitem product_info "sku" with
      | inl e => (inl e, w)
      | inr product_id =>
          if py_in product_id output_files then
            crawl_products output_files rest (log (TargetSkipped product_id) w)
          else
            match com_start_crawling product_id w with
            | (inl e, w1) => (inl e, w1)
            | (inr _, w1) => crawl_products output_files rest (log Sleep w1)
            end
      end
  end.

(** The body of the [try] for one manifest. *)
Definition manifest_body (output_dir filename content : string) (w : world)
  : res unit * world :=
  match loads content with
  | inl e => (inl e, w)
  | inr data =>
      match index_of output_dir w with
      | inl e => (inl e, w)
      | inr output_files =>
          match (v <- first_value data; py_iter v) with
          | inl e => (inl e, w)
          | inr products =>
              match crawl_products output_files products w with
              | (inl e, w1) => (inl e, w1)
              | (inr _, w1) => (ret tt, append_checkpoint filename w1)
              end
          end
      end
  end.

(** [except (json.JSONDecodeError, FileNotFoundError)]. *)
Definition process_manifest (output_dir filename content : string) (w : world)
  : res unit * world :=
  match manifest_body output_dir filename content w with
  | (inl JSONDecodeError, w1) => (ret tt, log LogError w1)
  | (inl FileNotFoundError, w1) => (ret tt, log LogError w1)
  | r => r
  end.

(** One turn of the loop over [files_to_process]: [os.path.isfile] and
    [open] look at the file as it is when its turn comes. *)
Definition process_entry (ids_collection_dir output_dir filename : string) (w : world)
  : res unit * world :=
  match lookup_node ids_collection_dir filename w with
  | Some (File content) =>
      if endswith filename ".json" then process_manifest output_dir filename content w
      else (ret tt, w)
  | _ => (ret tt, w)
  end.

Fixpoint process_entries (ids_collection_dir output_dir : string)
    (filenames : list string) (w : world) : res unit * world :=
  match filenames with
  | [] => (ret tt, w)
  | filename :: rest =>
      match process_entry ids_collection_dir output_dir filename w with
      | (inl e, w1) => (inl e, w1)
      | (inr _, w1) => process_entries ids_collection_dir output_dir rest w1
      end
  end.

(** The names recorded in the checkpoint file. *)
Definition checkpoint_names (content : string) : list string :=
  map (strip LF) (readlines content).

Definition files_to_process (filenames : list string) (w : world) : list string :=
  match checkpoint w with
  | Some content =>
      List.filter (fun x => negb (existsb (String.eqb x) (checkpoint_names content))) filenames
  | None => filenames
  end.

Definition crawl_comments_and_qa (ids_collection_dir output_dir : string) (w : world)
  : res unit * world :=
  match listdir ids_collection_dir w with
  | inl _ => (ret tt, log LogError w)
  | inr _ =>
      let w1 :=
        match dirs w !! output_dir with
        | Some _ => w
        | None => set_dirs (<[output_dir := []]> (dirs w)) w
        end in
      match listdir ids_collection_dir w1 with
      | inl e => (inl e, w1)
      | inr filenames =>
          process_entries ids_collection_dir output_dir (files_to_process filenames w1) w1
      end
  end.

End Spiders.

(** ** The thread pool: every schedule

    [ThreadPoolExecutor(max_workers)] used as a context manager.  The main
    thread submits the pages one by one; a worker takes the oldest queued
    page when fewer than [max_workers] tasks are running; a running task
    settles, which is when its effect on the shared state shows; leaving
    the [with] block waits until nothing is queued or running. *)

Module Pool.
Section Machine.

Context {S : Type}.
Variable task : Z -> S -> res unit * S.
Variable max_workers : Z.

Inductive phase : Type := InWith | Joined.

Record state : Type := mkState {
  to_submit : list Z;
  queued : list Z;
  running : list Z;
  settled : list Z;
  shared : S;
  main : phase
}.

Definition init (page_list : list Z) (st : S) : state :=
  mkState page_list [] [] [] st InWith.

Inductive step : state -> state -> Prop :=
| Submit p ps q r d st :
    step (mkState (p :: ps) q r d st InWith) (mkState ps (q ++ [p]) r d st InWith)
| Start ps p q r d st ph :
    Z.of_nat (length r) < max_workers ->
    step (mkState ps (p :: q) r d st ph) (mkState ps q (r ++ [p]) d st ph)
| Settle ps q r1 p r2 d st ph :
    step (mkState ps q (r1 ++ p :: r2) d st ph)
         (mkState ps q (r1 ++ r2) (d ++ [p]) (submitted (task p) st) ph)
| Join d st :
    step (mkState [] [] [] d st InWith) (mkState [] [] [] d st Joined).

Inductive reachable (page_list : list Z) (st0 : S) : state -> Prop :=
| reach_init : reachable page_list st0 (init page_list st0)
| reach_step s s' : reachable page_list st0 s -> step s s' -> reachable page_list st0 s'.

(** What holds in every state of the pool. *)
Definition invariant (page_list : list Z) (st0 : S) (s : state) : Prop :=
  Permutation (settled s ++ running s ++ queued s ++ to_submit s) page_list /\
  shared s = run_pool task (settled s) st0 /\
  (main s = Joined -> to_submit s = [] /\ queued s = [] /\ running s = []).

End Machine.
End Pool.

(** ** What the parsers are meant to produce

    The records as the specification words them, to be compared with what
    the loops of the source build. *)

(** A field of a record, or the empty string when the field is absent. *)
Definition field (items : list (string * pyobj)) (k : string) : pyobj :=
  match dict_lookup k items with
  | Some v => v
  | None => PyStr EmptyString
  end.


(** A comment is an object whose content, when present, is a string. *)
Definition well_formed_comment (c : pyobj) : bool :=
  match c with
  | PyDict items =>
      match field items "content" with
      | PyStr _ => true
      | _ => false
      end
  | _ => false
  end.

Definition expected_comment_record (product_id c : pyobj) : row :=
  match c with
  | PyDict items =>
      [field items "id"; field items "nickname";
       match field items "content" with
       | PyStr s => PyStr (str_replace LF space s)
       | v => v
       end;
       field items "creationTime"; field items "score"; field items "location";
       product_id; field items "referenceName"]
  | _ => []
  end.





(** ** Readings of a trace *)

Definition is_request (e : event) : bool :=
  match e with
  | Request _ => true
  | _ => false
  end.

Definition is_log (e : event) : bool :=
  match e with
  | LogError | LogWarning => true
  | _ => false
  end.

(** The target a URL asks about. *)
Definition url_target (u : url) : option pyobj :=
  match u with
  | CommentsUrl product_id _ _ _ _ => Some product_id
  | QuestionsUrl _ product_id => Some product_id
  | AnswersUrl _ => None
  end.

(** Whether an event is work done for the target named by the string [t]:
    the start of its collection or a request about it. *)
Definition concerns (t : string) (e : event) : bool :=
  match e with
  | CrawlStarted (PyStr s) => String.eqb s t
  | Request u =>
      match url_target u with
      | Some (PyStr s) => String.eqb s t
      | _ => false
      end
  | _ => false
  end.

(** The targets an orchestrator pass has dealt with, in order: skipped
    because of the index, or collected up to the return of
    [start_crawling], whatever the persister answered. *)
Fixpoint processed (tr : list event) : list pyobj :=
  match tr with
  | [] => []
  | TargetSkipped t :: tr' => t :: processed tr'
  | CrawlFinished t _ :: tr' => t :: processed tr'
  | _ :: tr' => processed tr'
  end.

(** The targets a decoded manifest lists. *)
Definition manifest_targets (data : pyobj) : res (list pyobj) :=
  (v <- first_value data;
   products <- py_iter v;
   for_each (fun info => py_getitem info "sku") products)%res.

(** ** A small environment for the examples

    The decoder knows the few documents used below and rejects any other
    text; the service answers about three products. *)

Definition dq : string := String "034"%char EmptyString.
Definition quoted (s : string) : string := dq +:+ s +:+ dq.

(** [{"comments": [{"id": 1, "content": "ok"}, {"id": 2}]}] *)
Definition two_comments_text : string :=
  "{" +:+ quoted "comments" +:+ ": [{" +:+ quoted "id" +:+ ": 1, "
  +:+ quoted "content" +:+ ": " +:+ quoted "ok" +:+ "}, {" +:+ quoted "id" +:+ ": 2}]}".

Definition two_comments : pyobj :=
  PyDict [("comments",
           PyList [PyDict [("id", PyInt 1); ("content", PyStr "ok")];
                   PyDict [("id", PyInt 2)]])].

(** [{"comments": [{"id": 7}]}] *)
Definition one_comment_text : string :=
  "{" +:+ quoted "comments" +:+ ": [{" +:+ quoted "id" +:+ ": 7}]}".

Definition one_comment : pyobj :=
  PyDict [("comments", PyList [PyDict [("id", PyInt 7)]])].

(** [{"comments": []}] *)
Definition no_comments_text : string :=
  "{" +:+ quoted "comments" +:+ ": []}".

Definition no_comments : pyobj := PyDict [("comments", PyList [])].

(** [{"questionList": [{"id": 2, "answerList": [{"id": 3}, {"id": 4}]},
                       {"id": 5, "answerList": []}]}] *)
Definition qa_text : string :=
  "{" +:+ quoted "questionList" +:+ ": [{" +:+ quoted "id" +:+ ": 2, "
  +:+ quoted "answerList" +:+ ": [{" +:+ quoted "id" +:+ ": 3}, {"
  +:+ quoted "id" +:+ ": 4}]}, {" +:+ quoted "id" +:+ ": 5, "
  +:+ quoted "answerList" +:+ ": []}]}".

Definition qa_question_2 : pyobj :=
  PyDict [("id", PyInt 2);
          ("answerList", PyList [PyDict [("id", PyInt 3)]; PyDict [("id", PyInt 4)]])].

Definition qa_question_5 : pyobj :=
  PyDict [("id", PyInt 5); ("answerList", PyList [])].

Definition qa_page : pyobj :=
  PyDict [("questionList", PyList [qa_question_2; qa_question_5])].

(** [{"questionList": [{"id": 2, "answerList": [{"id": 3}, {"id": 4}]},
                       {"id": 6},
                       {"id": 8, "answerList": [{"id": 9}]}]}] *)
Definition truncated_qa_text : string :=
  "{" +:+ quoted "questionList" +:+ ": [{" +:+ quoted "id" +:+ ": 2, "
  +:+ quoted "answerList" +:+ ": [{" +:+ quoted "id" +:+ ": 3}, {"
  +:+ quoted "id" +:+ ": 4}]}, {" +:+ quoted "id" +:+ ": 6}, {"
  +:+ quoted "id" +:+ ": 8, " +:+ quoted "answerList" +:+ ": [{"
  +:+ quoted "id" +:+ ": 9}]}]}".

Definition qa_question_8 : pyobj :=
  PyDict [("id", PyInt 8); ("answerList", PyList [PyDict [("id", PyInt 9)]])].

Definition truncated_qa : pyobj :=
  PyDict [("questionList",
           PyList [qa_question_2; PyDict [("id", PyInt 6)]; qa_question_8])].

(** [{"questionList": [{"id": 8, "answerList": [{"id": 9}]}]}] *)
Definition one_answer_text : string :=
  "{" +:+ quoted "questionList" +:+ ": [{" +:+ quoted "id" +:+ ": 8, "
  +:+ quoted "answerList" +:+ ": [{" +:+ quoted "id" +:+ ": 9}]}]}".

Definition one_answer : pyobj := PyDict [("questionList", PyList [qa_question_8])].

(** [{"rings": [{"sku": 111}]}] *)
Definition integer_manifest_text : string :=
  "{" +:+ quoted "rings" +:+ ": [{" +:+ quoted "sku" +:+ ": 111}]}".

Definition integer_manifest : pyobj :=
  PyDict [("rings", PyList [PyDict [("sku", PyInt 111)]])].

(** [{"rings": [{"sku": "111"}, {"sku": "222"}]}] *)
Definition string_manifest_text : string :=
  "{" +:+ quoted "rings" +:+ ": [{" +:+ quoted "sku" +:+ ": " +:+ quoted "111"
  +:+ "}, {" +:+ quoted "sku" +:+ ": " +:+ quoted "222" +:+ "}]}".

Definition string_manifest : pyobj :=
  PyDict [("rings", PyList [PyDict [("sku", PyStr "111")];
                            PyDict [("sku", PyStr "222")]])].

(** [{"rings": [{"sku": "7_1"}]}] *)
Definition underscore_manifest_text : string :=
  "{" +:+ quoted "rings" +:+ ": [{" +:+ quoted "sku" +:+ ": " +:+ quoted "7_1" +:+ "}]}".

Definition underscore_manifest : pyobj :=
  PyDict [("rings", PyList [PyDict [("sku", PyStr "7_1")]])].

Definition demo_documents : list (string * pyobj) :=
  [(two_comments_text, two_comments); (one_comment_text, one_comment);
   (no_comments_text, no_comments);
   (truncated_qa_text, truncated_qa); (qa_text, qa_page);
   (one_answer_text, one_answer);
   (integer_manifest_text, integer_manifest);
   (string_manifest_text, string_manifest);
   (underscore_manifest_text, underscore_manifest)].

(** Product 111 (written as a string or as an integer) has two comments on
    page 0 and two answers on page 1, product 222 has one of each, product
    333 has no comment; every other request fails. *)
Definition demo_http (n : nat) (u : url) : http_outcome :=
  match u with
  | CommentsUrl (PyStr "111") _ _ 0 _ => HttpResponse 200 two_comments_text
  | CommentsUrl (PyInt 111) _ _ 0 _ => HttpResponse 200 two_comments_text
  | CommentsUrl (PyStr "222") _ _ 0 _ => HttpResponse 200 one_comment_text
  | CommentsUrl (PyStr "333") _ _ _ _ => HttpResponse 200 no_comments_text
  | QuestionsUrl 1 (PyStr "111") => HttpResponse 200 qa_text
  | QuestionsUrl 1 (PyStr "222") => HttpResponse 200 one_answer_text
  | QuestionsUrl _ _ => HttpResponse 503 EmptyString
  | _ => ConnectionFailed
  end.

Definition demo : environment :=
  {| json_loads := fun text => dict_lookup text demo_documents;
     format_other := fun _ => "None";
     http := demo_http;
     to_csv_text := fun df => "csv";
     DATA_PATH := "out";
     MAX_WORKERS := 3;
     COMMENT_PARAM := mkCommentParam 2 1 6 10;
     QA_PARAM_pages := 2 |}.

Definition demo_world (manifest : string) (outputs : list (string * node)) : world :=
  {| dirs := <["ids" := [("m1.json", File manifest)]]> (<["out" := outputs]> ∅);
     checkpoint := None;
     requests_sent := 0;
     trace := [] |}.

(** The world after a first run over the manifest of the two string
    identifiers, and after a second run. *)
Definition demo_after_first_run : world :=
  snd (crawl_comments_and_qa demo "ids" "out" (demo_world string_manifest_text [])).


(** Two joined pools in which page 1 settled before page 0, and page 2
    before page 1. *)
Definition demo_com_start : DataFrame * world :=
  (mkDataFrame comment_columns [], demo_world EmptyString []).

Definition demo_qa_start : DataFrame * world :=
  (mkDataFrame qa_columns [], demo_world EmptyString []).

Definition demo_com_joined : Pool.state :=
  Pool.mkState [] [] [] [1; 0]
    (run_pool (com_crawl_page demo (PyStr "111")) [1; 0] demo_com_start) Pool.Joined.

Definition demo_qa_joined : Pool.state :=
  Pool.mkState [] [] [] [2; 1]
    (run_pool (qa_crawl_page demo (PyStr "111")) [2; 1] demo_qa_start) Pool.Joined.

(** The worlds after the collection of product 111, written as a string
    and as an integer, from an empty output directory. *)
Definition demo_after_string_target : world :=
  snd (com_start_crawling demo (PyStr "111") (demo_world string_manifest_text [])).

Definition demo_after_integer_target : world :=
  snd (com_start_crawling demo (PyInt 111) (demo_world integer_manifest_text [])).

(** A world whose output directory holds a QA artifact for product 111,
    and one with a QA artifact for a product named 7_1. *)
Definition demo_with_qa_artifact : world :=
  demo_world string_manifest_text [("qa_111.csv", File "csv")].


(** ** Predicates of the statements *)

(** The last character of a non-empty string. *)
Fixpoint last_char (s : string) : option ascii :=
  match s with
  | EmptyString => None
  | String c EmptyString => Some c
  | String _ s' => last_char s'
  end.

(** What [requests] treats as a failed request. *)
Definition request_fails (E : environment) (n : nat) (u : url) : Prop :=
  http E n u = ConnectionFailed \/
  exists status text, http E n u = HttpResponse status text /\ 400 <= status < 600.

(** A listing changes only at names that end in [.csv], and loses no name. *)
Definition csv_only_change (es es' : list (string * node)) : Prop :=
  (forall n, In n (map fst es) -> In n (map fst es')) /\
  (forall n, endswith n ".csv" = false -> find_entry n es' = find_entry n es).

(** The directories of [w'] are those of [w], changed in that way. *)
Definition grows (w w' : world) : Prop :=
  forall d,
    match dirs w !! d with
    | Some es => exists es', dirs w' !! d = Some es' /\ csv_only_change es es'
    | None => dirs w' !! d = None
    end.

(** The trace of [w'] is that of [w] followed by events that satisfy [P]. *)
Definition extends (P : event -> Prop) (w w' : world) : Prop :=
  exists new, trace w' = trace w ++ new /\ Forall P new.

(** The events the collection of one target may leave. *)
Definition crawl_event (product_id : pyobj) (e : event) : Prop :=
  match e with
  | Request u => url_target u = Some product_id
  | CrawlStarted p => p = product_id
  | CrawlFinished p _ => p = product_id
  | LogError | LogWarning | Sleep => True
  | TargetSkipped _ | CheckpointAppended _ => False
  end.

(** The events the page tasks and the persister may leave. *)
Definition page_event (product_id : pyobj) (e : event) : Prop :=
  match e with
  | Request u => url_target u = Some product_id
  | LogError | LogWarning | Sleep => True
  | _ => False
  end.

(** A step that leaves the directories and the checkpoint alone. *)
Definition quiet (P : event -> Prop) (w w' : world) : Prop :=
  dirs w' = dirs w /\ checkpoint w' = checkpoint w /\ extends P w w'.

(** The event is no work for the target named [t]. *)
Definition untouched (t : string) (e : event) : Prop := concerns t e = false.

Definition not_checkpoint (e : event) : Prop :=
  match e with
  | CheckpointAppended _ => False
  | _ => True
  end.

(** The output directory holds an artifact whose index entry is [t]. *)
Definition blocked (output_dir t : string) (w : world) : Prop :=
  exists name files,
    listdir output_dir w = inr files /\ In name files /\
    endswith name ".csv" = true /\ index_entry name = inr t.

(** What one manifest may come to. *)
Inductive manifest_outcome (E : environment) (output_dir filename content : string)
    (w : world) (r : res unit) (w' : world) (new : list event) : Prop :=
| undecodable :
    json_loads E content = None -> r = inr tt -> new = [LogError] ->
    checkpoint w' = checkpoint w -> dirs w' = dirs w ->
    manifest_outcome E output_dir filename content w r w' new
| no_output_dir :
    listdir output_dir w = inl FileNotFoundError -> r = inr tt -> new = [LogError] ->
    checkpoint w' = checkpoint w -> dirs w' = dirs w ->
    manifest_outcome E output_dir filename content w r w' new
| crashed e :
    r = inl e -> checkpoint w' = checkpoint w -> Forall not_checkpoint new ->
    manifest_outcome E output_dir filename content w r w' new
| completed data targets segment :
    r = inr tt -> json_loads E content = Some data ->
    manifest_targets data = inr targets ->
    new = segment ++ [CheckpointAppended filename] ->
    Forall not_checkpoint segment -> processed segment = targets ->
    checkpoint w' = Some (default EmptyString (checkpoint w) +:+ filename
                          +:+ String LF EmptyString) ->
    manifest_outcome E output_dir filename content w r w' new.

(** The name is not that of a manifest file of the directory. *)
Definition not_manifest (dir filename : string) (w : world) : Prop :=
  forall content,
    lookup_node dir filename w = Some (File content) -> endswith filename ".json" = false.

(** A name without line break. *)
Definition clean (name : string) : Prop :=
  has_char LF name = false /\ has_char CR name = false.

(** The text of a checkpoint file that records these names. *)
Fixpoint checkpoint_text (names : list string) : string :=
  match names with
  | [] => EmptyString
  | name :: names' => name +:+ String LF (checkpoint_text names')
  end.

(** The names the orchestrator reads back from the checkpoint file. *)
Definition recorded (w : world) : list string :=
  checkpoint_names (default EmptyString (checkpoint w)).

(** The checkpoint file is one the orchestrator wrote. *)
Definition checkpoint_wf (w : world) : Prop :=
  exists names, Forall clean names /\
                default EmptyString (checkpoint w) = checkpoint_text names.

(** The names a trace appends to the checkpoint. *)
Fixpoint appended (tr : list event) : list string :=
  match tr with
  | [] => []
  | CheckpointAppended f :: tr' => f :: appended tr'
  | _ :: tr' => appended tr'
  end.

(** The manifest of that name was a decodable file of the directory, and
    [before] ends with the events of a pass that dealt with every target
    it lists, in the order of the manifest. *)
Definition justified (E : environment) (ids : string) (w : world) (before : list event)
    (filename : string) : Prop :=
  exists content data targets earlier segment,
    lookup_node ids filename w = Some (File content) /\
    endswith filename ".json" = true /\
    json_loads E content = Some data /\
    manifest_targets data = inr targets /\
    before = earlier ++ segment /\
    processed segment = targets.

(** Nothing is left to do for the name: it is no manifest file, or it is
    one that does not decode. *)
Definition idle (E : environment) (ids filename : string) (w : world) : Prop :=
  not_manifest ids filename w \/
  exists content,
    lookup_node ids filename w = Some (File content) /\ json_loads E content = None.


(** ** Tactics *)

(** [simpl] may unfold the concatenation of strings. *)
Local Arguments String.append !_ _ / : simpl nomatch.

(** Equal traces up to the bracketing of [++]. *)
Ltac trace_eq := simpl; rewrite <- ?app_assoc; simpl; try reflexivity.

(** ** More readings of a trace and of a frame *)

(** The URLs requested, in order. *)
Fixpoint requests (tr : list event) : list url :=
  match tr with
  | [] => []
  | Request u :: tr' => u :: requests tr'
  | _ :: tr' => requests tr'
  end.

(** The targets whose collection was started, and those the orchestrator
    skipped, in order. *)
Fixpoint started (tr : list event) : list pyobj :=
  match tr with
  | [] => []
  | CrawlStarted t :: tr' => t :: started tr'
  | _ :: tr' => started tr'
  end.

Fixpoint skipped (tr : list event) : list pyobj :=
  match tr with
  | [] => []
  | TargetSkipped t :: tr' => t :: skipped tr'
  | _ :: tr' => skipped tr'
  end.

(** The URL [get_comments] builds for a page, and the one [get_qa] builds. *)
Definition comments_url (E : environment) (product_id : pyobj) (page : Z) : url :=
  CommentsUrl product_id (score (COMMENT_PARAM E)) (sort_type (COMMENT_PARAM E))
    page (page_size (COMMENT_PARAM E)).

Definition questions_url (product_id : pyobj) (page : Z) : url :=
  QuestionsUrl page product_id.

(** A row of the comment frame: eight cells, the identifier of the target
    in the seventh, and in the third a string without line feed. *)
Definition comment_row_ok (product_id : pyobj) (r : row) : Prop :=
  length r = 8%nat /\ nth_error r 6 = Some product_id /\
  exists s, nth_error r 2 = Some (PyStr s) /\ has_char LF s = false.

Definition comment_frame_ok (product_id : pyobj) (df : DataFrame) : Prop :=
  columns df = comment_columns /\ Forall (comment_row_ok product_id) (rows df).

Definition qa_frame_ok (df : DataFrame) : Prop :=
  columns df = qa_columns /\ Forall (fun r : row => length r = 8%nat) (rows df).


(** A task that sends the request of its page and no other. *)
Definition one_request_per_page (url_of : Z -> url)
    (task : Z -> DataFrame * world -> res unit * (DataFrame * world)) : Prop :=
  forall page cd w r cd' w',
    task page (cd, w) = (r, (cd', w')) ->
    exists extra,
      trace w' = trace w ++ Request (url_of page) :: extra /\
      requests extra = [] /\ requests_sent w' = S (requests_sent w).


(** The name of the artifact of a target, inside the data directory. *)
Definition artifact_name (E : environment) (kind : string) (product_id : pyobj) : string :=
  kind +:+ "_" +:+ py_format E product_id +:+ ".csv".


Definition demo_with_longer_artifact : world :=
  demo_world string_manifest_text [("com_111_2.csv", File "csv")].

(** What is wrong with the shape of a decoded manifest, if anything: it is
    no object, it is an object without member, or its first member is
    nothing a loop can walk. *)
Definition manifest_shape_error (data : pyobj) : option exn :=
  match data with
  | PyDict [] => Some IndexError
  | PyDict ((_, v) :: _) =>
      match v with
      | PyList _ | PyDict _ | PyStr _ => None
      | _ => Some TypeError
      end
  | _ => Some AttributeError
  end.

(** The entry of a manifest carries a [sku]. *)
Definition has_sku (product_info : pyobj) : Prop :=
  exists product_id, py_getitem product_info "sku" = inr product_id.

(** The requests that collecting these targets takes, one target after
    the other. *)
Definition requests_for (E : environment) (targets : list pyobj) : list url :=
  flat_map (fun product_id => map (comments_url E product_id) (com_page_list E)) targets.

(** More documents, and an environment whose decoder knows them too: a
    manifest that is an object without member, and a manifest whose
    second entry carries no [sku],
    [{"rings": [{"sku": "111"}, {"description": "x"}]}]. *)
Definition empty_object_text : string := "{}".

Definition missing_sku_text : string :=
  "{" +:+ quoted "rings" +:+ ": [{" +:+ quoted "sku" +:+ ": " +:+ quoted "111"
  +:+ "}, {" +:+ quoted "description" +:+ ": " +:+ quoted "x" +:+ "}]}".

Definition missing_sku : pyobj :=
  PyDict [("rings", PyList [PyDict [("sku", PyStr "111")];
                            PyDict [("description", PyStr "x")]])].

(** [{"rings": [{"sku": "111", "description": "ring"}]}], what the search
    spider saves for the keyword rings and one product found. *)
Definition searched_text : string :=
  "{" +:+ quoted "rings" +:+ ": [{" +:+ quoted "sku" +:+ ": " +:+ quoted "111"
  +:+ ", " +:+ quoted "description" +:+ ": " +:+ quoted "ring" +:+ "}]}".

Definition searched : pyobj :=
  PyDict [("rings", PyList [PyDict [("sku", PyStr "111");
                                    ("description", PyStr "ring")]])].

Definition wide : environment :=
  {| json_loads := fun text =>
       dict_lookup text
         ((empty_object_text, PyDict []) :: (missing_sku_text, missing_sku)
          :: (searched_text, searched) :: demo_documents);
     format_other := format_other demo;
     http := http demo;
     to_csv_text := to_csv_text demo;
     DATA_PATH := "out";
     MAX_WORKERS := 3;
     COMMENT_PARAM := mkCommentParam 2 1 6 10;
     QA_PARAM_pages := 2 |}.

(** A request for a page of comments, with the configured parameters and
    a page number below the page count. *)
Definition comment_page_request (E : environment) (u : url) : Prop :=
  match u with
  | CommentsUrl _ s st page ps =>
      s = score (COMMENT_PARAM E) /\ st = sort_type (COMMENT_PARAM E) /\
      ps = page_size (COMMENT_PARAM E) /\ 0 <= page < pages (COMMENT_PARAM E)
  | _ => False
  end.

(** The trace of [w'] is that of [w] followed by events whose requests
    all satisfy [Q]. *)
Definition asks (Q : url -> Prop) (w w' : world) : Prop :=
  exists new, trace w' = trace w ++ new /\ Forall Q (requests new).

(** ** The search spider: [search_spider.py]

    The part of the search spider that does not drive the browser: the
    height [scroll_to_half] scrolls to, the document [jd_search_spider]
    builds for a keyword, and [save_product_ids], which writes it where
    the orchestrator looks for manifests. *)

(** [scroll_to_half]: from the total height the browser reports, the
    height the page is scrolled to, and the script that does it. *)
Definition half_height (total_height : Z) : Z := total_height - total_height / 4.

Definition scroll_script (total_height : Z) : string :=
  "window.scrollTo(0, " +:+ pretty (half_height total_height) +:+ ")".

(** [{"sku": sku_value, "description": desc}] and [{keyword: product_list}]. *)
Definition product_info (sku_value desc : pyobj) : pyobj :=
  PyDict [("sku", sku_value); ("description", desc)].

Definition keyword_manifest (keyword : string) (products : list (pyobj * pyobj)) : pyobj :=
  PyDict [(keyword, PyList (map (fun p => product_info (fst p) (snd p)) products))].

(** [os.path.join(a, b)] for a [b] that is not empty. *)
Definition path_join (a b : string) : string :=
  match b with
  | String c _ =>
      if Ascii.eqb c slash then b
      else match last_char a with
           | None => b
           | Some d => if Ascii.eqb d slash then a +:+ b else a +:+ "/" +:+ b
           end
  | EmptyString => a
  end.

(** The path names a file of the directory it lies in. *)
Definition names_a_file (p : string) (w : world) : bool :=
  match lookup_node (directory_of p) (basename p) w with
  | Some (File _) => true
  | _ => false
  end.

Section SearchSpider.

(** The text [json.dump(product_list, json_file, indent=4,
    ensure_ascii=False)] writes. *)
Variable json_dump : pyobj -> string.

(** [save_product_ids]: every exception is caught, logged and turned
    into [None].  [os.makedirs] raises on the empty path; a directory is
    created as the orchestrator creates its output directory, under its
    path as written, so [save_dir] is meant without a slash at its end;
    nothing is created when the path names a file; [open] fails when the
    directory of the path is missing or when the path names a
    directory. *)
Definition save_product_ids (product_list : pyobj) (save_dir filename : string)
    (w : world) : option string * world :=
  let json_file_path := path_join save_dir (filename +:+ ".json") in
  if String.eqb save_dir EmptyString then (None, log LogError w)
  else
    let w1 :=
      match dirs w !! save_dir with
      | Some _ => w
      | None =>
          if names_a_file save_dir w then w
          else set_dirs (<[save_dir := []]> (dirs w)) w
      end in
    match write_file json_file_path (File (json_dump product_list)) w1 with
    | Some w2 => (Some json_file_path, w2)
    | None => (None, log LogError w1)
    end.

End SearchSpider.

(** ** The search spider and the browser

    [jd_search_spider] drives a browser through the library.  A call to
    the browser returns or raises; what it does is decided by the browser,
    from the calls made before.  The session records, in order, the calls
    made and the documents handed to [save_product_ids]. *)

Inductive search_exn : Type :=
| WebDriverException
| OtherException.

(** The three elements of the login page, found by their XPath. *)
Inductive login_element : Type := LoginName | LoginPassword | LoginSubmit.

Inductive browser_call : Type :=
| StartFirefox
| OpenLogin
| FindField (e : login_element)
| TypeInto (e : login_element) (text : string)
| ClickOn (e : login_element)
| OpenTab
| ReadHandles
| SwitchTo (handle : string)
| OpenSearch (keyword : string)
| WaitForItems
| ReadHeight
| RunScript (js : string)
| FindProducts
| ReadSku (i : nat)
| FindName (i : nat)
| ReadText (i : nat)
| QuitDriver.

Record browser : Type := mkBrowser {
  raised : list browser_call -> browser_call -> option search_exn;
  scroll_height : list browser_call -> Z;
  window_handles : list browser_call -> list string;
  products_found : list browser_call -> nat;
  sku_attribute : list browser_call -> nat -> pyobj;
  name_text : list browser_call -> nat -> string
}.

Record session : Type := mkSession {
  disk : world;
  calls : list browser_call;
  saved : list (string * pyobj)
}.

(** A computation of the search spider returns or raises, and leaves a
    session. *)
Definition search (A : Type) : Type := session -> (search_exn + A) * session.

Definition s_ret {A} (a : A) : search A := fun s => (inr a, s).
Definition s_raise {A} (e : search_exn) : search A := fun s => (inl e, s).
Definition s_bind {A B} (m : search A) (k : A -> search B) : search B :=
  fun s =>
    match m s with
    | (inl e, s') => (inl e, s')
    | (inr a, s') => k a s'
    end.

Declare Scope search_scope.
Delimit Scope search_scope with search.
Notation "x <- m ; k" := (s_bind m (fun x => k))
  (at level 200, m at level 100, k at level 200, right associativity) : search_scope.

(** [logger.error]. *)
Definition s_log_error (s : session) : session :=
  mkSession (log LogError (disk s)) (calls s) (saved s).

Section Browser.

Variable B : browser.
Variable json_dump : pyobj -> string.

(** [get_pinyin_initials] rests on the pinyin table of the library. *)
Variable get_pinyin_initials : string -> string.

Local Open Scope search_scope.

(** One call to the browser, and one call whose answer is used. *)
Definition call (c : browser_call) : search unit :=
  fun s =>
    let s' := mkSession (disk s) (calls s ++ [c]) (saved s) in
    match raised B (calls s) c with
    | Some e => (inl e, s')
    | None => (inr tt, s')
    end.

Definition ask {A} (c : browser_call) (answer : list browser_call -> A) : search A :=
  fun s =>
    match call c s with
    | (inl e, s') => (inl e, s')
    | (inr _, s') => (inr (answer (calls s)), s')
    end.

(** [get_driver]: an exception of the library is logged and raised
    again. *)
Definition get_driver : search unit :=
  fun s =>
    match call StartFirefox s with
    | (inl e, s') => (inl e, s_log_error s')
    | (inr _, s') => (inr tt, s')
    end.

Definition perform_login (username password : string) : search unit :=
  _ <- call (FindField LoginName);
  _ <- call (TypeInto LoginName username);
  _ <- call (FindField LoginPassword);
  _ <- call (TypeInto LoginPassword password);
  _ <- call (FindField LoginSubmit);
  call (ClickOn LoginSubmit).

Definition scroll_to_half : search unit :=
  total_height <- ask ReadHeight (scroll_height B);
  call (RunScript (scroll_script total_height)).

(** The loop over the products of a page, from the product of index [i];
    [product_list] holds the products read so far. *)
Fixpoint read_products (n i : nat) (product_list : list (pyobj * pyobj))
  : search (list (pyobj * pyobj)) :=
  match n with
  | O => s_ret product_list
  | S n' =>
      sku_value <- ask (ReadSku i) (fun before => sku_attribute B before i);
      _ <- call (FindName i);
      desc <- ask (ReadText i) (fun before => name_text B before i);
      read_products n' (S i) (product_list ++ [(sku_value, PyStr desc)])
  end.

(** [driver.window_handles[-1]]. *)
Definition last_handle (hs : list string) : search string :=
  match last hs with
  | Some h => s_ret h
  | None => s_raise OtherException
  end.

Definition s_save (document : pyobj) (save_dir filename : string) : search unit :=
  fun s =>
    (inr tt,
     mkSession (snd (save_product_ids json_dump document save_dir filename (disk s)))
       (calls s) (saved s ++ [(filename, document)])).

(** The body of the loop over the keywords. *)
Definition search_keyword (save_dir keyword : string) : search unit :=
  _ <- call OpenTab;
  hs <- ask ReadHandles (window_handles B);
  h <- last_handle hs;
  _ <- call (SwitchTo h);
  _ <- call (OpenSearch keyword);
  _ <- call WaitForItems;
  _ <- scroll_to_half;
  n <- ask FindProducts (products_found B);
  product_list <- read_products n 0 [];
  s_save (keyword_manifest keyword product_list) save_dir
    (get_pinyin_initials (str_replace space underscore keyword)).

Fixpoint search_keywords (save_dir : string) (keywords : list string) : search unit :=
  match keywords with
  | [] => s_ret tt
  | keyword :: rest =>
      _ <- search_keyword save_dir keyword;
      search_keywords save_dir rest
  end.

(** What the [try] block does once the driver is there. *)
Definition with_driver (keywords : list string) (username password save_dir : string)
  : search unit :=
  _ <- call OpenLogin;
  _ <- perform_login username password;
  search_keywords save_dir keywords.

(** [jd_search_spider]: [except WebDriverException] logs and goes on;
    [finally] quits the driver when there is one. *)
Definition jd_search_spider (keywords : list string) (username password save_dir : string)
  : search unit :=
  fun s =>
    match get_driver s with
    | (inl WebDriverException, s1) => (inr tt, s_log_error s1)
    | (inl e, s1) => (inl e, s1)
    | (inr _, s1) =>
        let '(r, s2) :=
          match with_driver keywords username password save_dir s1 with
          | (inl WebDriverException, s2) => (inr tt, s_log_error s2)
          | r => r
          end in
        match call QuitDriver s2 with
        | (inl e, s3) => (inl e, s3)
        | (inr _, s3) => (r, s3)
        end
    end.

End Browser.

(** The call is neither the start of the driver nor its end. *)
Definition ordinary (c : browser_call) : Prop :=
  c <> StartFirefox /\ c <> QuitDriver.

(** Every call of [new], made after [before], returned. *)
Definition all_returned (B : browser) (before new : list browser_call) : Prop :=
  forall pre c post, new = pre ++ c :: post -> raised B (before ++ pre) c = None.

(** The last call of [new] raised [e], and the calls before it
    returned. *)
Definition stopped_at_last (B : browser) (before new : list browser_call)
    (e : search_exn) : Prop :=
  exists pre c,
    new = pre ++ [c] /\ all_returned B before pre /\ raised B (before ++ pre) c = Some e.

(** A computation that makes ordinary calls only, goes on as long as
    they return, and raises either what its last call raised or, with no
    call at fault, the [IndexError] of an empty list of window handles. *)
Definition tidy (B : browser) {A} (m : search A) : Prop :=
  forall s r s',
    m s = (r, s') ->
    exists new,
      calls s' = calls s ++ new /\
      Forall ordinary new /\
      match r with
      | inr _ => all_returned B (calls s) new
      | inl e =>
          stopped_at_last B (calls s) new e \/
          (e = OtherException /\ all_returned B (calls s) new /\
           exists before, window_handles B before = [])
      end.



(** A browser with one window and one product on every page, in which
    the wait for the items of the page of the keyword silver times out;
    and a session of the spider over three keywords with it. *)
Definition demo_browser : browser :=
  {| raised := fun before c =>
       match c, last before with
       | WaitForItems, Some (OpenSearch "silver") => Some WebDriverException
       | _, _ => None
       end;
     scroll_height := fun _ => 1000;
     window_handles := fun _ => ["w1"];
     products_found := fun _ => 1%nat;
     sku_attribute := fun _ _ => PyStr "111";
     name_text := fun _ _ => "ring" |}.

Definition demo_session : session := mkSession (demo_world EmptyString []) [] [].

Definition demo_search : (search_exn + unit) * session :=
  jd_search_spider demo_browser (fun _ => searched_text) (fun s => s)
    ["gold ring"; "silver"; "jade"] "user" "secret" "ids" demo_session.

(** * Proofs *)

(** ** The definitions on small inputs *)

Example str_split_example :
  str_split underscore "com_100_1.csv" = ["com"; "100"; "1.csv"] /\
  str_split dot EmptyString = [EmptyString].
Proof. split; reflexivity. Qed.

Example index_entry_example :
  index_entry "com_100012.csv" = inr "100012" /\
  index_entry "qa_100012.csv" = inr "100012" /\
  index_entry "com_a_b.csv" = inr "a" /\
  index_entry "com_1.5.csv" = inr "1" /\
  index_entry "notes.csv" = inl IndexError.
Proof. repeat split. Qed.

Example build_index_example :
  build_index ["com_1.csv"; "readme.txt"; "qa_2.csv"] = inr ["1"; "2"] /\
  build_index ["com_1.csv"; "notes.csv"] = inl IndexError.
Proof. split; reflexivity. Qed.

Example py_in_example :
  py_in (PyStr "1") ["1"; "2"] = true /\
  py_in (PyInt 1) ["1"; "2"] = false /\
  py_in (PyStr "3") ["1"; "2"] = false.
Proof. repeat split. Qed.

Example py_range_example :
  py_range 0 3 = [0; 1; 2] /\ py_range 1 (3 + 1) = [1; 2; 3] /\ py_range 0 (-2) = [].
Proof. repeat split. Qed.

Example path_split_example :
  path_split "out/com_1.csv" = (Some "out", "com_1.csv") /\
  path_split "a/out/com_x/y.csv" = (Some "a/out/com_x", "y.csv") /\
  path_split "plain.csv" = (None, "plain.csv").
Proof. repeat split. Qed.

Example endswith_example :
  endswith "m1.json" ".json" = true /\ endswith "m1.json.bak" ".json" = false /\
  endswith "json" ".json" = false.
Proof. repeat split. Qed.

Example checkpoint_names_example :
  checkpoint_names ("a.json" +:+ String LF ("b.json" +:+ String LF EmptyString))
  = ["a.json"; "b.json"] /\
  checkpoint_names ("a.json" +:+ String CR (String LF "b.json")) = ["a.json"; "b.json"] /\
  checkpoint_names ("a" +:+ String CR "b.json" +:+ String LF EmptyString) = ["a"; "b.json"] /\
  checkpoint_names EmptyString = [].
Proof. repeat split. Qed.

Example py_format_example :
  py_format demo (PyInt 100015394631) = "100015394631" /\
  py_format demo (PyInt (-7)) = "-7" /\
  py_format demo (PyStr "100015394631") = "100015394631" /\
  artifact_path demo "com" (PyInt 111) = "out/com_111.csv".
Proof. repeat split. Qed.

Example first_run_example :
  crawl_comments_and_qa demo "ids" "out" (demo_world string_manifest_text [])
  = (inr tt, demo_after_first_run) /\
  trace demo_after_first_run
  = [CrawlStarted (PyStr "111");
     Request (CommentsUrl (PyStr "111") 1 6 0 10); Sleep;
     Request (CommentsUrl (PyStr "111") 1 6 1 10); LogError;
     CrawlFinished (PyStr "111") Persisted; Sleep;
     CrawlStarted (PyStr "222");
     Request (CommentsUrl (PyStr "222") 1 6 0 10); Sleep;
     Request (CommentsUrl (PyStr "222") 1 6 1 10); LogError; LogWarning;
     CrawlFinished (PyStr "222") Skipped; Sleep;
     CheckpointAppended "m1.json"] /\
  listdir "out" demo_after_first_run = inr ["com_111.csv"].
Proof. repeat split; vm_compute; reflexivity. Qed.

Example skipped_by_qa_artifact_example :
  trace (snd (crawl_comments_and_qa demo "ids" "out" demo_with_qa_artifact))
  = [TargetSkipped (PyStr "111");
     CrawlStarted (PyStr "222");
     Request (CommentsUrl (PyStr "222") 1 6 0 10); Sleep;
     Request (CommentsUrl (PyStr "222") 1 6 1 10); LogError; LogWarning;
     CrawlFinished (PyStr "222") Skipped; Sleep;
     CheckpointAppended "m1.json"].
Proof. vm_compute. reflexivity. Qed.


(** ** The parsers *)

Section ParserFacts.

Variable E : environment.
















End ParserFacts.





(** ** The fetchers *)

Section FetcherFacts.

Variable E : environment.

Lemma is_error_status_true status :
  400 <= status < 600 -> is_error_status status = true.
Proof. unfold is_error_status. intros [H1 H2]. apply andb_true_intro. split; lia. Qed.

(** C5, as the code has it: on a failed request the comment fetcher raises
    a [RequestException] to its caller, while the QA fetcher returns
    [None]; both log the error and neither sends a second request. *)
Theorem fetchers_fail_without_retry u w :
  request_fails E (requests_sent w) u ->
  (exists w', com_send_request E u w = (inl RequestException, w') /\
              trace w' = trace w ++ [Request u; LogError] /\
              requests_sent w' = S (requests_sent w) /\ dirs w' = dirs w) /\
  (exists w', qa_send_request E u w = (inr None, w') /\
              trace w' = trace w ++ [Request u; LogError] /\
              requests_sent w' = S (requests_sent w) /\ dirs w' = dirs w).
Proof.
  intros Hfail. unfold com_send_request, qa_send_request.
  destruct Hfail as [->|(status & text & -> & Hstatus)].
  - split; eexists; (split; [reflexivity|]); simpl;
      rewrite <- app_assoc; repeat split.
  - rewrite (is_error_status_true _ Hstatus).
    split; eexists; (split; [reflexivity|]); simpl;
      rewrite <- app_assoc; repeat split.
Qed.

End FetcherFacts.

Lemma fetchers_fail_without_retry_witness :
  request_fails demo 0 (QuestionsUrl 2 (PyStr "111")) /\
  (exists w', com_send_request demo (QuestionsUrl 2 (PyStr "111"))
                (demo_world EmptyString []) = (inl RequestException, w') /\
              trace w' = [Request (QuestionsUrl 2 (PyStr "111")); LogError] /\
              requests_sent w' = 1%nat /\ dirs w' = dirs (demo_world EmptyString [])) /\
  (exists w', qa_send_request demo (QuestionsUrl 2 (PyStr "111"))
                (demo_world EmptyString []) = (inr None, w') /\
              trace w' = [Request (QuestionsUrl 2 (PyStr "111")); LogError] /\
              requests_sent w' = 1%nat /\ dirs w' = dirs (demo_world EmptyString [])).
Proof.
  assert (Hfail : request_fails demo 0 (QuestionsUrl 2 (PyStr "111"))).
  { right. exists 503, EmptyString. split; [reflexivity|lia]. }
  split; [exact Hfail|].
  exact (fetchers_fail_without_retry demo (QuestionsUrl 2 (PyStr "111"))
           (demo_world EmptyString []) Hfail).
Defined.

(** C5 as stated fails for the QA fetcher: the service answers 503 and the
    call returns [None] to its caller instead of raising. *)
Lemma qa_fetcher_returns_none_on_failure :
  http demo 0 (QuestionsUrl 2 (PyStr "111")) = HttpResponse 503 EmptyString /\
  fst (qa_send_request demo (QuestionsUrl 2 (PyStr "111")) (demo_world EmptyString []))
  = inr None /\
  http demo 0 (AnswersUrl (PyInt 5)) = ConnectionFailed /\
  fst (qa_send_request demo (AnswersUrl (PyInt 5)) (demo_world EmptyString []))
  = inr None.
Proof. repeat split. Qed.

(** ** The thread pool *)

Lemma py_range_length lo hi : length (py_range lo hi) = Z.to_nat (hi - lo).
Proof. unfold py_range. by rewrite length_map, length_seq. Qed.

Lemma py_range_In lo hi i : In i (py_range lo hi) <-> lo <= i < hi.
Proof.
  unfold py_range. rewrite in_map_iff. split.
  - intros (k & <- & Hk). apply in_seq in Hk. lia.
  - intros Hi. exists (Z.to_nat (i - lo)). split; [lia|].
    apply in_seq. lia.
Qed.


Lemma run_pool_snoc {S} (task : Z -> S -> res unit * S) l p st :
  run_pool task (l ++ [p]) st = submitted (task p) (run_pool task l st).
Proof. unfold run_pool. by rewrite fold_left_app. Qed.

Section PoolFacts.

Context {S : Type}.
Variable task : Z -> S -> res unit * S.
Variable max_workers : Z.
Variable page_list : list Z.
Variable st0 : S.

Import Pool.

Lemma pool_invariant_init : invariant task page_list st0 (init page_list st0).
Proof. repeat split; try discriminate. simpl. reflexivity. Qed.

Lemma pool_invariant_step s s' :
  step task max_workers s s' -> invariant task page_list st0 s -> invariant task page_list st0 s'.
Proof.
  intros Hstep (Hperm & Hshared & Hjoin).
  destruct Hstep as [p ps q r d st|ps p q r d st ph Hfree|ps q r1 p r2 d st ph|d st];
    unfold invariant; simpl in *.
  - split; [|split]; [|assumption|discriminate].
    rewrite <- Hperm. rewrite <- !app_assoc. reflexivity.
  - split; [|split]; [|assumption|].
    + rewrite <- Hperm. rewrite <- !app_assoc. reflexivity.
    + intros Hph. destruct (Hjoin Hph) as (_ & Hq & _). discriminate.
  - split; [|split].
    + rewrite <- Hperm. rewrite <- !app_assoc. apply Permutation_app_head.
      simpl. apply Permutation_middle.
    + rewrite run_pool_snoc. by rewrite Hshared.
    + intros Hph. destruct (Hjoin Hph) as (_ & _ & Hr).
      destruct r1; discriminate.
  - split; [|split]; [assumption|assumption|by intros _].
Qed.

Lemma pool_invariant_reachable s :
  reachable task max_workers page_list st0 s -> invariant task page_list st0 s.
Proof.
  induction 1 as [|s s' _ IH Hstep].
  - apply pool_invariant_init.
  - by apply (pool_invariant_step s s').
Qed.

(** Once the main thread has left the [with] block, every page has been
    submitted and has settled, and the shared state is the one the tasks
    leave when run one after the other in the order they settled. *)
Lemma pool_joined s :
  reachable task max_workers page_list st0 s ->
  main s = Joined ->
  Permutation (settled s) page_list /\
  to_submit s = [] /\ queued s = [] /\ running s = [] /\
  shared s = run_pool task (settled s) st0.
Proof.
  intros Hreach Hph.
  destruct (pool_invariant_reachable s Hreach) as (Hperm & Hshared & Hjoin).
  destruct (Hjoin Hph) as (Hs & Hq & Hr).
  rewrite Hs, Hq, Hr, !app_nil_r in Hperm. by repeat split.
Qed.



(** Two pages, both running at once, the second settling first. *)
Lemma pool_two_pages_reversed a b :
  page_list = [a; b] ->
  2 <= max_workers ->
  reachable task max_workers page_list st0
    (mkState (S := S) [] [] [] [b; a] (run_pool task [b; a] st0) Joined).
Proof.
  intros Hpages Hw.
  eapply reach_step; [|apply Join].
  eapply reach_step; [|apply (Settle task max_workers [] [] [] a [] [b])].
  eapply reach_step; [|apply (Settle task max_workers [] [] [a] b [] [])].
  eapply reach_step; [|apply (Start task max_workers [] b [] [a]); simpl; lia].
  eapply reach_step; [|apply (Start task max_workers [] a [b] []); simpl; lia].
  eapply reach_step; [|apply (Submit task max_workers b [] [a])].
  eapply reach_step; [|apply (Submit task max_workers a [b] [])].
  rewrite <- Hpages. apply reach_init.
Qed.

End PoolFacts.

Section PoolClaims.

Variable E : environment.



End PoolClaims.


(** ** Strings *)

Lemma ascii_eqb_refl c : Ascii.eqb c c = true.
Proof. by apply Ascii.eqb_eq. Qed.

Lemma string_app_assoc (a b c : string) : (a +:+ b) +:+ c = a +:+ (b +:+ c).
Proof. induction a as [|x a IH]; simpl; [reflexivity|]. by rewrite IH. Qed.

Lemma string_app_empty_r (a : string) : a +:+ EmptyString = a.
Proof. induction a as [|x a IH]; simpl; [reflexivity|]. by rewrite IH. Qed.

Lemma has_char_app c a b : has_char c (a +:+ b) = has_char c a || has_char c b.
Proof.
  induction a as [|x a IH]; simpl; [reflexivity|].
  rewrite IH. by rewrite orb_assoc.
Qed.

Lemma endswith_unfold s suffix :
  endswith s suffix =
  String.eqb s suffix ||
  match s with
  | EmptyString => false
  | String _ s' => endswith s' suffix
  end.
Proof. by destruct s. Qed.

Lemma endswith_app p suffix : endswith (p +:+ suffix) suffix = true.
Proof.
  induction p as [|x p IH].
  - rewrite endswith_unfold. simpl. by rewrite String.eqb_refl.
  - rewrite endswith_unfold. simpl String.append. cbv iota. rewrite IH.
    apply orb_true_r.
Qed.

Lemma endswith_suffix s suffix :
  endswith s suffix = true -> exists p, s = p +:+ suffix.
Proof.
  induction s as [|x s IH]; rewrite endswith_unfold.
  - rewrite orb_false_r. intros H. apply String.eqb_eq in H. by exists EmptyString.
  - intros H. apply orb_prop in H as [H|H].
    + apply String.eqb_eq in H. by exists EmptyString.
    + destruct (IH H) as [p ->]. by exists (String x p).
Qed.

Lemma string_app_length (a b : string) :
  String.length (a +:+ b) = (String.length a + String.length b)%nat.
Proof. induction a as [|x a IH]; simpl; [reflexivity|]. by rewrite IH. Qed.

Lemma last_char_app a b :
  b <> EmptyString -> last_char (a +:+ b) = last_char b.
Proof.
  intros Hb. induction a as [|x a IH]; simpl; [reflexivity|].
  rewrite <- IH. destruct (a +:+ b) eqn:Hab; [|reflexivity].
  destruct a; simpl in Hab; [congruence|discriminate].
Qed.

(** A name cannot end both in [.csv] and in [.json]. *)
Lemma csv_is_not_json name :
  endswith name ".csv" = true -> endswith name ".json" = false.
Proof.
  intros Hcsv. destruct (endswith name ".json") eqn:Hjson; [|reflexivity].
  destruct (endswith_suffix _ _ Hcsv) as [p Hp].
  destruct (endswith_suffix _ _ Hjson) as [q Hq].
  assert (H : last_char (p +:+ ".csv") = last_char (q +:+ ".json")) by congruence.
  rewrite !last_char_app in H by discriminate. discriminate.
Qed.

Lemma str_split_no_sep sep s :
  has_char sep s = false -> str_split sep s = [s].
Proof.
  induction s as [|x s IH]; simpl; [reflexivity|].
  intros H. apply orb_false_elim in H as [Hx Hs].
  rewrite Hx, (IH Hs). reflexivity.
Qed.

Lemma str_split_at_sep sep a b :
  has_char sep a = false ->
  str_split sep (a +:+ String sep b) = a :: str_split sep b.
Proof.
  induction a as [|x a IH]; simpl.
  - by rewrite ascii_eqb_refl.
  - intros H. apply orb_false_elim in H as [Hx Ha].
    rewrite Hx, (IH Ha). reflexivity.
Qed.

(** The index entry of an artifact name is the identifier between the
    first underscore and the extension, whatever stands before the
    underscore. *)
Lemma index_entry_artifact kind t :
  has_char underscore kind = false ->
  has_char underscore t = false ->
  has_char dot t = false ->
  index_entry (kind +:+ "_" +:+ t +:+ ".csv") = inr t.
Proof.
  intros Hk Htu Htd. unfold index_entry.
  change ("_" +:+ t +:+ ".csv") with (String underscore (t +:+ ".csv")).
  rewrite (str_split_at_sep _ _ _ Hk).
  rewrite str_split_no_sep by (by rewrite has_char_app, Htu).
  simpl.
  change (t +:+ ".csv") with (t +:+ String dot "csv").
  by rewrite (str_split_at_sep _ _ _ Htd).
Qed.

(** The pieces of a split hold neither the separator nor any character
    the string did not hold. *)
Lemma str_split_pieces sep s :
  Forall (fun p => has_char sep p = false) (str_split sep s).
Proof.
  induction s as [|x s IH]; simpl; [by repeat constructor|].
  destruct (Ascii.eqb x sep) eqn:Hx; [by constructor|].
  destruct (str_split sep s) as [|w ws]; [by repeat constructor; simpl; rewrite Hx|].
  apply Forall_cons in IH as [Hw Hws]. constructor; [|assumption].
  simpl. by rewrite Hx.
Qed.

Lemma str_split_keeps_out c sep s :
  has_char c s = false ->
  Forall (fun p => has_char c p = false) (str_split sep s).
Proof.
  induction s as [|x s IH]; simpl; [by repeat constructor|].
  intros H. apply orb_false_elim in H as [Hx Hs]. specialize (IH Hs).
  destruct (Ascii.eqb x sep); [by constructor|].
  destruct (str_split sep s) as [|w ws]; [by repeat constructor; simpl; rewrite Hx|].
  apply Forall_cons in IH as [Hw Hws]. constructor; [|assumption].
  simpl. by rewrite Hx.
Qed.

(** An index entry holds neither an underscore nor a dot. *)
Lemma index_entry_shape name e :
  index_entry name = inr e ->
  has_char underscore e = false /\ has_char dot e = false.
Proof.
  unfold index_entry, list_index.
  destruct (nth_error (str_split underscore name) 1) as [part|] eqn:Hpart;
    simpl; [|discriminate].
  assert (Hu : has_char underscore part = false).
  { pose proof (str_split_pieces underscore name) as Hall.
    rewrite List.Forall_forall in Hall. by apply Hall, (nth_error_In _ 1). }
  pose proof (str_split_pieces dot part) as Hd.
  pose proof (str_split_keeps_out underscore dot part Hu) as Hk.
  destruct (str_split dot part) as [|w ws]; simpl; [discriminate|].
  intros [= <-]. apply Forall_cons in Hd as [Hd _]. apply Forall_cons in Hk as [Hk _].
  by split.
Qed.

Lemma path_split_no_slash b :
  has_char slash b = false -> path_split b = (None, b).
Proof.
  induction b as [|x b IH]; simpl; [reflexivity|].
  intros H. apply orb_false_elim in H as [Hx Hb].
  by rewrite (IH Hb), Hx.
Qed.

Lemma path_split_app a b :
  has_char slash b = false ->
  path_split (a +:+ b) = (fst (path_split a), snd (path_split a) +:+ b).
Proof.
  intros Hb. induction a as [|x a IH]; simpl.
  - by apply path_split_no_slash.
  - rewrite IH. destruct (path_split a) as [[d|] base]; simpl; [reflexivity|].
    by destruct (Ascii.eqb x slash).
Qed.

Lemma path_split_dir d b :
  has_char slash b = false ->
  path_split (d +:+ String slash b) = (Some d, b).
Proof.
  intros Hb. induction d as [|x d IH]; simpl.
  - by rewrite (path_split_no_slash _ Hb).
  - by rewrite IH.
Qed.

(** Every path that ends in [.csv] names a file that ends in [.csv]. *)
Lemma basename_csv p : endswith (basename (p +:+ ".csv")) ".csv" = true.
Proof.
  unfold basename. rewrite path_split_app by reflexivity. simpl.
  apply endswith_app.
Qed.

(** ** How the world changes *)

Lemma csv_only_change_refl es : csv_only_change es es.
Proof. by split. Qed.

Lemma csv_only_change_trans es1 es2 es3 :
  csv_only_change es1 es2 -> csv_only_change es2 es3 -> csv_only_change es1 es3.
Proof.
  intros [Ha Hb] [Hc Hd]. split.
  - intros n Hn. by apply Hc, Ha.
  - intros n Hn. by rewrite (Hd n Hn), (Hb n Hn).
Qed.

Lemma grows_refl w : grows w w.
Proof.
  intros d. destruct (dirs w !! d) as [es|]; [|reflexivity].
  exists es. split; [reflexivity|apply csv_only_change_refl].
Qed.

Lemma grows_trans w1 w2 w3 : grows w1 w2 -> grows w2 w3 -> grows w1 w3.
Proof.
  intros H12 H23 d. specialize (H12 d). specialize (H23 d).
  destruct (dirs w1 !! d) as [es1|].
  - destruct H12 as (es2 & Hd2 & Hc12). rewrite Hd2 in H23.
    destruct H23 as (es3 & Hd3 & Hc23). exists es3. split; [assumption|].
    by apply (csv_only_change_trans es1 es2 es3).
  - by rewrite H12 in H23.
Qed.

Lemma grows_same_dirs w w' : dirs w' = dirs w -> grows w w'.
Proof.
  intros Heq d. rewrite Heq. destruct (dirs w !! d) as [es|]; [|reflexivity].
  exists es. split; [reflexivity|apply csv_only_change_refl].
Qed.

Lemma extends_refl P w : extends P w w.
Proof. exists []. split; [by rewrite app_nil_r|constructor]. Qed.

Lemma extends_trans P w1 w2 w3 : extends P w1 w2 -> extends P w2 w3 -> extends P w1 w3.
Proof.
  intros (n1 & H1 & F1) (n2 & H2 & F2). exists (n1 ++ n2). split.
  - by rewrite H2, H1, app_assoc.
  - by apply Forall_app.
Qed.


Lemma extends_log (P : event -> Prop) e w : P e -> extends P w (log e w).
Proof. intros He. exists [e]. split; [reflexivity|by constructor]. Qed.

Lemma put_entry_names name n es es' :
  put_entry name n es = Some es' ->
  forall m, In m (map fst es) -> In m (map fst es').
Proof.
  revert es'. induction es as [|[name' n'] es IH]; intros es' Hput m Hm.
  - destruct Hm.
  - simpl in Hput. destruct (String.eqb name' name) eqn:Heq.
    + apply String.eqb_eq in Heq as ->.
      destruct n'; [discriminate|]. by inversion Hput; subst.
    + destruct (put_entry name n es) as [rest|] eqn:Hrest; [|discriminate].
      inversion Hput; subst. simpl in *. destruct Hm as [Hm|Hm]; [by left|].
      right. by apply (IH rest).
Qed.

Lemma put_entry_added name n es es' :
  put_entry name n es = Some es' -> In name (map fst es').
Proof.
  revert es'. induction es as [|[name' n'] es IH]; intros es' Hput; simpl in Hput.
  - inversion Hput. by left.
  - destruct (String.eqb name' name) eqn:Heq.
    + destruct n'; [discriminate|]. inversion Hput. by left.
    + destruct (put_entry name n es) as [rest|] eqn:Hrest; [|discriminate].
      inversion Hput; subst. right. by apply (IH rest).
Qed.

Lemma put_entry_others name n es es' m :
  put_entry name n es = Some es' -> m <> name ->
  find_entry m es' = find_entry m es.
Proof.
  revert es'. induction es as [|[name' n'] es IH]; intros es' Hput Hne; simpl in Hput.
  - inversion Hput; subst. simpl.
    destruct (String.eqb name m) eqn:Heq; [|reflexivity].
    apply String.eqb_eq in Heq. congruence.
  - destruct (String.eqb name' name) eqn:Heq.
    + apply String.eqb_eq in Heq as ->.
      destruct n'; [discriminate|]. inversion Hput; subst. simpl.
      destruct (String.eqb name m) eqn:Heq; [|reflexivity].
      apply String.eqb_eq in Heq. congruence.
    + destruct (put_entry name n es) as [rest|] eqn:Hrest; [|discriminate].
      inversion Hput; subst. simpl. by rewrite (IH rest).
Qed.

Lemma put_entry_csv name n es es' :
  put_entry name n es = Some es' -> endswith name ".csv" = true ->
  csv_only_change es es'.
Proof.
  intros Hput Hcsv. split.
  - by apply (put_entry_names name n).
  - intros m Hm. apply (put_entry_others name n); [assumption|].
    intros ->. congruence.
Qed.

Lemma write_file_grows path n w w' :
  write_file path n w = Some w' ->
  endswith (basename path) ".csv" = true ->
  grows w w' /\ trace w' = trace w /\ checkpoint w' = checkpoint w /\
  requests_sent w' = requests_sent w.
Proof.
  unfold write_file. intros Hw Hcsv.
  destruct (dirs w !! directory_of path) as [es|] eqn:Hd; [|discriminate].
  destruct (put_entry (basename path) n es) as [es'|] eqn:Hput; [|discriminate].
  inversion Hw; subst; clear Hw. repeat split. intros d. simpl.
  destruct (decide (directory_of path = d)) as [<-|Hne].
  - rewrite Hd, lookup_insert_eq. exists es'. split; [reflexivity|].
    by apply (put_entry_csv (basename path) n).
  - rewrite lookup_insert_ne by assumption.
    destruct (dirs w !! d) as [es0|]; [|reflexivity].
    exists es0. split; [reflexivity|apply csv_only_change_refl].
Qed.

(** ** One target *)

Lemma page_event_crawl_event product_id e :
  page_event product_id e -> crawl_event product_id e.
Proof. by destruct e. Qed.

Lemma quiet_refl P w : quiet P w w.
Proof. repeat split. apply extends_refl. Qed.

Lemma quiet_trans P w1 w2 w3 : quiet P w1 w2 -> quiet P w2 w3 -> quiet P w1 w3.
Proof.
  intros (Hd1 & Hc1 & He1) (Hd2 & Hc2 & He2). repeat split; try congruence.
  by apply (extends_trans P w1 w2 w3).
Qed.

Lemma quiet_log (P : event -> Prop) e w : P e -> quiet P w (log e w).
Proof. intros He. repeat split. by apply extends_log. Qed.

Lemma quiet_sent (P : event -> Prop) u w : P (Request u) -> quiet P w (sent u w).
Proof.
  intros He. repeat split. exists [Request u]. split; [reflexivity|by constructor].
Qed.

Section SpiderFacts.

Variable E : environment.

Lemma com_send_request_quiet product_id u w r w' :
  url_target u = Some product_id ->
  com_send_request E u w = (r, w') -> quiet (page_event product_id) w w'.
Proof.
  intros Hu. unfold com_send_request.
  destruct (http E (requests_sent w) u) as [|status text].
  - intros [= <- <-]. eapply quiet_trans; [by apply quiet_sent|by apply quiet_log].
  - destruct (is_error_status status); intros [= <- <-].
    + eapply quiet_trans; [by apply quiet_sent|by apply quiet_log].
    + by apply quiet_sent.
Qed.

Lemma qa_send_request_quiet product_id u w r w' :
  url_target u = Some product_id ->
  qa_send_request E u w = (r, w') -> quiet (page_event product_id) w w'.
Proof.
  intros Hu. unfold qa_send_request.
  destruct (http E (requests_sent w) u) as [|status text].
  - intros [= <- <-]. eapply quiet_trans; [by apply quiet_sent|by apply quiet_log].
  - destruct (is_error_status status); intros [= <- <-].
    + eapply quiet_trans; [by apply quiet_sent|by apply quiet_log].
    + by apply quiet_sent.
Qed.

(** What one page task does to the frame and to the world: the frame
    keeps its rows and may gain the rows of one parsed page; the world
    changes quietly. *)
Lemma com_crawl_page_step product_id page cd w r cd' w' :
  com_crawl_page E product_id page (cd, w) = (r, (cd', w')) ->
  quiet (page_event product_id) w w' /\
  (cd' = cd \/
   exists n status text df,
     http E n (CommentsUrl product_id (score (COMMENT_PARAM E))
                 (sort_type (COMMENT_PARAM E)) page (page_size (COMMENT_PARAM E)))
     = HttpResponse status text /\
     parse_comments E product_id text = inr df /\ rows df <> [] /\
     cd' = df_concat cd df).
Proof.
  unfold com_crawl_page, get_comments.
  destruct (com_send_request E _ w) as [[e|response] w1] eqn:Hreq.
  - intros [= <- <- <-]. split; [|by left].
    eapply com_send_request_quiet; [|exact Hreq]; reflexivity.
  - assert (Hq : quiet (page_event product_id) w w1)
      by (eapply com_send_request_quiet; [|exact Hreq]; reflexivity).
    destruct (String.eqb response EmptyString).
    { intros [= <- <- <-]. split; [|by left].
      eapply quiet_trans; [exact Hq|by apply quiet_log]. }
    destruct (parse_comments E product_id response) as [e|df] eqn:Hparse.
    { intros [= <- <- <-]. by split; [|left]. }
    destruct (df_empty df) eqn:Hempty.
    { intros [= <- <- <-]. split; [|by left].
      eapply quiet_trans; [exact Hq|by apply quiet_log]. }
    intros [= <- <- <-]. split.
    { eapply quiet_trans; [exact Hq|by apply quiet_log]. }
    right. unfold com_send_request in Hreq.
    destruct (http E (requests_sent w) _) as [|status text] eqn:Hhttp; [discriminate|].
    destruct (is_error_status status); [discriminate|].
    injection Hreq as <- _.
    exists (requests_sent w), status, text, df. repeat split; try assumption.
    intros Hrows. unfold df_empty in Hempty. by rewrite Hrows in Hempty.
Qed.

Lemma qa_crawl_page_step product_id page qd w r qd' w' :
  qa_crawl_page E product_id page (qd, w) = (r, (qd', w')) ->
  quiet (page_event product_id) w w' /\
  (qd' = qd \/
   exists n status text df,
     http E n (QuestionsUrl page product_id) = HttpResponse status text /\
     parse_qa E text = inr df /\ rows df <> [] /\
     qd' = df_concat qd df).
Proof.
  unfold qa_crawl_page, get_qa.
  destruct (qa_send_request E _ w) as [[e|[response|]] w1] eqn:Hreq.
  - intros [= <- <- <-]. split; [|by left].
    eapply qa_send_request_quiet; [|exact Hreq]; reflexivity.
  - assert (Hq : quiet (page_event product_id) w w1)
      by (eapply qa_send_request_quiet; [|exact Hreq]; reflexivity).
    destruct (String.eqb response EmptyString).
    { intros [= <- <- <-]. split; [|by left].
      eapply quiet_trans; [exact Hq|by apply quiet_log]. }
    destruct (parse_qa E response) as [e|df] eqn:Hparse.
    { intros [= <- <- <-]. by split; [|left]. }
    destruct (df_empty df) eqn:Hempty.
    { intros [= <- <- <-]. split; [|by left].
      eapply quiet_trans; [exact Hq|by apply quiet_log]. }
    intros [= <- <- <-]. split.
    { eapply quiet_trans; [exact Hq|by apply quiet_log]. }
    right. unfold qa_send_request in Hreq.
    destruct (http E (requests_sent w) _) as [|status text] eqn:Hhttp; [discriminate|].
    destruct (is_error_status status); [discriminate|].
    injection Hreq as <- _.
    exists (requests_sent w), status, text, df. repeat split; try assumption.
    intros Hrows. unfold df_empty in Hempty. by rewrite Hrows in Hempty.
  - assert (Hq : quiet (page_event product_id) w w1)
      by (eapply qa_send_request_quiet; [|exact Hreq]; reflexivity).
    intros [= <- <- <-]. split; [|by left].
    eapply quiet_trans; [exact Hq|by apply quiet_log].
Qed.

(** The pool, task after task. *)
Lemma run_pool_quiet product_id
    (task : Z -> DataFrame * world -> res unit * (DataFrame * world)) page_list cd w :
  (forall page cd w r cd' w', task page (cd, w) = (r, (cd', w')) ->
     quiet (page_event product_id) w w') ->
  quiet (page_event product_id) w (snd (run_pool task page_list (cd, w))).
Proof.
  intros Htask. revert cd w.
  induction page_list as [|page page_list IH]; intros cd w.
  - apply quiet_refl.
  - change (run_pool task (page :: page_list) (cd, w))
      with (run_pool task page_list (submitted (task page) (cd, w))).
    unfold submitted.
    destruct (task page (cd, w)) as [r [cd' w']] eqn:Hstep. simpl snd at 2.
    eapply quiet_trans; [by apply (Htask _ _ _ _ _ _ Hstep)|apply IH].
Qed.

Lemma artifact_path_csv kind product_id :
  exists p, artifact_path E kind product_id = p +:+ ".csv".
Proof.
  exists (DATA_PATH E +:+ "/" +:+ kind +:+ "_" +:+ py_format E product_id).
  unfold artifact_path. by rewrite !string_app_assoc.
Qed.

(** The three ways a persister ends. *)
Lemma save_frame_cases kind product_id data w result w' :
  save_frame E kind product_id data w = (result, w') ->
  (result = Skipped /\ df_len data <= 1 /\ w' = log LogWarning w) \/
  (result = Persisted /\ 1 < df_len data /\
   write_file (artifact_path E kind product_id) (File (to_csv_text E data)) w = Some w') \/
  (result = PersistFailed /\ 1 < df_len data /\ w' = log LogError w /\
   write_file (artifact_path E kind product_id) (File (to_csv_text E data)) w = None).
Proof.
  unfold save_frame. destruct (df_len data <=? 1) eqn:Hlen.
  - intros [= <- <-]. left. split; [reflexivity|]. split; [lia|reflexivity].
  - destruct (write_file _ _ w) as [w1|] eqn:Hw; intros [= <- <-].
    + right; left. split; [reflexivity|]. split; [lia|reflexivity].
    + right; right. split; [reflexivity|]. split; [lia|]. by split.
Qed.

Lemma save_frame_grows kind product_id data w result w' :
  save_frame E kind product_id data w = (result, w') ->
  grows w w' /\ checkpoint w' = checkpoint w /\ extends (page_event product_id) w w'.
Proof.
  intros Hsave.
  destruct (save_frame_cases _ _ _ _ _ _ Hsave)
    as [(_ & _ & ->)|[(_ & _ & Hw)|(_ & _ & -> & _)]].
  - repeat split; [by apply grows_same_dirs|by apply extends_log].
  - destruct (artifact_path_csv kind product_id) as [p Hp].
    destruct (write_file_grows _ _ _ _ Hw) as (Hg & Ht & Hc & _).
    { rewrite Hp. apply basename_csv. }
    repeat split; try assumption. exists []. split; [by rewrite app_nil_r|constructor].
  - repeat split; [by apply grows_same_dirs|by apply extends_log].
Qed.

Lemma com_collect_quiet product_id w :
  quiet (page_event product_id) w (snd (com_collect E product_id w)).
Proof.
  apply run_pool_quiet. intros page cd0 w0 r0 cd' w0' Hstep.
  by destruct (com_crawl_page_step _ _ _ _ _ _ _ Hstep).
Qed.


(** The trace of one collection: the start, the events of the pages and
    of the persister, and the end when the pool could be built. *)
Lemma com_start_crawling_shape product_id w r w' :
  com_start_crawling E product_id w = (r, w') ->
  grows w w' /\ checkpoint w' = checkpoint w /\
  exists mid,
    Forall (page_event product_id) mid /\
    match r with
    | inl _ => trace w' = trace w ++ [CrawlStarted product_id] /\ mid = []
    | inr result =>
        trace w' = trace w ++ CrawlStarted product_id :: mid
                           ++ [CrawlFinished product_id result]
    end.
Proof.
  unfold com_start_crawling.
  destruct (MAX_WORKERS E <=? 0).
  { intros [= <- <-]. split; [by apply grows_same_dirs|]. split; [reflexivity|].
    exists []. by split. }
  pose proof (com_collect_quiet product_id (log (CrawlStarted product_id) w)) as Hq.
  destruct (com_collect E product_id _) as [cd w1]. simpl in Hq.
  destruct Hq as (Hd1 & Hc1 & (n1 & Ht1 & Hf1)).
  destruct (save_comments E product_id cd w1) as [result w2] eqn:Hsave.
  destruct (save_frame_grows _ _ _ _ _ _ Hsave) as (Hg2 & Hc2 & (n2 & Ht2 & Hf2)).
  intros [= <- <-]. split; [|split].
  - apply (grows_trans w w1); [by apply grows_same_dirs|].
    apply (grows_trans w1 w2); [assumption|by apply grows_same_dirs].
  - simpl in *. congruence.
  - exists (n1 ++ n2). split; [by apply Forall_app|].
    simpl. rewrite Ht2, Ht1. simpl. rewrite <- !app_assoc. reflexivity.
Qed.

Lemma com_start_crawling_grows product_id w r w' :
  com_start_crawling E product_id w = (r, w') ->
  grows w w' /\ checkpoint w' = checkpoint w /\ extends (crawl_event product_id) w w'.
Proof.
  intros Hrun.
  destruct (com_start_crawling_shape _ _ _ _ Hrun) as (Hg & Hc & mid & Hmid & Ht).
  split; [assumption|]. split; [assumption|].
  assert (Hmid' : Forall (crawl_event product_id) mid)
    by (apply (Forall_impl _ _ _ Hmid), page_event_crawl_event).
  destruct r as [e|result].
  - destruct Ht as [Ht _]. exists [CrawlStarted product_id]. split; [assumption|].
    by constructor.
  - exists (CrawlStarted product_id :: mid ++ [CrawlFinished product_id result]).
    split; [assumption|]. constructor; [reflexivity|].
    apply Forall_app. split; [assumption|by constructor].
Qed.

End SpiderFacts.

(** ** The persisters and the empty-result policy *)

Section PersisterFacts.

Variable E : environment.

Lemma run_pool_invariant (I : DataFrame -> Prop)
    (task : Z -> DataFrame * world -> res unit * (DataFrame * world)) page_list cd w :
  (forall page cd w r cd' w', task page (cd, w) = (r, (cd', w')) -> I cd -> I cd') ->
  I cd -> I (fst (run_pool task page_list (cd, w))).
Proof.
  intros Htask. revert cd w.
  induction page_list as [|page page_list IH]; intros cd w Hcd; [assumption|].
  change (run_pool task (page :: page_list) (cd, w))
    with (run_pool task page_list (submitted (task page) (cd, w))).
  unfold submitted.
  destruct (task page (cd, w)) as [r [cd' w']] eqn:Hstep. simpl snd.
  apply IH. by apply (Htask _ _ _ _ _ _ Hstep).
Qed.




Lemma com_start_crawling_returns product_id w :
  1 <= MAX_WORKERS E ->
  exists result w', com_start_crawling E product_id w = (inr result, w').
Proof.
  intros Hw. unfold com_start_crawling, com_collect.
  destruct (MAX_WORKERS E <=? 0) eqn:Hle; [lia|].
  destruct (run_pool _ _ _) as [cd w1].
  destruct (save_comments E product_id cd w1) as [result w2]. by eexists _, _.
Qed.








End PersisterFacts.




(** ** One pass over a manifest *)

Lemma processed_app a b : processed (a ++ b) = processed a ++ processed b.
Proof.
  induction a as [|e a IH]; [reflexivity|].
  destruct e; simpl; by rewrite ?IH.
Qed.

Lemma processed_page_events product_id mid :
  Forall (page_event product_id) mid -> processed mid = [].
Proof.
  induction 1 as [|e mid He _ IH]; [reflexivity|].
  destruct e; simpl in *; try assumption; destruct He.
Qed.

Lemma crawl_event_untouched product_id t e :
  product_id <> PyStr t -> crawl_event product_id e -> untouched t e.
Proof.
  intros Hne He. unfold untouched.
  destruct e as [u| | | |p|p|p result|f]; simpl in *; try reflexivity.
  - rewrite He. destruct product_id; try reflexivity.
    apply String.eqb_neq. congruence.
  - subst p. destruct product_id; try reflexivity.
    apply String.eqb_neq. congruence.
Qed.

Lemma py_in_str t idx : In t idx -> py_in (PyStr t) idx = true.
Proof.
  intros Hin. simpl. apply existsb_exists. exists t. split; [assumption|].
  apply String.eqb_refl.
Qed.

Lemma for_each_In {A B} (f : A -> res B) l bs a b :
  for_each f l = inr bs -> In a l -> f a = inr b -> In b bs.
Proof.
  revert bs. induction l as [|x l IH]; intros bs Hrun Hin Hfa; [destruct Hin|].
  simpl in Hrun. destruct (f x) as [e|y] eqn:Hfx; [discriminate|].
  destruct (for_each f l) as [e|ys]; [discriminate|].
  injection Hrun as <-. destruct Hin as [->|Hin].
  - left. congruence.
  - right. by apply IH.
Qed.



Lemma blocked_in_index output_dir t w idx :
  blocked output_dir t w -> index_of output_dir w = inr idx -> In t idx.
Proof.
  intros (name & files & Hls & Hin & Hcsv & Hentry). unfold index_of.
  rewrite Hls. simpl. unfold build_index. intros Hidx.
  apply (for_each_In index_entry _ _ name t Hidx); [|assumption].
  apply filter_In. by split.
Qed.

Lemma grows_listdir w w' d files :
  grows w w' -> listdir d w = inr files ->
  exists files', listdir d w' = inr files' /\ forall n, In n files -> In n files'.
Proof.
  intros Hg. unfold listdir. specialize (Hg d).
  destruct (dirs w !! d) as [es|]; [|discriminate].
  destruct Hg as (es' & -> & Hnames & _). intros [= <-].
  exists (map fst es'). by split.
Qed.

Lemma grows_blocked output_dir t w w' :
  grows w w' -> blocked output_dir t w -> blocked output_dir t w'.
Proof.
  intros Hg (name & files & Hls & Hin & Hcsv & Hentry).
  destruct (grows_listdir _ _ _ _ Hg Hls) as (files' & Hls' & Hsub).
  exists name, files'. repeat split; try assumption. by apply Hsub.
Qed.

Lemma grows_lookup_node w w' d n :
  grows w w' -> endswith n ".csv" = false -> lookup_node d n w' = lookup_node d n w.
Proof.
  intros Hg Hn. unfold lookup_node. specialize (Hg d).
  destruct (dirs w !! d) as [es|].
  - destruct Hg as (es' & -> & _ & Hsame). by apply Hsame.
  - by rewrite Hg.
Qed.

Section PassFacts.

Variable E : environment.

(** The loop over the targets: the directories grow, the checkpoint is
    not touched, no target of the index is worked on, and when the loop
    ends normally every target has been dealt with, in order. *)
Lemma crawl_products_pass idx products w r w' :
  crawl_products E idx products w = (r, w') ->
  grows w w' /\ checkpoint w' = checkpoint w /\
  exists new,
    trace w' = trace w ++ new /\
    Forall not_checkpoint new /\
    (forall t, In t idx -> Forall (untouched t) new) /\
    (forall u, r = inr u ->
       for_each (fun i => py_getitem i "sku") products = inr (processed new)).
Proof.
  revert w. induction products as [|info products IH]; intros w; simpl.
  { intros [= <- <-]. split; [apply grows_refl|]. split; [reflexivity|].
    exists []. rewrite app_nil_r. by repeat split. }
  destruct (py_getitem info "sku") as [e|product_id] eqn:Hsku.
  { intros [= <- <-]. split; [apply grows_refl|]. split; [reflexivity|].
    exists []. rewrite app_nil_r. repeat split; try constructor. discriminate. }
  destruct (py_in product_id idx) eqn:Hin.
  { intros Hrest. destruct (IH _ Hrest) as (Hg & Hc & new & Ht & Hn & Hu & Hp).
    split; [apply (grows_trans _ (log (TargetSkipped product_id) w));
            [by apply grows_same_dirs|assumption]|].
    split; [assumption|].
    exists (TargetSkipped product_id :: new). split; [rewrite Ht; trace_eq|].
    split; [by constructor|]. split.
    - intros t Ht'. constructor; [reflexivity|by apply Hu].
    - intros u Hr. rewrite (Hp u Hr). reflexivity. }
  assert (Hne : forall t, In t idx -> product_id <> PyStr t).
  { intros t Ht' ->. by rewrite (py_in_str _ _ Ht') in Hin. }
  destruct (com_start_crawling E product_id w) as [[e|result] w1] eqn:Hstart;
    destruct (com_start_crawling_shape _ _ _ _ _ Hstart) as (Hg1 & Hc1 & mid & Hmid & Ht1);
    destruct (com_start_crawling_grows _ _ _ _ _ Hstart) as (_ & _ & (n1 & Hn1 & Hf1)).
  { intros [= <- <-]. split; [assumption|]. split; [assumption|].
    exists n1. split; [assumption|]. split; [|split].
    - apply (Forall_impl _ _ _ Hf1). intros ev Hev. by destruct ev.
    - intros t Ht'. apply (Forall_impl _ _ _ Hf1). intros ev.
      by apply crawl_event_untouched, Hne.
    - discriminate. }
  intros Hrest. destruct (IH _ Hrest) as (Hg & Hc & new & Ht & Hn & Hu & Hp).
  split; [apply (grows_trans _ w1); [assumption|];
          apply (grows_trans _ (log Sleep w1)); [by apply grows_same_dirs|assumption]|].
  split; [simpl in Hc; congruence|].
  exists (n1 ++ Sleep :: new). split; [rewrite Ht; simpl; rewrite Hn1; trace_eq|].
  split; [|split].
  - apply Forall_app. split; [|by constructor].
    apply (Forall_impl _ _ _ Hf1). intros ev Hev. by destruct ev.
  - intros t Ht'. apply Forall_app. split.
    + apply (Forall_impl _ _ _ Hf1). intros ev. by apply crawl_event_untouched, Hne.
    + constructor; [reflexivity|by apply Hu].
  - intros u Hr. rewrite (Hp u Hr).
    assert (Hn1' : n1 = CrawlStarted product_id :: mid ++ [CrawlFinished product_id result]).
    { rewrite Ht1 in Hn1. by apply app_inv_head in Hn1. }
    rewrite Hn1'. simpl. rewrite !processed_app, (processed_page_events _ _ Hmid).
    reflexivity.
Qed.

Lemma crawl_products_errors idx products w e w' :
  crawl_products E idx products w = (inl e, w') ->
  e = KeyError \/ e = TypeError \/ e = ValueError.
Proof.
  revert w. induction products as [|info products IH]; intros w; simpl; [discriminate|].
  destruct (py_getitem info "sku") as [e'|product_id] eqn:Hsku.
  { intros [= <- <-]. unfold py_getitem in Hsku.
    destruct info as [| | | | | |items]; try (injection Hsku as <-; tauto).
    destruct (dict_lookup "sku" items); [discriminate|]. injection Hsku as <-. tauto. }
  destruct (py_in product_id idx); [apply IH|].
  destruct (com_start_crawling E product_id w) as [[e'|result] w1] eqn:Hstart; [|apply IH].
  intros [= <- <-]. unfold com_start_crawling in Hstart.
  destruct (MAX_WORKERS E <=? 0).
  - injection Hstart as <- _. tauto.
  - destruct (com_collect E product_id _) as [cd w2].
    destruct (save_comments E product_id cd w2). discriminate.
Qed.

Lemma index_entry_errors file e : index_entry file = inl e -> e = IndexError.
Proof.
  unfold index_entry, list_index.
  destruct (nth_error (str_split underscore file) 1) as [part|]; simpl.
  - destruct (str_split dot part); simpl; [|discriminate]. by intros [= <-].
  - by intros [= <-].
Qed.

Lemma for_each_errors {A B} (f : A -> res B) (P : exn -> Prop) l e :
  (forall a e, f a = inl e -> P e) -> for_each f l = inl e -> P e.
Proof.
  intros Hf. induction l as [|a l IH]; simpl; [discriminate|].
  destruct (f a) as [e'|b] eqn:Hfa.
  - intros [= <-]. by apply (Hf a).
  - destruct (for_each f l) as [e'|bs]; [|discriminate].
    intros [= <-]. by apply IH.
Qed.

Lemma index_of_errors output_dir w e :
  index_of output_dir w = inl e ->
  (e = FileNotFoundError /\ listdir output_dir w = inl FileNotFoundError) \/
  e = IndexError.
Proof.
  unfold index_of. destruct (listdir output_dir w) as [e'|files] eqn:Hls; simpl.
  - intros [= <-]. left. unfold listdir in Hls.
    destruct (dirs w !! output_dir); [discriminate|]. by injection Hls as <-.
  - intros Hb. right.
    apply (for_each_errors index_entry (fun e => e = IndexError) _ _ index_entry_errors Hb).
Qed.

Lemma products_errors data e :
  (v <- first_value data; py_iter v)%res = inl e ->
  e = IndexError \/ e = AttributeError \/ e = TypeError.
Proof.
  destruct data as [| | | | | |items]; simpl; try (intros [= <-]; tauto).
  destruct items as [|[k v] items]; simpl; [intros [= <-]; tauto|].
  destruct v; simpl; try discriminate; intros [= <-]; tauto.
Qed.

Lemma process_manifest_cases output_dir filename content w r w' :
  process_manifest E output_dir filename content w = (r, w') ->
  grows w w' /\
  exists new,
    trace w' = trace w ++ new /\
    (forall t, blocked output_dir t w -> Forall (untouched t) new) /\
    manifest_outcome E output_dir filename content w r w' new.
Proof.
  unfold process_manifest, manifest_body, loads.
  destruct (json_loads E content) as [data|] eqn:Hload; simpl.
  2:{ intros [= <- <-]. split; [by apply grows_same_dirs|].
      exists [LogError]. split; [reflexivity|]. split.
      - intros t _. by repeat constructor.
      - by apply undecodable. }
  destruct (index_of output_dir w) as [e|idx] eqn:Hidx.
  { destruct (index_of_errors _ _ _ Hidx) as [[-> Hls]| ->].
    - intros [= <- <-]. split; [by apply grows_same_dirs|].
      exists [LogError]. split; [reflexivity|]. split.
      + intros t _. by repeat constructor.
      + by apply no_output_dir.
    - intros [= <- <-]. split; [apply grows_refl|].
      exists []. split; [by rewrite app_nil_r|]. split; [constructor|].
      by apply (crashed E _ _ _ _ _ _ _ IndexError). }
  destruct (v <- first_value data; py_iter v)%res as [e|products] eqn:Hproducts.
  { assert (Hcrash : (inl e : res unit, w) = (r, w') ->
      grows w w' /\ exists new, trace w' = trace w ++ new /\
        (forall t, blocked output_dir t w -> Forall (untouched t) new) /\
        manifest_outcome E output_dir filename content w r w' new).
    { intros [= <- <-]. split; [apply grows_refl|].
      exists []. split; [by rewrite app_nil_r|]. split; [constructor|].
      by apply (crashed E _ _ _ _ _ _ _ e). }
    destruct (products_errors _ _ Hproducts) as [->|[->| ->]]; exact Hcrash. }
  destruct (crawl_products E idx products w) as [[e|[]] w1] eqn:Hcrawl;
    destruct (crawl_products_pass _ _ _ _ _ Hcrawl)
      as (Hg & Hc & new & Ht & Hn & Hu & Hp).
  { assert (Hcrash : (inl e : res unit, w1) = (r, w') ->
      grows w w' /\ exists new, trace w' = trace w ++ new /\
        (forall t, blocked output_dir t w -> Forall (untouched t) new) /\
        manifest_outcome E output_dir filename content w r w' new).
    { intros [= <- <-]. split; [assumption|].
      exists new. split; [assumption|]. split.
      - intros t Hb. apply Hu. by apply (blocked_in_index output_dir t w).
      - by apply (crashed E _ _ _ _ _ _ _ e). }
    destruct (crawl_products_errors _ _ _ _ _ Hcrawl) as [->|[->| ->]]; exact Hcrash. }
  intros [= <- <-]. split; [apply (grows_trans _ w1); [assumption|by apply grows_same_dirs]|].
  exists (new ++ [CheckpointAppended filename]). split; [simpl; rewrite Ht; trace_eq|].
  split.
  - intros t Hb. apply Forall_app. split; [|by repeat constructor].
    apply Hu. by apply (blocked_in_index output_dir t w).
  - apply (completed E _ _ _ _ _ _ _ data (processed new) new); try done.
    + unfold manifest_targets.
      destruct (first_value data) as [e|v]; [discriminate|]. simpl in *.
      rewrite Hproducts. simpl. by apply (Hp tt).
    + simpl. by rewrite Hc.
Qed.

End PassFacts.

(** ** The whole run and the index *)

Section RunFacts.

Variable E : environment.

Lemma process_entry_cases ids output_dir filename w r w' :
  process_entry E ids output_dir filename w = (r, w') ->
  (r = inr tt /\ w' = w /\ not_manifest ids filename w) \/
  (exists content,
     lookup_node ids filename w = Some (File content) /\
     endswith filename ".json" = true /\
     process_manifest E output_dir filename content w = (r, w')).
Proof.
  unfold process_entry, not_manifest.
  destruct (lookup_node ids filename w) as [[|content]|] eqn:Hnode.
  - intros [= <- <-]. left. by repeat split.
  - destruct (endswith filename ".json") eqn:Hjson.
    + intros Hrun. right. by exists content.
    + intros [= <- <-]. left. by repeat split.
  - intros [= <- <-]. left. by repeat split.
Qed.

Lemma process_entries_untouched ids output_dir t filenames w r w' :
  blocked output_dir t w ->
  process_entries E ids output_dir filenames w = (r, w') ->
  grows w w' /\ extends (untouched t) w w'.
Proof.
  revert w. induction filenames as [|filename filenames IH]; intros w Hb; simpl.
  { intros [= <- <-]. split; [apply grows_refl|apply extends_refl]. }
  destruct (process_entry E ids output_dir filename w) as [[e|[]] w1] eqn:Hentry;
    (destruct (process_entry_cases _ _ _ _ _ _ Hentry)
       as [(_ & -> & _)|(content & _ & _ & Hm)];
     [|destruct (process_manifest_cases _ _ _ _ _ _ _ Hm)
         as (Hg1 & new & Ht1 & Hu1 & _)]).
  - intros [= <- <-]. split; [apply grows_refl|apply extends_refl].
  - intros [= <- <-]. split; [assumption|]. exists new. split; [assumption|by apply Hu1].
  - by apply IH.
  - intros Hrest.
    destruct (IH w1 (grows_blocked _ _ _ _ Hg1 Hb) Hrest) as (Hg2 & He2).
    split; [by apply (grows_trans w w1)|].
    apply (extends_trans _ w w1); [|assumption].
    exists new. split; [assumption|by apply Hu1].
Qed.

(** A run never works on a target whose artifact, of whatever kind, lies
    in the output directory. *)
Lemma run_leaves_blocked_target ids output_dir t w r w' :
  blocked output_dir t w ->
  crawl_comments_and_qa E ids output_dir w = (r, w') ->
  extends (untouched t) w w'.
Proof.
  intros Hb. unfold crawl_comments_and_qa.
  destruct (listdir ids w) as [e|names] eqn:Hids.
  { intros [= <- <-]. by apply extends_log. }
  assert (Hout : exists es, dirs w !! output_dir = Some es).
  { destruct Hb as (name & files & Hls & _). unfold listdir in Hls.
    destruct (dirs w !! output_dir) as [es|]; [by exists es|discriminate]. }
  destruct Hout as [es ->]. rewrite Hids.
  intros Hrun. by destruct (process_entries_untouched _ _ _ _ _ _ _ Hb Hrun).
Qed.

Lemma put_entry_listed name n es es' :
  put_entry name n es = Some es' -> In name (map fst es').
Proof. apply put_entry_added. Qed.

Lemma write_file_listed path n w w' :
  write_file path n w = Some w' ->
  exists files, listdir (directory_of path) w' = inr files /\ In (basename path) files.
Proof.
  unfold write_file, listdir.
  destruct (dirs w !! directory_of path) as [es|]; [|discriminate].
  destruct (put_entry (basename path) n es) as [es'|] eqn:Hput; [|discriminate].
  intros [= <-]. simpl. rewrite lookup_insert_eq.
  exists (map fst es'). split; [reflexivity|by apply (put_entry_added _ n es)].
Qed.

Lemma artifact_path_split kind t :
  has_char slash kind = false ->
  has_char slash t = false ->
  DATA_PATH E <> EmptyString ->
  directory_of (artifact_path E kind (PyStr t)) = DATA_PATH E /\
  basename (artifact_path E kind (PyStr t)) = kind +:+ "_" +:+ t +:+ ".csv".
Proof.
  intros Hk Ht Hd. unfold directory_of, basename, artifact_path. simpl py_format.
  change ("/" +:+ kind +:+ "_" +:+ t +:+ ".csv")
    with (String slash (kind +:+ "_" +:+ t +:+ ".csv")).
  rewrite path_split_dir.
  - simpl. split; [|reflexivity]. by destruct (DATA_PATH E).
  - rewrite !has_char_app, Hk, Ht. reflexivity.
Qed.

Lemma com_start_crawling_persisted product_id w w1 :
  com_start_crawling E product_id w = (inr Persisted, w1) ->
  exists w0 w2 data,
    write_file (artifact_path E "com" product_id) (File (to_csv_text E data)) w0 = Some w2 /\
    dirs w1 = dirs w2.
Proof.
  unfold com_start_crawling. destruct (MAX_WORKERS E <=? 0); [discriminate|].
  destruct (com_collect E product_id _) as [cd w0].
  destruct (save_comments E product_id cd w0) as [result w2] eqn:Hsave.
  intros [= -> <-].
  destruct (save_frame_cases _ _ _ _ _ _ _ Hsave)
    as [(Hr & _)|[(_ & _ & Hw)|(Hr & _)]]; try discriminate.
  by exists w0, w2, cd.
Qed.

(** C1, as the code has it: when the collection of a target named by a
    string without underscore, dot or slash persists its artifact, the
    artifact is listed in the data directory, every index built from that
    directory holds the identifier, and a later run over that directory,
    from any world that still lists the artifact, neither starts the
    collection of the target nor sends a request about it. *)
Theorem persisted_string_target_is_skipped t w w1 :
  has_char underscore t = false ->
  has_char dot t = false ->
  has_char slash t = false ->
  DATA_PATH E <> EmptyString ->
  com_start_crawling E (PyStr t) w = (inr Persisted, w1) ->
  (exists files, listdir (DATA_PATH E) w1 = inr files /\
                 In ("com_" +:+ t +:+ ".csv") files) /\
  (forall idx, index_of (DATA_PATH E) w1 = inr idx -> In t idx) /\
  (forall w2 files ids r w3,
     listdir (DATA_PATH E) w2 = inr files ->
     In ("com_" +:+ t +:+ ".csv") files ->
     crawl_comments_and_qa E ids (DATA_PATH E) w2 = (r, w3) ->
     exists new, trace w3 = trace w2 ++ new /\ Forall (fun e => concerns t e = false) new) /\
  (forall z idx, py_in (PyInt z) idx = false).
Proof.
  intros Hu Hd Hs Hpath Hrun.
  destruct (com_start_crawling_persisted _ _ _ Hrun) as (w0 & w2 & data & Hw & Hdirs).
  destruct (artifact_path_split "com" t eq_refl Hs Hpath) as [Hdir Hbase].
  destruct (write_file_listed _ _ _ _ Hw) as (files & Hls & Hin).
  rewrite Hdir in Hls. rewrite Hbase in Hin.
  assert (Hls1 : listdir (DATA_PATH E) w1 = inr files).
  { unfold listdir in *. by rewrite Hdirs. }
  assert (Hblocked : forall w' files',
            listdir (DATA_PATH E) w' = inr files' ->
            In ("com_" +:+ t +:+ ".csv") files' -> blocked (DATA_PATH E) t w').
  { intros w' files' Hls' Hin'. exists ("com_" +:+ t +:+ ".csv"), files'.
    split; [assumption|]. split; [assumption|]. split.
    - change ("com_" +:+ t +:+ ".csv") with (("com_" +:+ t) +:+ ".csv").
      apply endswith_app.
    - by apply (index_entry_artifact "com" t). }
  split; [by exists files|]. split; [|split].
  - intros idx. apply blocked_in_index. by apply (Hblocked w1 files).
  - intros w2' files' ids r w3 Hls' Hin' Hpass.
    apply (run_leaves_blocked_target ids (DATA_PATH E) t w2' r w3); [|assumption].
    by apply (Hblocked w2' files').
  - reflexivity.
Qed.


End RunFacts.

Lemma persisted_string_target_is_skipped_witness :
  (has_char underscore "111" = false /\ has_char dot "111" = false /\
   has_char slash "111" = false /\ DATA_PATH demo <> EmptyString /\
   com_start_crawling demo (PyStr "111") (demo_world string_manifest_text [])
   = (inr Persisted, demo_after_string_target)) /\
  (exists files, listdir (DATA_PATH demo) demo_after_string_target = inr files /\
                 In ("com_" +:+ "111" +:+ ".csv") files) /\
  (forall idx, index_of (DATA_PATH demo) demo_after_string_target = inr idx ->
               In "111" idx) /\
  (exists new,
     trace (snd (crawl_comments_and_qa demo "ids" (DATA_PATH demo) demo_after_string_target))
     = trace demo_after_string_target ++ new /\
     Forall (fun e => concerns "111" e = false) new).
Proof.
  assert (Hrun : com_start_crawling demo (PyStr "111") (demo_world string_manifest_text [])
                 = (inr Persisted, demo_after_string_target)) by (vm_compute; reflexivity).
  assert (Hpath : DATA_PATH demo <> EmptyString) by discriminate.
  split; [by repeat split|].
  destruct (persisted_string_target_is_skipped demo "111"
              (demo_world string_manifest_text []) demo_after_string_target
              eq_refl eq_refl eq_refl Hpath Hrun) as (Hfiles & Hidx & Hlater & _).
  split; [exact Hfiles|]. split; [exact Hidx|].
  destruct Hfiles as (files & Hls & Hin).
  apply (Hlater demo_after_string_target files "ids"
           (fst (crawl_comments_and_qa demo "ids" (DATA_PATH demo) demo_after_string_target))
           (snd (crawl_comments_and_qa demo "ids" (DATA_PATH demo) demo_after_string_target)));
    [exact Hls|exact Hin|].
  by destruct (crawl_comments_and_qa demo "ids" (DATA_PATH demo) demo_after_string_target).
Defined.

(** C1 as stated fails for an integer identifier: the manifest lists the
    sku 111 as a number, its collection persists [com_111.csv], the index
    built from the output directory holds the string 111, which is not
    equal to the number, and the next pass over the manifest collects the
    target again. *)
Lemma integer_target_is_fetched_again :
  json_loads demo integer_manifest_text
  = Some (PyDict [("rings", PyList [PyDict [("sku", PyInt 111)]])]) /\
  fst (com_start_crawling demo (PyInt 111) (demo_world integer_manifest_text []))
  = inr Persisted /\
  listdir "out" demo_after_integer_target = inr ["com_111.csv"] /\
  index_of "out" demo_after_integer_target = inr ["111"] /\
  py_in (PyInt 111) ["111"] = false /\
  skipn (length (trace demo_after_integer_target))
    (trace (snd (crawl_comments_and_qa demo "ids" "out" demo_after_integer_target)))
  = [CrawlStarted (PyInt 111);
     Request (CommentsUrl (PyInt 111) 1 6 0 10); Sleep;
     Request (CommentsUrl (PyInt 111) 1 6 1 10); LogError;
     CrawlFinished (PyInt 111) Persisted; Sleep;
     CheckpointAppended "m1.json"].
Proof. repeat split; vm_compute; reflexivity. Qed.



(** ** The checkpoint file *)

Lemma universal_newlines_no_cr s :
  has_char CR s = false -> universal_newlines s = s.
Proof.
  induction s as [|c s IH]; [reflexivity|].
  simpl. intros H. apply orb_false_elim in H as [Hc Hs].
  rewrite Hc. by rewrite (IH Hs).
Qed.

Lemma lines_from_line cur name rest :
  has_char LF name = false ->
  lines_from cur (name +:+ String LF rest)
  = (cur +:+ name +:+ String LF EmptyString) :: lines_from EmptyString rest.
Proof.
  revert cur. induction name as [|c name IH]; intros cur Hn.
  - simpl. reflexivity.
  - simpl in Hn. apply orb_false_elim in Hn as [Hc Hn].
    simpl. rewrite Hc, (IH _ Hn). by rewrite string_app_assoc.
Qed.

Lemma checkpoint_text_no_cr names :
  Forall clean names -> has_char CR (checkpoint_text names) = false.
Proof.
  induction 1 as [|name names [_ Hcr] _ IH]; [reflexivity|].
  simpl. by rewrite has_char_app, Hcr.
Qed.

Lemma readlines_checkpoint_text names :
  Forall clean names ->
  readlines (checkpoint_text names) = map (fun n => n +:+ String LF EmptyString) names.
Proof.
  intros Hclean. unfold readlines.
  rewrite (universal_newlines_no_cr _ (checkpoint_text_no_cr _ Hclean)).
  induction Hclean as [|name names [Hlf _] _ IH]; [reflexivity|].
  simpl. rewrite (lines_from_line _ _ _ Hlf). simpl. by rewrite IH.
Qed.

Lemma rstrip_line name :
  has_char LF name = false -> rstrip LF (name +:+ String LF EmptyString) = name.
Proof.
  induction name as [|c name IH]; [reflexivity|].
  simpl. intros H. apply orb_false_elim in H as [Hc Hn].
  rewrite (IH Hn). destruct name; [by rewrite Hc|reflexivity].
Qed.

Lemma lstrip_clean name : has_char LF name = false -> lstrip LF name = name.
Proof.
  destruct name as [|c name]; [reflexivity|].
  simpl. intros H. apply orb_false_elim in H as [Hc _]. by rewrite Hc.
Qed.

Lemma strip_line name :
  has_char LF name = false -> strip LF (name +:+ String LF EmptyString) = name.
Proof.
  intros Hn. unfold strip. by rewrite rstrip_line, lstrip_clean.
Qed.

(** Reading back what was written gives the names, in order. *)
Lemma checkpoint_names_text names :
  Forall clean names -> checkpoint_names (checkpoint_text names) = names.
Proof.
  intros Hclean. unfold checkpoint_names.
  rewrite (readlines_checkpoint_text _ Hclean), map_map.
  induction Hclean as [|name names [Hlf _] _ IH]; [reflexivity|].
  simpl. by rewrite (strip_line _ Hlf), IH.
Qed.

Lemma checkpoint_text_app a b :
  checkpoint_text (a ++ b) = checkpoint_text a +:+ checkpoint_text b.
Proof.
  induction a as [|name a IH]; [reflexivity|].
  simpl. rewrite IH. by rewrite string_app_assoc.
Qed.

Lemma recorded_wf w names :
  Forall clean names ->
  default EmptyString (checkpoint w) = checkpoint_text names ->
  recorded w = names.
Proof.
  intros Hclean Htext. unfold recorded. rewrite Htext.
  by apply checkpoint_names_text.
Qed.

(** Appending a clean name to a well-formed checkpoint. *)
Lemma recorded_append w w' name :
  checkpoint_wf w -> clean name ->
  checkpoint w' = Some (default EmptyString (checkpoint w) +:+ name
                        +:+ String LF EmptyString) ->
  checkpoint_wf w' /\ recorded w' = recorded w ++ [name].
Proof.
  intros (names & Hclean & Htext) Hname Hw'.
  assert (Hclean' : Forall clean (names ++ [name])).
  { apply Forall_app. split; [assumption|by constructor]. }
  assert (Htext' : default EmptyString (checkpoint w') = checkpoint_text (names ++ [name])).
  { rewrite Hw'. simpl. rewrite Htext, checkpoint_text_app. reflexivity. }
  split; [by exists (names ++ [name])|].
  by rewrite (recorded_wf _ _ Hclean' Htext'), (recorded_wf _ _ Hclean Htext).
Qed.

Lemma recorded_same w w' :
  checkpoint w' = checkpoint w -> recorded w' = recorded w.
Proof. unfold recorded. by intros ->. Qed.

Lemma checkpoint_wf_same w w' :
  checkpoint w' = checkpoint w -> checkpoint_wf w -> checkpoint_wf w'.
Proof. unfold checkpoint_wf. by intros ->. Qed.

Lemma files_to_process_recorded filenames w :
  files_to_process filenames w
  = List.filter (fun x => negb (existsb (String.eqb x) (recorded w))) filenames.
Proof.
  unfold files_to_process, recorded. destruct (checkpoint w) as [content|]; [reflexivity|].
  simpl. induction filenames as [|x l IH]; [reflexivity|]. simpl. by rewrite <- IH.
Qed.

Lemma appended_app a b : appended (a ++ b) = appended a ++ appended b.
Proof.
  induction a as [|e a IH]; [reflexivity|].
  destruct e; simpl; by rewrite ?IH.
Qed.

Lemma appended_none tr : Forall not_checkpoint tr -> appended tr = [].
Proof.
  induction 1 as [|e tr He _ IH]; [reflexivity|].
  destruct e; simpl in *; try assumption. destruct He.
Qed.

Lemma appended_In f tr : In (CheckpointAppended f) tr -> In f (appended tr).
Proof.
  induction tr as [|e tr IH]; [intros []|].
  intros [->|Hin]; [by left|].
  destruct e; simpl; auto.
Qed.

(** ** The checkpoint comes last *)

Lemma split_at_event (x : event) new1 new2 before after :
  new1 ++ new2 = before ++ x :: after ->
  (exists mid, new1 = before ++ x :: mid /\ after = mid ++ new2) \/
  (exists before2, before = new1 ++ before2 /\ new2 = before2 ++ x :: after).
Proof.
  revert before. induction new1 as [|e new1 IH]; intros before Heq.
  - right. by exists before.
  - destruct before as [|e' before]; simpl in Heq; injection Heq as -> Heq.
    + left. by exists new1.
    + destruct (IH _ Heq) as [(mid & -> & ->)|(before2 & -> & ->)].
      * left. by exists mid.
      * right. by exists before2.
Qed.

Lemma checkpoint_event_last segment g before f mid :
  Forall not_checkpoint segment ->
  segment ++ [CheckpointAppended g] = before ++ CheckpointAppended f :: mid ->
  before = segment /\ f = g /\ mid = [].
Proof.
  intros Hseg. revert before. induction Hseg as [|e segment He _ IH]; intros before Heq.
  - destruct before as [|e' before]; simpl in Heq.
    + injection Heq as <- <-. by repeat split.
    + injection Heq as _ Heq. by destruct before.
  - destruct before as [|e' before]; simpl in Heq; injection Heq as -> Heq.
    + destruct He.
    + destruct (IH _ Heq) as (-> & -> & ->). by repeat split.
Qed.

Lemma no_checkpoint_event new before f after :
  Forall not_checkpoint new -> new <> before ++ CheckpointAppended f :: after.
Proof.
  intros Hnew ->. apply Forall_app in Hnew as [_ Hnew].
  by apply Forall_cons in Hnew as [Hf _].
Qed.

Lemma json_name_not_csv name :
  endswith name ".json" = true -> endswith name ".csv" = false.
Proof.
  intros Hjson. destruct (endswith name ".csv") eqn:Hcsv; [|reflexivity].
  by rewrite (csv_is_not_json _ Hcsv) in Hjson.
Qed.

Section CheckpointFacts.

Variable E : environment.

Lemma process_entries_justified ids output_dir filenames w r w' :
  process_entries E ids output_dir filenames w = (r, w') ->
  grows w w' /\
  exists new,
    trace w' = trace w ++ new /\
    (forall before f after,
       new = before ++ CheckpointAppended f :: after -> justified E ids w before f) /\
    default EmptyString (checkpoint w')
    = default EmptyString (checkpoint w) +:+ checkpoint_text (appended new).
Proof.
  revert w. induction filenames as [|filename filenames IH]; intros w; simpl.
  { intros [= <- <-]. split; [apply grows_refl|]. exists [].
    split; [by rewrite app_nil_r|]. split; [|by rewrite string_app_empty_r].
    intros before f after Heq. by destruct before. }
  destruct (process_entry E ids output_dir filename w) as [r1 w1] eqn:Hentry.
  destruct (process_entry_cases _ _ _ _ _ _ _ Hentry)
    as [(-> & -> & _)|(content & Hnode & Hjson & Hm)]; [apply IH|].
  destruct (process_manifest_cases _ _ _ _ _ _ _ Hm) as (Hg1 & new1 & Ht1 & _ & Hout).
  assert (Hstop : (r1, w1) = (r, w') ->
    (forall before f after, new1 <> before ++ CheckpointAppended f :: after) ->
    checkpoint w1 = checkpoint w -> appended new1 = [] ->
    grows w w' /\
    exists new,
      trace w' = trace w ++ new /\
      (forall before f after,
         new = before ++ CheckpointAppended f :: after -> justified E ids w before f) /\
      default EmptyString (checkpoint w')
      = default EmptyString (checkpoint w) +:+ checkpoint_text (appended new)).
  { intros [= <- <-] Hno Hc Ha. split; [assumption|]. exists new1.
    split; [assumption|]. split.
    - intros before f after Heq. by destruct (Hno before f after).
    - by rewrite Hc, Ha, string_app_empty_r. }
  assert (Hnext : forall new1',
    new1' = new1 ->
    (forall before f mid, new1 = before ++ CheckpointAppended f :: mid ->
       justified E ids w before f) ->
    default EmptyString (checkpoint w1)
    = default EmptyString (checkpoint w) +:+ checkpoint_text (appended new1) ->
    process_entries E ids output_dir filenames w1 = (r, w') ->
    grows w w' /\
    exists new,
      trace w' = trace w ++ new /\
      (forall before f after,
         new = before ++ CheckpointAppended f :: after -> justified E ids w before f) /\
      default EmptyString (checkpoint w')
      = default EmptyString (checkpoint w) +:+ checkpoint_text (appended new)).
  { intros _ _ Hj1 Hc1 Hrest.
    destruct (IH _ Hrest) as (Hg2 & new2 & Ht2 & Hj2 & Hc2).
    split; [by apply (grows_trans w w1)|].
    exists (new1 ++ new2). split; [rewrite Ht2, Ht1; trace_eq|]. split.
    - intros before f after Heq.
      destruct (split_at_event _ _ _ _ _ Heq)
        as [(mid & Hn1 & _)|(before2 & -> & Hn2)]; [by apply (Hj1 _ _ mid)|].
      destruct (Hj2 _ _ _ Hn2)
        as (c & data & targets & earlier & segment & Hl & Hjs & Hd & Hts & -> & Hp).
      exists c, data, targets, (new1 ++ earlier), segment.
      rewrite <- (grows_lookup_node w w1 ids f Hg1 (json_name_not_csv _ Hjs)).
      repeat split; try assumption. by rewrite app_assoc.
    - rewrite Hc2, Hc1, appended_app, checkpoint_text_app. by rewrite string_app_assoc. }
  destruct Hout as [Hnone -> -> Hc Hd|Hls -> -> Hc Hd|e -> Hc Hn
                    |data targets segment -> Hload Htargets -> Hseg Hproc Hc].
  - apply (Hnext [LogError] eq_refl).
    + intros before f mid Heq. by destruct before as [|? [|? ?]].
    + by rewrite Hc, string_app_empty_r.
  - apply (Hnext [LogError] eq_refl).
    + intros before f mid Heq. by destruct before as [|? [|? ?]].
    + by rewrite Hc, string_app_empty_r.
  - intros Hrun. apply Hstop; [assumption| |assumption|by apply appended_none].
    intros before f after. by apply no_checkpoint_event.
  - apply (Hnext _ eq_refl).
    + intros before f mid Heq.
      destruct (checkpoint_event_last _ _ _ _ _ Hseg Heq) as (-> & -> & ->).
      exists content, data, targets, [], segment. by repeat split.
    + rewrite Hc, appended_app, (appended_none _ Hseg). reflexivity.
Qed.

(** C2: in every run the name of a manifest is appended to the checkpoint
    only when the manifest is a file of the directory that decoded, and
    right after the events of a pass in which each of its targets, in
    order, was skipped or collected up to the return of its persister; a
    manifest that does not decode is never appended; and the checkpoint
    file is the old one followed by the appended names. *)
Theorem checkpoint_only_after_all_targets ids output_dir w r w' :
  crawl_comments_and_qa E ids output_dir w = (r, w') ->
  exists new,
    trace w' = trace w ++ new /\
    (forall before filename after,
       new = before ++ CheckpointAppended filename :: after ->
       exists content data targets earlier segment,
         lookup_node ids filename w = Some (File content) /\
         json_loads E content = Some data /\
         manifest_targets data = inr targets /\
         before = earlier ++ segment /\
         processed segment = targets) /\
    (forall filename content,
       lookup_node ids filename w = Some (File content) ->
       json_loads E content = None ->
       ~ In (CheckpointAppended filename) new /\ ~ In filename (appended new)) /\
    default EmptyString (checkpoint w')
    = default EmptyString (checkpoint w) +:+ checkpoint_text (appended new).
Proof.
  unfold crawl_comments_and_qa.
  destruct (listdir ids w) as [e|names] eqn:Hids.
  { intros [= <- <-]. exists [LogError]. split; [reflexivity|]. split; [|split].
    - intros before f after Heq. by destruct before as [|? [|? ?]].
    - intros f c _ _. split; [intros [H|[]]; discriminate|intros []].
    - simpl. by rewrite string_app_empty_r. }
  set (w1 := match dirs w !! output_dir with
             | Some _ => w
             | None => set_dirs (<[output_dir:=[]]> (dirs w)) w
             end).
  assert (Hw1 : trace w1 = trace w /\ checkpoint w1 = checkpoint w /\
                forall f, lookup_node ids f w1 = lookup_node ids f w).
  { unfold w1. destruct (dirs w !! output_dir) as [es|] eqn:Hout; [by repeat split|].
    repeat split. intros f. unfold lookup_node. simpl.
    destruct (decide (output_dir = ids)) as [->|Hne]; [|by rewrite lookup_insert_ne].
    unfold listdir in Hids. rewrite Hout in Hids. discriminate. }
  destruct Hw1 as (Htr & Hcp & Hlook).
  destruct (listdir ids w1) as [e|names1]; [intros [= <- <-]|].
  { exists []. rewrite app_nil_r. split; [assumption|]. split; [|split].
    - intros before f after Heq. by destruct before.
    - intros f c _ _. split; intros [].
    - simpl. by rewrite Hcp, string_app_empty_r. }
  intros Hrun.
  destruct (process_entries_justified _ _ _ _ _ _ Hrun) as (_ & new & Ht & Hj & Hc).
  assert (Hjust : forall before filename after,
            new = before ++ CheckpointAppended filename :: after ->
            exists content data targets earlier segment,
              lookup_node ids filename w = Some (File content) /\
              json_loads E content = Some data /\
              manifest_targets data = inr targets /\
              before = earlier ++ segment /\
              processed segment = targets).
  { intros before f after Heq.
    destruct (Hj _ _ _ Heq) as (c & data & targets & earlier & segment
                                & Hl & _ & Hd & Hts & Hb & Hp).
    exists c, data, targets, earlier, segment. rewrite <- Hlook. by repeat split. }
  assert (Hno : forall filename content,
            lookup_node ids filename w = Some (File content) ->
            json_loads E content = None -> ~ In (CheckpointAppended filename) new).
  { intros f c Hl Hnone Hin. apply in_split in Hin as (before & after & Heq).
    destruct (Hjust _ _ _ Heq) as (c' & data & _ & _ & _ & Hl' & Hd & _).
    rewrite Hl in Hl'. injection Hl' as <-. congruence. }
  exists new. split; [by rewrite Ht, Htr|]. split; [assumption|]. split.
  - intros f c Hl Hnone. split; [by apply (Hno f c)|].
    intros Hin. apply (Hno f c Hl Hnone). clear -Hin.
    induction new as [|e new IH]; [destruct Hin|].
    destruct e; simpl in *; try (right; by apply IH).
    destruct Hin as [->|Hin]; [by left|right; by apply IH].
  - by rewrite Hc, Hcp.
Qed.

End CheckpointFacts.

Lemma checkpoint_only_after_all_targets_witness :
  crawl_comments_and_qa demo "ids" "out" (demo_world string_manifest_text [])
  = (inr tt, demo_after_first_run) /\
  exists new,
    trace demo_after_first_run = trace (demo_world string_manifest_text []) ++ new /\
    (forall before filename after,
       new = before ++ CheckpointAppended filename :: after ->
       exists content data targets earlier segment,
         lookup_node "ids" filename (demo_world string_manifest_text [])
         = Some (File content) /\
         json_loads demo content = Some data /\
         manifest_targets data = inr targets /\
         before = earlier ++ segment /\
         processed segment = targets) /\
    (forall filename content,
       lookup_node "ids" filename (demo_world string_manifest_text [])
       = Some (File content) ->
       json_loads demo content = None ->
       ~ In (CheckpointAppended filename) new /\ ~ In filename (appended new)) /\
    default EmptyString (checkpoint demo_after_first_run)
    = default EmptyString (checkpoint (demo_world string_manifest_text []))
      +:+ checkpoint_text (appended new).
Proof.
  assert (Hrun : crawl_comments_and_qa demo "ids" "out" (demo_world string_manifest_text [])
                 = (inr tt, demo_after_first_run)) by (vm_compute; reflexivity).
  split; [exact Hrun|].
  exact (checkpoint_only_after_all_targets demo "ids" "out"
           (demo_world string_manifest_text []) (inr tt) demo_after_first_run Hrun).
Defined.

(** ** The second run *)

Lemma find_entry_In name es n :
  find_entry name es = Some n -> In name (map fst es).
Proof.
  induction es as [|[name' n'] es IH]; simpl; [discriminate|].
  destruct (String.eqb name' name) eqn:Heq.
  - apply String.eqb_eq in Heq. by left.
  - intros H. right. by apply IH.
Qed.

Lemma lookup_node_listed dir name w n :
  lookup_node dir name w = Some n ->
  exists files, listdir dir w = inr files /\ In name files.
Proof.
  unfold lookup_node, listdir. destruct (dirs w !! dir) as [es|]; [|discriminate].
  intros Hfind. exists (map fst es). split; [reflexivity|].
  by apply (find_entry_In _ _ n).
Qed.

Lemma not_in_existsb x l :
  negb (existsb (String.eqb x) l) = true <-> ~ In x l.
Proof.
  rewrite negb_true_iff. split.
  - intros Hex Hin. assert (existsb (String.eqb x) l = true); [|congruence].
    apply existsb_exists. exists x. split; [assumption|apply String.eqb_refl].
  - intros Hnot. destruct (existsb (String.eqb x) l) eqn:Hex; [|reflexivity].
    apply existsb_exists in Hex as (y & Hy & Heq).
    apply String.eqb_eq in Heq as ->. contradiction.
Qed.

Section SecondRun.

Variable E : environment.

Lemma idle_grows ids filename w w' :
  grows w w' -> idle E ids filename w -> idle E ids filename w'.
Proof.
  intros Hg [Hnot|(content & Hl & Hnone)].
  - left. intros content Hl.
    destruct (endswith filename ".json") eqn:Hjson; [|reflexivity].
    rewrite (grows_lookup_node _ _ _ _ Hg (json_name_not_csv _ Hjson)) in Hl.
    by rewrite (Hnot content Hl) in Hjson.
  - destruct (endswith filename ".json") eqn:Hjson.
    + right. exists content. split; [|assumption].
      by rewrite (grows_lookup_node _ _ _ _ Hg (json_name_not_csv _ Hjson)).
    + left. by intros _ _.
Qed.

Lemma idle_same_dirs ids filename w w' :
  dirs w' = dirs w -> idle E ids filename w -> idle E ids filename w'.
Proof. intros Hd. apply idle_grows. by apply grows_same_dirs. Qed.

(** A first run that ends normally leaves every name it went through
    idle or recorded in the checkpoint. *)
Lemma process_entries_settles ids output_dir filenames w w' :
  process_entries E ids output_dir filenames w = (inr tt, w') ->
  checkpoint_wf w ->
  Forall clean filenames ->
  (exists es, dirs w !! output_dir = Some es) ->
  grows w w' /\ checkpoint_wf w' /\
  (forall n, In n (recorded w) -> In n (recorded w')) /\
  (forall n, In n filenames -> idle E ids n w' \/ In n (recorded w')) /\
  exists new, trace w' = trace w ++ new /\
              forall f, In (CheckpointAppended f) new -> In f (recorded w').
Proof.
  revert w. induction filenames as [|filename filenames IH]; intros w; simpl.
  { intros [= <-] Hwf _ _. split; [apply grows_refl|]. split; [assumption|].
    split; [auto|]. split; [intros n []|]. exists []. split; [by rewrite app_nil_r|].
    intros f []. }
  destruct (process_entry E ids output_dir filename w) as [[e|[]] w1] eqn:Hentry;
    [discriminate|].
  intros Hrest Hwf Hclean Hout. apply Forall_cons in Hclean as [Hname Hclean].
  assert (Hnext : grows w w1 -> checkpoint_wf w1 ->
            (forall n, In n (recorded w) -> In n (recorded w1)) ->
            (idle E ids filename w1 \/ In filename (recorded w1)) ->
            (exists new1, trace w1 = trace w ++ new1 /\
               forall f, In (CheckpointAppended f) new1 -> In f (recorded w1)) ->
            grows w w' /\ checkpoint_wf w' /\
            (forall n, In n (recorded w) -> In n (recorded w')) /\
            (forall n, In n (filename :: filenames) -> idle E ids n w' \/ In n (recorded w')) /\
            exists new, trace w' = trace w ++ new /\
                        forall f, In (CheckpointAppended f) new -> In f (recorded w')).
  { intros Hg1 Hwf1 Hmono1 Hhere (new1 & Ht1 & Hrec1).
    assert (Hout1 : exists es, dirs w1 !! output_dir = Some es).
    { destruct Hout as [es Hes]. specialize (Hg1 output_dir). rewrite Hes in Hg1.
      destruct Hg1 as (es' & Hes' & _). by exists es'. }
    destruct (IH _ Hrest Hwf1 Hclean Hout1)
      as (Hg2 & Hwf2 & Hmono2 & Hall2 & new2 & Ht2 & Hrec2).
    split; [by apply (grows_trans w w1)|]. split; [assumption|].
    split; [auto|]. split.
    - intros n [<-|Hn]; [|by apply Hall2].
      destruct Hhere as [Hidle|Hin]; [left; by apply (idle_grows _ _ w1)|right; auto].
    - exists (new1 ++ new2). split; [rewrite Ht2, Ht1; trace_eq|].
      intros f Hin. apply in_app_or in Hin as [Hin|Hin]; auto. }
  destruct (process_entry_cases _ _ _ _ _ _ _ Hentry)
    as [(_ & -> & Hnot)|(content & Hnode & Hjson & Hm)].
  { apply Hnext; [apply grows_refl|assumption|auto|by left; left|].
    exists []. split; [by rewrite app_nil_r|intros f []]. }
  destruct (process_manifest_cases _ _ _ _ _ _ _ Hm) as (Hg1 & new1 & Ht1 & _ & Hcase).
  destruct Hcase as [Hnone _ -> Hc Hd|Hls _ -> Hc Hd|e He Hc Hn
                    |data targets segment _ Hload Htargets -> Hseg Hproc Hc].
  - apply Hnext; [assumption|by apply (checkpoint_wf_same w)| |
                  |exists [LogError]; split; [assumption|]].
    + intros n. by rewrite (recorded_same w w1 Hc).
    + left. right. exists content. split; [|assumption].
      by rewrite (grows_lookup_node _ _ _ _ Hg1 (json_name_not_csv _ Hjson)).
    + intros f [H|[]]. discriminate.
  - destruct Hout as [es Hes]. unfold listdir in Hls. rewrite Hes in Hls. discriminate.
  - discriminate.
  - destruct (recorded_append w w1 filename Hwf Hname Hc) as [Hwf1 Hrec].
    apply Hnext; [assumption|assumption| | |exists (segment ++ [CheckpointAppended filename]);
                                           split; [assumption|]].
    + intros n Hn. rewrite Hrec. apply in_or_app. by left.
    + right. rewrite Hrec. apply in_or_app. right. by left.
    + intros f Hin. apply in_app_or in Hin as [Hin|[[= <-]|[]]].
      * exfalso. rewrite List.Forall_forall in Hseg. by apply (Hseg _ Hin).
      * rewrite Hrec. apply in_or_app. right. by left.
Qed.

(** A run over idle names only logs. *)
Lemma process_entries_idle ids output_dir filenames w :
  (forall n, In n filenames -> idle E ids n w) ->
  exists w',
    process_entries E ids output_dir filenames w = (inr tt, w') /\
    dirs w' = dirs w /\ checkpoint w' = checkpoint w /\
    exists new, trace w' = trace w ++ new /\ Forall (fun e => e = LogError) new.
Proof.
  revert w. induction filenames as [|filename filenames IH]; intros w Hidle; simpl.
  { exists w. repeat split. exists []. split; [by rewrite app_nil_r|constructor]. }
  assert (Hstep : exists w1,
            process_entry E ids output_dir filename w = (inr tt, w1) /\
            dirs w1 = dirs w /\ checkpoint w1 = checkpoint w /\
            exists new, trace w1 = trace w ++ new /\ Forall (fun e => e = LogError) new).
  { unfold process_entry.
    destruct (Hidle filename (or_introl eq_refl)) as [Hnot|(content & Hl & Hnone)].
    - exists w. split; [|repeat split; exists []; split; [by rewrite app_nil_r|constructor]].
      destruct (lookup_node ids filename w) as [[|content]|] eqn:Hl; try reflexivity.
      by rewrite (Hnot content Hl).
    - rewrite Hl. destruct (endswith filename ".json").
      + exists (log LogError w). split.
        * unfold process_manifest, manifest_body, loads. by rewrite Hnone.
        * repeat split. exists [LogError]. split; [reflexivity|by repeat constructor].
      + exists w. repeat split. exists []. split; [by rewrite app_nil_r|constructor]. }
  destruct Hstep as (w1 & -> & Hd1 & Hc1 & new1 & Ht1 & Hf1).
  destruct (IH w1) as (w' & Hrun & Hd & Hc & new2 & Ht2 & Hf2).
  { intros n Hn. apply (idle_same_dirs _ _ w); [assumption|]. apply Hidle. by right. }
  exists w'. split; [assumption|]. split; [congruence|]. split; [congruence|].
  exists (new1 ++ new2). split; [rewrite Ht2, Ht1; trace_eq|by apply Forall_app].
Qed.

Lemma filter_clean (f : string -> bool) l :
  Forall clean l -> Forall clean (List.filter f l).
Proof.
  induction 1 as [|x l Hx _ IH]; simpl; [constructor|].
  destruct (f x); [by constructor|assumption].
Qed.

(** C3: when a run over a manifest directory ends normally, from a
    checkpoint file the orchestrator wrote and with file names free of
    line breaks, a second run over the same directories ends normally
    too and leaves nothing but error logs of manifests that do not decode:
    it sends no request and starts no collection, the directories and the
    checkpoint stay as they are, and every manifest the first run
    appended to the checkpoint is filtered out of the files to process. *)
Theorem second_run_fetches_nothing ids output_dir w w1 :
  checkpoint_wf w ->
  (forall files, listdir ids w = inr files -> Forall clean files) ->
  crawl_comments_and_qa E ids output_dir w = (inr tt, w1) ->
  exists w2 new2,
    crawl_comments_and_qa E ids output_dir w1 = (inr tt, w2) /\
    trace w2 = trace w1 ++ new2 /\
    Forall (fun e => e = LogError) new2 /\
    Forall (fun e => is_request e = false) new2 /\
    dirs w2 = dirs w1 /\ checkpoint w2 = checkpoint w1 /\
    (forall new1 f files,
       trace w1 = trace w ++ new1 -> In (CheckpointAppended f) new1 ->
       listdir ids w1 = inr files -> ~ In f (files_to_process files w1)).
Proof.
  intros Hwf Hclean. unfold crawl_comments_and_qa at 1.
  assert (Hquiet : forall new, Forall (fun e => e = LogError) new ->
                               Forall (fun e => is_request e = false) new).
  { intros new Hnew. apply (List.Forall_impl _ (P := fun e => e = LogError));
      [by intros e ->|assumption]. }
  destruct (listdir ids w) as [e|names] eqn:Hids.
  { intros [= <-]. exists (log LogError (log LogError w)), [LogError].
    unfold crawl_comments_and_qa.
    assert (Hids' : listdir ids (log LogError w) = inl e) by exact Hids.
    rewrite Hids'. split; [reflexivity|]. split; [reflexivity|].
    split; [by repeat constructor|]. split; [by repeat constructor|].
    split; [reflexivity|]. split; [reflexivity|].
    intros new1 f files Ht Hin _. simpl in Ht. apply app_inv_head in Ht as <-.
    destruct Hin as [H|[]]. discriminate. }
  set (w0 := match dirs w !! output_dir with
             | Some _ => w
             | None => set_dirs (<[output_dir:=[]]> (dirs w)) w
             end).
  assert (Hw0 : trace w0 = trace w /\ checkpoint w0 = checkpoint w /\
                listdir ids w0 = inr names /\
                exists es, dirs w0 !! output_dir = Some es).
  { unfold w0. destruct (dirs w !! output_dir) as [es|] eqn:Hout.
    - repeat split; [assumption|by exists es].
    - repeat split.
      + unfold listdir in *. simpl.
        destruct (decide (output_dir = ids)) as [->|Hne]; [|by rewrite lookup_insert_ne].
        rewrite Hout in Hids. discriminate.
      + exists []. simpl. by rewrite lookup_insert_eq. }
  destruct Hw0 as (Htr0 & Hcp0 & Hids0 & Hout0). rewrite Hids0. intros Hrun.
  destruct (process_entries_settles ids output_dir _ w0 w1 Hrun)
    as (Hg & Hwf1 & Hmono & Hall & new & Hnew & Hrec).
  { by apply (checkpoint_wf_same w). }
  { rewrite files_to_process_recorded. apply filter_clean. by apply Hclean. }
  { assumption. }
  destruct (grows_listdir _ _ _ _ Hg Hids0) as (names1 & Hids1 & Hsub).
  assert (Hout1 : exists es, dirs w1 !! output_dir = Some es).
  { destruct Hout0 as [es Hes]. specialize (Hg output_dir). rewrite Hes in Hg.
    destruct Hg as (es' & Hes' & _). by exists es'. }
  assert (Hidle : forall n, In n (files_to_process names1 w1) -> idle E ids n w1).
  { intros n. rewrite files_to_process_recorded, filter_In, not_in_existsb.
    intros [Hn1 Hnot].
    destruct (lookup_node ids n w1) as [[|content]|] eqn:Hl;
      try (left; intros c Hc; congruence).
    destruct (endswith n ".json") eqn:Hjson; [|by left; intros _ _].
    assert (Hl0 : lookup_node ids n w0 = Some (File content))
      by (by rewrite <- (grows_lookup_node _ _ _ _ Hg (json_name_not_csv _ Hjson))).
    destruct (lookup_node_listed _ _ _ _ Hl0) as (files0 & Hls0 & Hin0).
    rewrite Hids0 in Hls0. injection Hls0 as <-.
    destruct (Hall n) as [Hi|Hr]; [|assumption|contradiction].
    rewrite files_to_process_recorded, filter_In, not_in_existsb.
    split; [assumption|]. intros Hin. by apply Hnot, Hmono. }
  destruct (process_entries_idle ids output_dir _ w1 Hidle)
    as (w2 & Hrun2 & Hd2 & Hc2 & new2 & Ht2 & Hf2).
  exists w2, new2. unfold crawl_comments_and_qa.
  destruct Hout1 as [es1 Hes1]. rewrite Hids1, Hes1, Hids1.
  split; [assumption|]. split; [assumption|]. split; [assumption|].
  split; [by apply Hquiet|]. split; [assumption|]. split; [assumption|].
  intros new1 f files Ht Hin Hls.
  rewrite Hnew, Htr0 in Ht. apply app_inv_head in Ht as ->.
  rewrite files_to_process_recorded, filter_In, not_in_existsb.
  intros [_ Hnot]. by apply Hnot, Hrec.
Qed.

End SecondRun.

Lemma second_run_fetches_nothing_witness :
  (checkpoint_wf (demo_world string_manifest_text []) /\
   (forall files, listdir "ids" (demo_world string_manifest_text []) = inr files ->
                  Forall clean files) /\
   crawl_comments_and_qa demo "ids" "out" (demo_world string_manifest_text [])
   = (inr tt, demo_after_first_run)) /\
  exists w2 new2,
    crawl_comments_and_qa demo "ids" "out" demo_after_first_run = (inr tt, w2) /\
    trace w2 = trace demo_after_first_run ++ new2 /\
    Forall (fun e => e = LogError) new2 /\
    Forall (fun e => is_request e = false) new2 /\
    dirs w2 = dirs demo_after_first_run /\
    checkpoint w2 = checkpoint demo_after_first_run /\
    (forall new1 f files,
       trace demo_after_first_run = trace (demo_world string_manifest_text []) ++ new1 ->
       In (CheckpointAppended f) new1 ->
       listdir "ids" demo_after_first_run = inr files ->
       ~ In f (files_to_process files demo_after_first_run)).
Proof.
  assert (Hwf : checkpoint_wf (demo_world string_manifest_text [])).
  { exists []. split; [constructor|reflexivity]. }
  assert (Hclean : forall files,
            listdir "ids" (demo_world string_manifest_text []) = inr files ->
            Forall clean files).
  { intros files Hls. vm_compute in Hls. injection Hls as <-.
    repeat constructor. }
  assert (Hrun : crawl_comments_and_qa demo "ids" "out" (demo_world string_manifest_text [])
                 = (inr tt, demo_after_first_run)) by (vm_compute; reflexivity).
  split; [by repeat split|].
  exact (second_run_fetches_nothing demo "ids" "out"
           (demo_world string_manifest_text []) demo_after_first_run Hwf Hclean Hrun).
Defined.

(** ** The parsers: what fails and what the rows look like *)

Section ParserShape.

Variable E : environment.

Lemma comment_row_cases product_id c :
  comment_row product_id c
  = if well_formed_comment c then inr (expected_comment_record product_id c)
    else inl AttributeError.
Proof.
  destruct c as [| | | | | |items]; try reflexivity.
  unfold comment_row, well_formed_comment, expected_comment_record. simpl.
  change (dict_get items "content" empty_str) with (field items "content").
  by destruct (field items "content").
Qed.

Lemma comment_rows_cases product_id items :
  for_each (comment_row product_id) items
  = if forallb well_formed_comment items
    then inr (map (expected_comment_record product_id) items)
    else inl AttributeError.
Proof.
  induction items as [|c items IH]; [reflexivity|].
  simpl. rewrite comment_row_cases, IH.
  destruct (well_formed_comment c); [|reflexivity].
  by destruct (forallb well_formed_comment items).
Qed.


Lemma parse_comments_cases product_id response :
  parse_comments E product_id response
  = match json_loads E response with
    | None => inl JSONDecodeError
    | Some (PyDict fields) =>
        match py_iter (dict_get fields "comments" (PyList [])) with
        | inl e => inl e
        | inr items =>
            if forallb well_formed_comment items
            then inr (mkDataFrame comment_columns
                        (map (expected_comment_record product_id) items))
            else inl AttributeError
        end
    | Some _ => inl AttributeError
    end.
Proof.
  unfold parse_comments, loads.
  destruct (json_loads E response) as [v|]; [|reflexivity].
  destruct v as [| | | | | |fields]; try reflexivity. simpl.
  destruct (py_iter (dict_get fields "comments" (PyList []))) as [e|items]; [reflexivity|].
  simpl. rewrite comment_rows_cases.
  by destruct (forallb well_formed_comment items).
Qed.

Lemma parse_comments_returns product_id response df :
  parse_comments E product_id response = inr df ->
  exists fields items,
    json_loads E response = Some (PyDict fields) /\
    py_iter (dict_get fields "comments" (PyList [])) = inr items /\
    forallb well_formed_comment items = true /\
    df = mkDataFrame comment_columns (map (expected_comment_record product_id) items).
Proof.
  rewrite parse_comments_cases.
  destruct (json_loads E response) as [v|]; [|discriminate].
  destruct v as [| | | | | |fields]; try discriminate.
  destruct (py_iter (dict_get fields "comments" (PyList []))) as [e|items] eqn:Hiter;
    [discriminate|].
  destruct (forallb well_formed_comment items) eqn:Hall; [|discriminate].
  intros [= <-]. by exists fields, items.
Qed.


Lemma has_char_str_replace old new s :
  old <> new -> has_char old (str_replace old new s) = false.
Proof.
  intros Hne. induction s as [|c s IH]; [reflexivity|].
  simpl. rewrite IH, orb_false_r.
  destruct (Ascii.eqb c old) eqn:Hc; [by apply Ascii.eqb_neq|assumption].
Qed.

Lemma str_replace_length old new s :
  String.length (str_replace old new s) = String.length s.
Proof. induction s as [|c s IH]; [reflexivity|]. simpl. by rewrite IH. Qed.

Lemma expected_comment_record_ok product_id c :
  well_formed_comment c = true ->
  comment_row_ok product_id (expected_comment_record product_id c).
Proof.
  destruct c as [| | | | | |items]; try discriminate.
  unfold well_formed_comment, expected_comment_record, comment_row_ok.
  destruct (field items "content") as [| | | |s| |]; try discriminate.
  intros _. split; [reflexivity|]. split; [reflexivity|].
  exists (str_replace LF space s). split; [reflexivity|].
  by apply has_char_str_replace.
Qed.

Lemma parse_comments_frame_ok product_id response df :
  parse_comments E product_id response = inr df -> comment_frame_ok product_id df.
Proof.
  intros Hparse.
  destruct (parse_comments_returns product_id response df Hparse)
    as (fields & items & _ & _ & Hall & ->).
  split; [reflexivity|]. simpl.
  rewrite forallb_forall in Hall. apply List.Forall_forall.
  intros r Hr. apply in_map_iff in Hr as (c & <- & Hc).
  by apply expected_comment_record_ok, Hall.
Qed.

(** X2: whenever the comment parser returns a frame, the frame has the
    eight comment columns and each of its rows has eight cells, carries
    in the seventh the identifier the spider was given (not one taken
    from the payload), and has for content a string in which no line
    feed is left. *)
Theorem parsed_comments_are_tagged_and_single_line product_id response df :
  parse_comments E product_id response = inr df ->
  columns df = comment_columns /\
  Forall (fun r : row =>
            length r = 8%nat /\ nth_error r 6 = Some product_id /\
            exists s, nth_error r 2 = Some (PyStr s) /\ has_char LF s = false)
         (rows df).
Proof. apply parse_comments_frame_ok. Qed.

(** The rows a loop of the QA parser leaves all satisfy what the rows it
    was given and the rows its body adds satisfy. *)
Lemma b_for_keeps {A} (P : row -> Prop) (body : A -> building unit) l acc :
  (forall a acc, In a l -> Forall P acc -> Forall P (snd (body a acc))) ->
  Forall P acc -> Forall P (snd (b_for l body acc)).
Proof.
  revert acc. induction l as [|a l IH]; intros acc Hbody Hacc; [assumption|].
  simpl. unfold b_bind.
  pose proof (Hbody a acc (or_introl eq_refl) Hacc) as Ha.
  destruct (body a acc) as [[e|[]] acc']; simpl in Ha; [assumption|].
  apply IH; [|assumption]. intros b acc0 Hb. apply Hbody. by right.
Qed.



Lemma question_loop_cells q acc :
  Forall (fun r : row => length r = 8%nat) acc ->
  Forall (fun r : row => length r = 8%nat) (snd (qa_question_loop q acc)).
Proof.
  intros Hacc. destruct q as [| | | | | |qi]; try assumption.
  unfold qa_question_loop, b_bind, b_lift. simpl.
  destruct (dict_lookup "answerList" qi) as [answer_list|]; [|assumption].
  simpl. destruct (py_iter answer_list) as [e|answers]; [assumption|].
  apply b_for_keeps; [|assumption].
  intros a acc0 _ Hacc0. destruct a as [| | | | | |ai]; try assumption.
  unfold qa_answer_loop, b_bind, b_lift, b_append. simpl.
  apply Forall_app. split; [assumption|]. by repeat constructor.
Qed.

Lemma parse_qa_frame_ok response df :
  parse_qa E response = inr df -> qa_frame_ok df.
Proof.
  unfold parse_qa, loads. destruct (json_loads E response) as [v|]; [|discriminate].
  simpl. destruct (py_get v "questionList" (PyList [])) as [e|qa_data]; [discriminate|].
  simpl. intros [= <-]. split; [reflexivity|]. simpl.
  unfold qa_try_body, b_bind, b_lift.
  destruct (py_iter qa_data) as [e|questions]; [constructor|].
  apply b_for_keeps; [|constructor]. intros q acc _. apply question_loop_cells.
Qed.

End ParserShape.

Lemma parsed_comments_are_tagged_and_single_line_witness :
  parse_comments demo (PyStr "111") two_comments_text
  = inr (mkDataFrame comment_columns
           [[PyInt 1; PyStr EmptyString; PyStr "ok"; PyStr EmptyString;
             PyStr EmptyString; PyStr EmptyString; PyStr "111"; PyStr EmptyString];
            [PyInt 2; PyStr EmptyString; PyStr EmptyString; PyStr EmptyString;
             PyStr EmptyString; PyStr EmptyString; PyStr "111"; PyStr EmptyString]]) /\
  Forall (fun r : row =>
            length r = 8%nat /\ nth_error r 6 = Some (PyStr "111") /\
            exists s, nth_error r 2 = Some (PyStr s) /\ has_char LF s = false)
    [[PyInt 1; PyStr EmptyString; PyStr "ok"; PyStr EmptyString;
      PyStr EmptyString; PyStr EmptyString; PyStr "111"; PyStr EmptyString];
     [PyInt 2; PyStr EmptyString; PyStr EmptyString; PyStr EmptyString;
      PyStr EmptyString; PyStr EmptyString; PyStr "111"; PyStr EmptyString]].
Proof.
  split; [reflexivity|].
  exact (proj2 (parsed_comments_are_tagged_and_single_line demo (PyStr "111")
                  two_comments_text _ eq_refl)).
Defined.


(** ** The requests of one collection *)

Lemma requests_app a b : requests (a ++ b) = requests a ++ requests b.
Proof.
  induction a as [|e a IH]; [reflexivity|].
  destruct e; simpl; by rewrite ?IH.
Qed.

Lemma run_pool_requests url_of task page_list cd w :
  one_request_per_page url_of task ->
  exists new,
    trace (snd (run_pool task page_list (cd, w))) = trace w ++ new /\
    requests new = map url_of page_list /\
    requests_sent (snd (run_pool task page_list (cd, w)))
    = (requests_sent w + length page_list)%nat.
Proof.
  intros Htask. revert cd w.
  induction page_list as [|page page_list IH]; intros cd w.
  - exists []. simpl. rewrite app_nil_r. repeat split. lia.
  - change (run_pool task (page :: page_list) (cd, w))
      with (run_pool task page_list (submitted (task page) (cd, w))).
    unfold submitted.
    destruct (task page (cd, w)) as [r [cd' w']] eqn:Hstep. simpl snd at 2 4.
    destruct (Htask _ _ _ _ _ _ Hstep) as (extra & Ht & He & Hn).
    destruct (IH cd' w') as (new & Ht' & Hr' & Hn').
    exists (Request (url_of page) :: extra ++ new). split; [|split].
    + rewrite Ht', Ht. trace_eq.
    + simpl. by rewrite requests_app, He, Hr'.
    + rewrite Hn', Hn. simpl. lia.
Qed.

Section Requests.

Variable E : environment.

Lemma com_send_request_sends u w r w' :
  com_send_request E u w = (r, w') ->
  exists extra,
    trace w' = trace w ++ Request u :: extra /\ requests extra = [] /\
    requests_sent w' = S (requests_sent w).
Proof.
  unfold com_send_request.
  destruct (http E (requests_sent w) u) as [|status text].
  - intros [= <- <-]. exists [LogError]. repeat split. trace_eq.
  - destruct (is_error_status status); intros [= <- <-].
    + exists [LogError]. repeat split. trace_eq.
    + by exists [].
Qed.

Lemma qa_send_request_sends u w r w' :
  qa_send_request E u w = (r, w') ->
  exists extra,
    trace w' = trace w ++ Request u :: extra /\ requests extra = [] /\
    requests_sent w' = S (requests_sent w).
Proof.
  unfold qa_send_request.
  destruct (http E (requests_sent w) u) as [|status text].
  - intros [= <- <-]. exists [LogError]. repeat split. trace_eq.
  - destruct (is_error_status status); intros [= <- <-].
    + exists [LogError]. repeat split. trace_eq.
    + by exists [].
Qed.

Lemma logged_after_request u (extra : list event) e w w1 :
  trace w1 = trace w ++ Request u :: extra -> requests extra = [] ->
  requests [e] = [] ->
  exists extra',
    trace (log e w1) = trace w ++ Request u :: extra' /\ requests extra' = [].
Proof.
  intros Ht He Hev. exists (extra ++ [e]). split.
  - simpl. rewrite Ht. trace_eq.
  - by rewrite requests_app, He, Hev.
Qed.

Lemma com_crawl_page_sends product_id :
  one_request_per_page (comments_url E product_id) (com_crawl_page E product_id).
Proof.
  intros page cd w r cd' w'. unfold com_crawl_page, get_comments.
  fold (comments_url E product_id page).
  destruct (com_send_request E _ w) as [[e|response] w1] eqn:Hreq;
    destruct (com_send_request_sends _ _ _ _ Hreq) as (extra & Ht & He & Hn).
  { intros [= <- <- <-]. by exists extra. }
  destruct (String.eqb response EmptyString).
  { intros [= <- <- <-].
    destruct (logged_after_request _ _ LogWarning _ _ Ht He eq_refl) as (x & Hx & Hx').
    by exists x. }
  destruct (parse_comments E product_id response) as [e|df].
  { intros [= <- <- <-]. by exists extra. }
  destruct (df_empty df); intros [= <- <- <-].
  - destruct (logged_after_request _ _ LogWarning _ _ Ht He eq_refl) as (x & Hx & Hx').
    by exists x.
  - destruct (logged_after_request _ _ Sleep _ _ Ht He eq_refl) as (x & Hx & Hx').
    by exists x.
Qed.

Lemma qa_crawl_page_sends product_id :
  one_request_per_page (questions_url product_id) (qa_crawl_page E product_id).
Proof.
  intros page cd w r cd' w'. unfold qa_crawl_page, get_qa.
  fold (questions_url product_id page).
  destruct (qa_send_request E _ w) as [[e|[response|]] w1] eqn:Hreq;
    destruct (qa_send_request_sends _ _ _ _ Hreq) as (extra & Ht & He & Hn).
  { intros [= <- <- <-]. by exists extra. }
  2:{ intros [= <- <- <-].
      destruct (logged_after_request _ _ LogWarning _ _ Ht He eq_refl) as (x & Hx & Hx').
      by exists x. }
  destruct (String.eqb response EmptyString).
  { intros [= <- <- <-].
    destruct (logged_after_request _ _ LogWarning _ _ Ht He eq_refl) as (x & Hx & Hx').
    by exists x. }
  destruct (parse_qa E response) as [e|df].
  { intros [= <- <- <-]. by exists extra. }
  destruct (df_empty df); intros [= <- <- <-].
  - destruct (logged_after_request _ _ LogWarning _ _ Ht He eq_refl) as (x & Hx & Hx').
    by exists x.
  - destruct (logged_after_request _ _ Sleep _ _ Ht He eq_refl) as (x & Hx & Hx').
    by exists x.
Qed.

Lemma save_frame_requests kind product_id data w result w' :
  save_frame E kind product_id data w = (result, w') ->
  exists extra, trace w' = trace w ++ extra /\ requests extra = [] /\
                requests_sent w' = requests_sent w.
Proof.
  intros Hsave.
  destruct (save_frame_cases _ _ _ _ _ _ _ Hsave)
    as [(_ & _ & ->)|[(_ & _ & Hw)|(_ & _ & -> & _)]].
  - by exists [LogWarning].
  - destruct (artifact_path_csv E kind product_id) as [p Hp].
    destruct (write_file_grows _ _ _ _ Hw) as (_ & Ht & _ & Hn).
    { rewrite Hp. apply basename_csv. }
    exists []. by rewrite app_nil_r.
  - by exists [LogError].
Qed.

Lemma page_events_started product_id mid :
  Forall (page_event product_id) mid -> started mid = [] /\ skipped mid = [].
Proof.
  induction 1 as [|e mid He _ [IH1 IH2]]; [by split|].
  destruct e; simpl in *; try (by split); destruct He.
Qed.

(** The trace of [com_start_crawling] when the pool can be built: the
    start, the events of the pages and of the persister, among which one
    request per page in the order of submission, and the end. *)
Lemma com_start_crawling_requests product_id w :
  1 <= MAX_WORKERS E ->
  exists result w' mid,
    com_start_crawling E product_id w = (inr result, w') /\
    trace w' = trace w ++ CrawlStarted product_id :: mid
                       ++ [CrawlFinished product_id result] /\
    Forall (page_event product_id) mid /\
    requests mid = map (comments_url E product_id) (com_page_list E) /\
    requests_sent w' = (requests_sent w + length (com_page_list E))%nat.
Proof.
  intros Hw.
  destruct (com_start_crawling_returns E product_id w Hw) as (result & w' & Hrun).
  destruct (com_start_crawling_shape E _ _ _ _ Hrun) as (_ & _ & mid & Hmid & Ht).
  exists result, w', mid. split; [assumption|]. split; [assumption|].
  split; [assumption|].
  revert Hrun. unfold com_start_crawling, com_collect.
  destruct (MAX_WORKERS E <=? 0) eqn:Hle; [lia|].
  destruct (run_pool_requests (comments_url E product_id) (com_crawl_page E product_id)
              (com_page_list E) (mkDataFrame comment_columns [])
              (log (CrawlStarted product_id) w) (com_crawl_page_sends product_id))
    as (new & Ht1 & Hr1 & Hn1).
  destruct (run_pool _ _ _) as [cd w1]. simpl in Ht1, Hn1.
  destruct (save_comments E product_id cd w1) as [result' w2] eqn:Hsave.
  destruct (save_frame_requests _ _ _ _ _ _ Hsave) as (extra & Ht2 & Hr2 & Hn2).
  intros [= -> <-]. simpl in Ht. rewrite Ht2, Ht1 in Ht.
  assert (Hmid' : mid = new ++ extra).
  { rewrite <- !app_assoc in Ht. apply app_inv_head in Ht. simpl in Ht.
    injection Ht as Ht. rewrite app_assoc in Ht. by apply app_inv_tail in Ht. }
  split.
  - by rewrite Hmid', requests_app, Hr1, Hr2, app_nil_r.
  - simpl. by rewrite Hn2, Hn1.
Qed.

Lemma qa_start_crawling_requests product_id w :
  1 <= MAX_WORKERS E ->
  exists result w' mid,
    qa_start_crawling E product_id w = (inr result, w') /\
    trace w' = trace w ++ CrawlStarted product_id :: mid
                       ++ [CrawlFinished product_id result] /\
    requests mid = map (questions_url product_id) (qa_page_list E) /\
    requests_sent w' = (requests_sent w + length (qa_page_list E))%nat.
Proof.
  intros Hw. unfold qa_start_crawling, qa_collect.
  destruct (MAX_WORKERS E <=? 0) eqn:Hle; [lia|].
  destruct (run_pool_requests (questions_url product_id) (qa_crawl_page E product_id)
              (qa_page_list E) (mkDataFrame qa_columns [])
              (log (CrawlStarted product_id) w) (qa_crawl_page_sends product_id))
    as (new & Ht1 & Hr1 & Hn1).
  destruct (run_pool _ _ _) as [cd w1]. simpl in Ht1, Hn1.
  destruct (save_data E product_id cd w1) as [result w2] eqn:Hsave.
  destruct (save_frame_requests _ _ _ _ _ _ Hsave) as (extra & Ht2 & Hr2 & Hn2).
  exists result, (log (CrawlFinished product_id result) w2), (new ++ extra).
  split; [reflexivity|]. split; [simpl; rewrite Ht2, Ht1; trace_eq|]. split.
  - by rewrite requests_app, Hr1, Hr2, app_nil_r.
  - simpl. by rewrite Hn2, Hn1.
Qed.

(** X4: with at least one worker, the collection of a comment target
    returns and sends exactly one request per page, for the pages
    0 .. P-1 in that order, each with the identifier of the target and
    the configured score, sort type and page size, whatever the answers
    were; the collection of a QA target sends exactly one request per
    page, for the pages 1 .. P, and never asks for the answers of a
    question.  A page count of zero or less sends nothing. *)
Theorem collection_requests_every_page_once product_id w :
  1 <= MAX_WORKERS E ->
  (exists result w' new,
     com_start_crawling E product_id w = (inr result, w') /\
     trace w' = trace w ++ new /\
     requests new
     = map (fun page => CommentsUrl product_id (score (COMMENT_PARAM E))
                          (sort_type (COMMENT_PARAM E)) page (page_size (COMMENT_PARAM E)))
           (py_range 0 (pages (COMMENT_PARAM E))) /\
     length (requests new) = Z.to_nat (pages (COMMENT_PARAM E)) /\
     requests_sent w' = (requests_sent w + Z.to_nat (pages (COMMENT_PARAM E)))%nat) /\
  (exists result w' new,
     qa_start_crawling E product_id w = (inr result, w') /\
     trace w' = trace w ++ new /\
     requests new
     = map (fun page => QuestionsUrl page product_id) (py_range 1 (QA_PARAM_pages E + 1)) /\
     length (requests new) = Z.to_nat (QA_PARAM_pages E) /\
     requests_sent w' = (requests_sent w + Z.to_nat (QA_PARAM_pages E))%nat).
Proof.
  intros Hw. split.
  - destruct (com_start_crawling_requests product_id w Hw)
      as (result & w' & mid & Hrun & Ht & _ & Hr & Hn).
    exists result, w', (CrawlStarted product_id :: mid ++ [CrawlFinished product_id result]).
    assert (Hreq : requests (CrawlStarted product_id :: mid
                             ++ [CrawlFinished product_id result])
                   = map (comments_url E product_id) (com_page_list E)).
    { simpl. by rewrite requests_app, Hr, app_nil_r. }
    split; [assumption|]. split; [assumption|]. split; [exact Hreq|].
    unfold com_page_list in *. rewrite py_range_length in Hn.
    split; [|rewrite Hn; f_equal; f_equal; lia].
    rewrite Hreq, length_map, py_range_length. f_equal. lia.
  - destruct (qa_start_crawling_requests product_id w Hw)
      as (result & w' & mid & Hrun & Ht & Hr & Hn).
    exists result, w', (CrawlStarted product_id :: mid ++ [CrawlFinished product_id result]).
    assert (Hreq : requests (CrawlStarted product_id :: mid
                             ++ [CrawlFinished product_id result])
                   = map (questions_url product_id) (qa_page_list E)).
    { simpl. by rewrite requests_app, Hr, app_nil_r. }
    split; [assumption|]. split; [assumption|]. split; [exact Hreq|].
    unfold qa_page_list in *. rewrite py_range_length in Hn.
    split; [|rewrite Hn; f_equal; f_equal; lia].
    rewrite Hreq, length_map, py_range_length. f_equal. lia.
Qed.

End Requests.

Lemma collection_requests_every_page_once_witness :
  1 <= MAX_WORKERS demo /\
  (exists result w' new,
     com_start_crawling demo (PyStr "111") (demo_world EmptyString []) = (inr result, w') /\
     trace w' = trace (demo_world EmptyString []) ++ new /\
     requests new
     = [CommentsUrl (PyStr "111") 1 6 0 10; CommentsUrl (PyStr "111") 1 6 1 10]) /\
  (exists result w' new,
     qa_start_crawling demo (PyStr "111") (demo_world EmptyString []) = (inr result, w') /\
     trace w' = trace (demo_world EmptyString []) ++ new /\
     requests new = [QuestionsUrl 1 (PyStr "111"); QuestionsUrl 2 (PyStr "111")]).
Proof.
  split; [simpl; lia|].
  destruct (collection_requests_every_page_once demo (PyStr "111")
              (demo_world EmptyString []))
    as ((r1 & w1 & n1 & H1 & Ht1 & Hr1 & _) & (r2 & w2 & n2 & H2 & Ht2 & Hr2 & _));
    [simpl; lia|].
  split.
  - exists r1, w1, n1. split; [exact H1|]. split; [exact Ht1|exact Hr1].
  - exists r2, w2, n2. split; [exact H2|]. split; [exact Ht2|exact Hr2].
Defined.

(** ** Every schedule of the pool *)

Lemma pool_requests url_of task max_workers page_list cd w s :
  one_request_per_page url_of task ->
  Pool.reachable task max_workers page_list (cd, w) s ->
  exists new,
    trace (snd (Pool.shared s)) = trace w ++ new /\
    requests new = map url_of (Pool.settled s) /\
    requests_sent (snd (Pool.shared s)) = (requests_sent w + length (Pool.settled s))%nat.
Proof.
  intros Htask Hreach.
  destruct (pool_invariant_reachable _ _ _ _ _ Hreach) as (_ & -> & _).
  by apply run_pool_requests.
Qed.

Lemma pool_frame (I : DataFrame -> Prop)
    (task : Z -> DataFrame * world -> res unit * (DataFrame * world))
    max_workers page_list cd w s :
  (forall page cd w r cd' w', task page (cd, w) = (r, (cd', w')) -> I cd -> I cd') ->
  I cd ->
  Pool.reachable task max_workers page_list (cd, w) s ->
  I (fst (Pool.shared s)).
Proof.
  intros Htask Hcd Hreach.
  destruct (pool_invariant_reachable _ _ _ _ _ Hreach) as (_ & -> & _).
  by apply run_pool_invariant.
Qed.

Section Schedules.

Variable E : environment.

Lemma com_crawl_page_keeps_frame product_id page cd w r cd' w' :
  com_crawl_page E product_id page (cd, w) = (r, (cd', w')) ->
  comment_frame_ok product_id cd -> comment_frame_ok product_id cd'.
Proof.
  intros Hstep [Hcols Hrows].
  destruct (com_crawl_page_step _ _ _ _ _ _ _ _ Hstep)
    as (_ & [->|(n & status & text & df & _ & Hp & _ & ->)]); [by split|].
  destruct (parse_comments_frame_ok _ _ _ _ Hp) as [_ Hdf].
  split; [assumption|]. simpl. by apply Forall_app.
Qed.

Lemma qa_crawl_page_keeps_frame product_id page qd w r qd' w' :
  qa_crawl_page E product_id page (qd, w) = (r, (qd', w')) ->
  qa_frame_ok qd -> qa_frame_ok qd'.
Proof.
  intros Hstep [Hcols Hrows].
  destruct (qa_crawl_page_step _ _ _ _ _ _ _ _ Hstep)
    as (_ & [->|(n & status & text & df & _ & Hp & _ & ->)]); [by split|].
  destruct (parse_qa_frame_ok _ _ _ Hp) as [_ Hdf].
  split; [assumption|]. simpl. by apply Forall_app.
Qed.

(** X5: in every schedule of the pool, when the main thread has left the
    [with] block the requests sent for a comment target are, in the order
    in which the pages settled, one per settled page; they are the
    requests of the pages 0 .. P-1 in some order, none twice and none
    left out, and the count of requests sent has grown by P.  The same
    holds for a QA target and the pages 1 .. P. *)
Theorem every_schedule_requests_each_page_once product_id cd w s qd w' s' :
  0 <= pages (COMMENT_PARAM E) ->
  0 <= QA_PARAM_pages E ->
  Pool.reachable (com_crawl_page E product_id) (MAX_WORKERS E) (com_page_list E)
    (cd, w) s ->
  Pool.main s = Pool.Joined ->
  Pool.reachable (qa_crawl_page E product_id) (MAX_WORKERS E) (qa_page_list E)
    (qd, w') s' ->
  Pool.main s' = Pool.Joined ->
  (exists new,
     trace (snd (Pool.shared s)) = trace w ++ new /\
     requests new = map (comments_url E product_id) (Pool.settled s) /\
     Permutation (requests new)
       (map (comments_url E product_id) (py_range 0 (pages (COMMENT_PARAM E)))) /\
     Z.of_nat (requests_sent (snd (Pool.shared s)))
     = Z.of_nat (requests_sent w) + pages (COMMENT_PARAM E)) /\
  (exists new,
     trace (snd (Pool.shared s')) = trace w' ++ new /\
     requests new = map (questions_url product_id) (Pool.settled s') /\
     Permutation (requests new)
       (map (questions_url product_id) (py_range 1 (QA_PARAM_pages E + 1))) /\
     Z.of_nat (requests_sent (snd (Pool.shared s')))
     = Z.of_nat (requests_sent w') + QA_PARAM_pages E).
Proof.
  intros HP HQ Hs Hj Hs' Hj'. split.
  - destruct (pool_requests _ _ _ _ _ _ _ (com_crawl_page_sends E product_id) Hs)
      as (new & Ht & Hr & Hn).
    destruct (pool_joined _ _ _ _ s Hs Hj) as (Hperm & _).
    exists new. split; [assumption|]. split; [assumption|]. split.
    + rewrite Hr. by apply Permutation_map.
    + rewrite Hn, (Permutation.Permutation_length Hperm).
      unfold com_page_list. rewrite py_range_length. lia.
  - destruct (pool_requests _ _ _ _ _ _ _ (qa_crawl_page_sends E product_id) Hs')
      as (new & Ht & Hr & Hn).
    destruct (pool_joined _ _ _ _ s' Hs' Hj') as (Hperm & _).
    exists new. split; [assumption|]. split; [assumption|]. split.
    + rewrite Hr. by apply Permutation_map.
    + rewrite Hn, (Permutation.Permutation_length Hperm).
      unfold qa_page_list. rewrite py_range_length. lia.
Qed.

(** X6: in every state of every schedule of the pool, the frame the page
    tasks of a comment target share has the eight comment columns, and
    every row of it has eight cells, the identifier of the target in the
    seventh and a content without line feed; the frame of a QA target has
    the eight QA columns and rows of eight cells.  So the frame handed to
    the persister has as many cells in each row as it has columns. *)
Theorem accumulated_frames_keep_their_shape product_id w s w' s' :
  Pool.reachable (com_crawl_page E product_id) (MAX_WORKERS E) (com_page_list E)
    (mkDataFrame comment_columns [], w) s ->
  Pool.reachable (qa_crawl_page E product_id) (MAX_WORKERS E) (qa_page_list E)
    (mkDataFrame qa_columns [], w') s' ->
  (columns (fst (Pool.shared s)) = comment_columns /\
   Forall (fun r : row =>
             length r = length (columns (fst (Pool.shared s))) /\
             nth_error r 6 = Some product_id /\
             exists c, nth_error r 2 = Some (PyStr c) /\ has_char LF c = false)
     (rows (fst (Pool.shared s)))) /\
  (columns (fst (Pool.shared s')) = qa_columns /\
   Forall (fun r : row => length r = length (columns (fst (Pool.shared s'))))
     (rows (fst (Pool.shared s')))).
Proof.
  intros Hs Hs'. split.
  - assert (H0 : comment_frame_ok product_id (mkDataFrame comment_columns []))
      by (split; [reflexivity|constructor]).
    destruct (pool_frame (comment_frame_ok product_id) _ _ _ _ _ _
                (com_crawl_page_keeps_frame product_id) H0 Hs) as [Hcols Hrows].
    split; [assumption|]. rewrite Hcols. exact Hrows.
  - assert (H0 : qa_frame_ok (mkDataFrame qa_columns []))
      by (split; [reflexivity|constructor]).
    destruct (pool_frame qa_frame_ok _ _ _ _ _ _
                (qa_crawl_page_keeps_frame product_id) H0 Hs') as [Hcols Hrows].
    split; [assumption|]. rewrite Hcols. exact Hrows.
Qed.

End Schedules.

Lemma every_schedule_requests_each_page_once_witness :
  (0 <= pages (COMMENT_PARAM demo) /\ 0 <= QA_PARAM_pages demo /\
   Pool.reachable (com_crawl_page demo (PyStr "111")) (MAX_WORKERS demo)
     (com_page_list demo) demo_com_start demo_com_joined /\
   Pool.main demo_com_joined = Pool.Joined /\
   Pool.reachable (qa_crawl_page demo (PyStr "111")) (MAX_WORKERS demo)
     (qa_page_list demo) demo_qa_start demo_qa_joined /\
   Pool.main demo_qa_joined = Pool.Joined) /\
  (exists new,
     trace (snd (Pool.shared demo_com_joined)) = trace (demo_world EmptyString []) ++ new /\
     requests new
     = [CommentsUrl (PyStr "111") 1 6 1 10; CommentsUrl (PyStr "111") 1 6 0 10] /\
     Permutation (requests new)
       [CommentsUrl (PyStr "111") 1 6 0 10; CommentsUrl (PyStr "111") 1 6 1 10]) /\
  (exists new,
     trace (snd (Pool.shared demo_qa_joined)) = trace (demo_world EmptyString []) ++ new /\
     requests new = [QuestionsUrl 2 (PyStr "111"); QuestionsUrl 1 (PyStr "111")] /\
     Permutation (requests new)
       [QuestionsUrl 1 (PyStr "111"); QuestionsUrl 2 (PyStr "111")]).
Proof.
  assert (Hs : Pool.reachable (com_crawl_page demo (PyStr "111")) (MAX_WORKERS demo)
                 (com_page_list demo) demo_com_start demo_com_joined).
  { apply pool_two_pages_reversed; [reflexivity|simpl; lia]. }
  assert (Hs' : Pool.reachable (qa_crawl_page demo (PyStr "111")) (MAX_WORKERS demo)
                  (qa_page_list demo) demo_qa_start demo_qa_joined).
  { apply pool_two_pages_reversed; [reflexivity|simpl; lia]. }
  split.
  - repeat split; try assumption; simpl; lia.
  - destruct (every_schedule_requests_each_page_once demo (PyStr "111")
                (mkDataFrame comment_columns []) (demo_world EmptyString []) demo_com_joined
                (mkDataFrame qa_columns []) (demo_world EmptyString []) demo_qa_joined)
      as ((n1 & Ht1 & Hr1 & Hp1 & _) & (n2 & Ht2 & Hr2 & Hp2 & _));
      try assumption; try reflexivity; try (simpl; lia).
    split.
    + exists n1. split; [exact Ht1|]. split; [exact Hr1|exact Hp1].
    + exists n2. split; [exact Ht2|]. split; [exact Hr2|exact Hp2].
Defined.

Lemma accumulated_frames_keep_their_shape_witness :
  (Pool.reachable (com_crawl_page demo (PyStr "111")) (MAX_WORKERS demo)
     (com_page_list demo) demo_com_start demo_com_joined /\
   Pool.reachable (qa_crawl_page demo (PyStr "111")) (MAX_WORKERS demo)
     (qa_page_list demo) demo_qa_start demo_qa_joined) /\
  length (rows (fst (Pool.shared demo_com_joined))) = 2%nat /\
  Forall (fun r : row => length r = 8%nat /\ nth_error r 6 = Some (PyStr "111"))
    (rows (fst (Pool.shared demo_com_joined))) /\
  length (rows (fst (Pool.shared demo_qa_joined))) = 2%nat /\
  Forall (fun r : row => length r = 8%nat) (rows (fst (Pool.shared demo_qa_joined))).
Proof.
  assert (Hs : Pool.reachable (com_crawl_page demo (PyStr "111")) (MAX_WORKERS demo)
                 (com_page_list demo) demo_com_start demo_com_joined).
  { apply pool_two_pages_reversed; [reflexivity|simpl; lia]. }
  assert (Hs' : Pool.reachable (qa_crawl_page demo (PyStr "111")) (MAX_WORKERS demo)
                  (qa_page_list demo) demo_qa_start demo_qa_joined).
  { apply pool_two_pages_reversed; [reflexivity|simpl; lia]. }
  split; [by split|].
  destruct (accumulated_frames_keep_their_shape demo (PyStr "111")
              (demo_world EmptyString []) demo_com_joined
              (demo_world EmptyString []) demo_qa_joined Hs Hs')
    as ((Hc & Hr) & (Hc' & Hr')).
  split; [vm_compute; reflexivity|]. split.
  - apply (List.Forall_impl _ (P := _) (fun r H => conj (eq_trans (proj1 H) (f_equal _ Hc))
                                      (proj1 (proj2 H))) Hr).
  - split; [vm_compute; reflexivity|].
    apply (List.Forall_impl _ (P := _) (fun r H => eq_trans H (f_equal _ Hc')) Hr').
Defined.

(** ** A page that fails, and what the persister writes *)

Section PageFacts.

Variable E : environment.





Lemma put_entry_found name n es es' :
  put_entry name n es = Some es' -> find_entry name es' = Some n.
Proof.
  revert es'. induction es as [|[name' n'] es IH]; intros es'; simpl.
  - intros [= <-]. simpl. by rewrite String.eqb_refl.
  - destruct (String.eqb name' name) eqn:Heq.
    + destruct n'; [discriminate|]. intros [= <-]. simpl. by rewrite String.eqb_refl.
    + destruct (put_entry name n es) as [rest|]; [|discriminate].
      intros [= <-]. simpl. rewrite Heq. by apply IH.
Qed.

Lemma put_entry_fails name n es :
  put_entry name n es = None <-> find_entry name es = Some Directory.
Proof.
  induction es as [|[name' n'] es IH]; simpl; [split; discriminate|].
  destruct (String.eqb name' name).
  - destruct n'; split; try discriminate; reflexivity.
  - destruct (put_entry name n es) as [rest|].
    + split; [discriminate|]. intros H. by apply IH in H.
    + split; [intros _; by apply IH|reflexivity].
Qed.

Lemma artifact_path_parts kind product_id :
  has_char slash kind = false ->
  has_char slash (py_format E product_id) = false ->
  DATA_PATH E <> EmptyString ->
  directory_of (artifact_path E kind product_id) = DATA_PATH E /\
  basename (artifact_path E kind product_id) = artifact_name E kind product_id.
Proof.
  intros Hk Ht Hd. unfold directory_of, basename, artifact_path, artifact_name.
  change ("/" +:+ kind +:+ "_" +:+ py_format E product_id +:+ ".csv")
    with (String slash (kind +:+ "_" +:+ py_format E product_id +:+ ".csv")).
  rewrite path_split_dir.
  - simpl. split; [|reflexivity]. by destruct (DATA_PATH E).
  - rewrite !has_char_app, Hk, Ht. reflexivity.
Qed.

(** X9: what a persister does with a frame of two rows or more, for a
    target whose printed identifier holds no slash.  If the data directory
    does not exist, or holds a directory under the name of the artifact,
    nothing is written and an error is logged, without any exception.
    Otherwise the artifact [kind_id.csv] of the data directory holds, after
    the call, exactly the text of that frame, whatever file of that name
    was there before; every other entry of every directory is as it was,
    and nothing is logged. *)
Theorem persister_writes_the_whole_frame kind product_id data w :
  kind = "com" \/ kind = "qa" ->
  has_char slash (py_format E product_id) = false ->
  DATA_PATH E <> EmptyString ->
  1 < df_len data ->
  (dirs w !! DATA_PATH E = None ->
   save_frame E kind product_id data w = (PersistFailed, log LogError w)) /\
  (lookup_node (DATA_PATH E) (artifact_name E kind product_id) w = Some Directory ->
   save_frame E kind product_id data w = (PersistFailed, log LogError w)) /\
  (forall es,
     dirs w !! DATA_PATH E = Some es ->
     lookup_node (DATA_PATH E) (artifact_name E kind product_id) w <> Some Directory ->
     exists w',
       save_frame E kind product_id data w = (Persisted, w') /\
       lookup_node (DATA_PATH E) (artifact_name E kind product_id) w'
       = Some (File (to_csv_text E data)) /\
       (forall dir name,
          dir <> DATA_PATH E \/ name <> artifact_name E kind product_id ->
          lookup_node dir name w' = lookup_node dir name w) /\
       trace w' = trace w /\ checkpoint w' = checkpoint w).
Proof.
  intros Hkind Ht Hd Hlen.
  assert (Hk : has_char slash kind = false) by (by destruct Hkind as [-> | ->]).
  destruct (artifact_path_parts kind product_id Hk Ht Hd) as [Hdir Hbase].
  unfold save_frame, write_file. rewrite Hdir, Hbase.
  destruct (df_len data <=? 1) eqn:Hle; [lia|].
  split; [|split].
  - by intros ->.
  - unfold lookup_node. destruct (dirs w !! DATA_PATH E) as [es|]; [|discriminate].
    intros Hfind. apply (put_entry_fails _ (File (to_csv_text E data))) in Hfind.
    by rewrite Hfind.
  - intros es Hes. unfold lookup_node at 1. rewrite Hes. intros Hnot.
    destruct (put_entry (artifact_name E kind product_id) (File (to_csv_text E data)) es)
      as [es'|] eqn:Hput.
    2:{ destruct Hnot. by apply (put_entry_fails _ (File (to_csv_text E data))). }
    eexists. split; [reflexivity|]. split; [|split; [|by split]].
    + unfold lookup_node. simpl. rewrite lookup_insert_eq.
      by apply (put_entry_found _ _ es).
    + intros dir name Hother. unfold lookup_node. simpl.
      destruct (decide (DATA_PATH E = dir)) as [<-|Hne].
      * rewrite lookup_insert_eq, Hes.
        apply (put_entry_others _ _ _ _ _ Hput). by destruct Hother.
      * by rewrite lookup_insert_ne.
Qed.

End PageFacts.



Lemma persister_writes_the_whole_frame_witness :
  (1 < df_len (mkDataFrame comment_columns [[PyInt 1]; [PyInt 2]]) /\
   dirs (demo_world EmptyString [("com_111.csv", File "old")]) !! "out"
   = Some [("com_111.csv", File "old")]) /\
  exists w',
    save_comments demo (PyInt 111) (mkDataFrame comment_columns [[PyInt 1]; [PyInt 2]])
      (demo_world EmptyString [("com_111.csv", File "old")]) = (Persisted, w') /\
    lookup_node "out" "com_111.csv" w' = Some (File "csv").
Proof.
  split; [split; [reflexivity|by vm_compute]|].
  destruct (persister_writes_the_whole_frame demo "com" (PyInt 111)
              (mkDataFrame comment_columns [[PyInt 1]; [PyInt 2]])
              (demo_world EmptyString [("com_111.csv", File "old")]))
    as (_ & _ & Hok); [by left|reflexivity|discriminate|reflexivity|].
  destruct (Hok [("com_111.csv", File "old")]) as (w' & Hsave & Hfile & _);
    [by vm_compute|by vm_compute|].
  exists w'. split; [exact Hsave|exact Hfile].
Defined.

(** ** The index entry of a file name *)

Lemma str_split_cons sep s : exists w ws, str_split sep s = w :: ws.
Proof.
  induction s as [|c s (w & ws & IH)]; simpl; [by eexists _, _|].
  destruct (Ascii.eqb c sep); [by eexists _, _|]. rewrite IH. by eexists _, _.
Qed.

Lemma str_split_two sep s :
  has_char sep s = true -> exists a b rest, str_split sep s = a :: b :: rest.
Proof.
  induction s as [|c s IH]; simpl; [discriminate|].
  destruct (Ascii.eqb c sep); simpl.
  - intros _. destruct (str_split_cons sep s) as (w & ws & ->). by eexists _, _, _.
  - intros Hs. destruct (IH Hs) as (a & b & rest & ->). by eexists _, _, _.
Qed.

(** The first piece of a split runs through a prefix without separator. *)
Lemma str_split_prefix sep a b :
  has_char sep a = false ->
  str_split sep (a +:+ b)
  = match str_split sep b with
    | [] => [a]
    | w :: ws => (a +:+ w) :: ws
    end.
Proof.
  destruct (str_split_cons sep b) as (w & ws & Hb).
  induction a as [|x a IH]; simpl.
  - intros _. by rewrite Hb.
  - intros H. apply orb_false_elim in H as [Hx Ha]. rewrite Hx, (IH Ha).
    by rewrite Hb.
Qed.

Lemma index_entry_without_underscore name :
  has_char underscore name = false -> index_entry name = inl IndexError.
Proof. intros Hn. unfold index_entry. by rewrite str_split_no_sep. Qed.

Lemma index_entry_with_underscore name :
  has_char underscore name = true -> exists t, index_entry name = inr t.
Proof.
  intros Hn. unfold index_entry.
  destruct (str_split_two _ _ Hn) as (a & b & rest & ->). simpl.
  destruct (str_split_cons dot b) as (w & ws & ->). by exists w.
Qed.

(** The entry is the text from the first underscore up to the next
    underscore or dot, or to the end of the name. *)
Lemma index_entry_between kind t rest :
  has_char underscore kind = false ->
  has_char underscore t = false ->
  has_char dot t = false ->
  (rest = EmptyString \/
   exists c more, rest = String c more /\ (c = underscore \/ c = dot)) ->
  index_entry (kind +:+ String underscore (t +:+ rest)) = inr t.
Proof.
  intros Hk Htu Htd Hrest. unfold index_entry.
  rewrite (str_split_at_sep _ _ _ Hk).
  destruct Hrest as [->|(c & more & -> & [->| ->])].
  - rewrite string_app_empty_r, (str_split_no_sep _ _ Htu). simpl.
    by rewrite (str_split_no_sep _ _ Htd).
  - rewrite (str_split_at_sep _ _ _ Htu). simpl.
    by rewrite (str_split_no_sep _ _ Htd).
  - rewrite (str_split_prefix _ _ _ Htu).
    destruct (str_split_cons underscore (String dot more)) as (w & ws & Hsplit).
    rewrite Hsplit. simpl.
    assert (Hw : exists w', w = String dot w').
    { simpl in Hsplit. destruct (str_split_cons underscore more) as (w0 & ws0 & Hm).
      rewrite Hm in Hsplit. injection Hsplit as <- _. by exists w0. }
    destruct Hw as [w' ->]. by rewrite (str_split_at_sep _ _ _ Htd).
Qed.

(** X10: the index entry [file.split('_')[1].split('.')[0]] of a file
    name.  It raises, and then [IndexError], exactly when the name holds
    no underscore.  Otherwise it is the text that follows the first
    underscore, up to the next underscore or dot or to the end of the
    name: whatever stands before the first underscore and after that
    text plays no part, and the entry itself holds neither underscore
    nor dot. *)
Theorem index_entry_reads_up_to_underscore_or_dot name :
  (index_entry name = inl IndexError <-> has_char underscore name = false) /\
  (forall e, index_entry name = inl e -> e = IndexError) /\
  (forall kind t rest,
     name = kind +:+ String underscore (t +:+ rest) ->
     has_char underscore kind = false ->
     has_char underscore t = false ->
     has_char dot t = false ->
     (rest = EmptyString \/
      exists c more, rest = String c more /\ (c = underscore \/ c = dot)) ->
     index_entry name = inr t) /\
  (forall t, index_entry name = inr t ->
     has_char underscore name = true /\
     has_char underscore t = false /\ has_char dot t = false).
Proof.
  split; [|split; [|split]].
  - split; [|apply index_entry_without_underscore].
    intros Herr. destruct (has_char underscore name) eqn:Hn; [|reflexivity].
    destruct (index_entry_with_underscore _ Hn) as [t Ht]. congruence.
  - apply index_entry_errors.
  - intros kind t rest -> Hk Htu Htd Hrest. by apply index_entry_between.
  - intros t Ht. split; [|by apply (index_entry_shape name)].
    destruct (has_char underscore name) eqn:Hn; [reflexivity|].
    rewrite (index_entry_without_underscore _ Hn) in Ht. discriminate.
Qed.



Section IndexFacts.

Variable E : environment.

(** X11: an artifact blocks more targets than its own.  When the output
    directory holds the artifact of a target whose identifier is [t]
    followed by an underscore or a dot and anything more, every index
    built from that directory holds [t], and a run neither starts the
    collection of the target [t] nor sends a request about it, although
    no artifact of [t] itself is there. *)
Theorem artifact_of_longer_identifier_blocks_target
    kind t c more files output_dir w ids r w' :
  kind = "com" \/ kind = "qa" ->
  has_char underscore t = false ->
  has_char dot t = false ->
  c = underscore \/ c = dot ->
  listdir output_dir w = inr files ->
  In (artifact_name E kind (PyStr (t +:+ String c more))) files ->
  crawl_comments_and_qa E ids output_dir w = (r, w') ->
  index_entry (artifact_name E kind (PyStr (t +:+ String c more))) = inr t /\
  (forall idx, index_of output_dir w = inr idx -> py_in (PyStr t) idx = true) /\
  exists new, trace w' = trace w ++ new /\ Forall (fun e => concerns t e = false) new.
Proof.
  intros Hkind Htu Htd Hc Hls Hin Hrun.
  assert (Hname : artifact_name E kind (PyStr (t +:+ String c more))
                  = kind +:+ String underscore (t +:+ String c (more +:+ ".csv"))).
  { unfold artifact_name. simpl py_format.
    change ("_" +:+ (t +:+ String c more) +:+ ".csv")
      with (String underscore ((t +:+ String c more) +:+ ".csv")).
    by rewrite string_app_assoc. }
  assert (Hentry : index_entry (artifact_name E kind (PyStr (t +:+ String c more)))
                   = inr t).
  { rewrite Hname. apply index_entry_between; try assumption.
    - by destruct Hkind as [-> | ->].
    - right. by exists c, (more +:+ ".csv"). }
  assert (Hb : blocked output_dir t w).
  { exists (artifact_name E kind (PyStr (t +:+ String c more))), files.
    split; [assumption|]. split; [assumption|]. split; [|assumption].
    unfold artifact_name. rewrite <- !string_app_assoc. apply endswith_app. }
  split; [assumption|]. split.
  - intros idx Hidx. apply py_in_str. by apply (blocked_in_index output_dir t w).
  - by apply (run_leaves_blocked_target E ids output_dir t w r w').
Qed.



End IndexFacts.

Lemma artifact_of_longer_identifier_blocks_target_witness :
  (listdir "out" demo_with_longer_artifact = inr ["com_111_2.csv"] /\
   artifact_name demo "com" (PyStr ("111" +:+ String underscore "2")) = "com_111_2.csv") /\
  index_entry "com_111_2.csv" = inr "111" /\
  exists new,
    trace (snd (crawl_comments_and_qa demo "ids" "out" demo_with_longer_artifact))
    = trace demo_with_longer_artifact ++ new /\
    Forall (fun e => concerns "111" e = false) new.
Proof.
  split; [split; [by vm_compute|reflexivity]|].
  destruct (artifact_of_longer_identifier_blocks_target demo "com" "111" underscore "2"
              ["com_111_2.csv"] "out" demo_with_longer_artifact "ids"
              (fst (crawl_comments_and_qa demo "ids" "out" demo_with_longer_artifact))
              (snd (crawl_comments_and_qa demo "ids" "out" demo_with_longer_artifact)))
    as (Hentry & _ & Hnew);
    [by left|reflexivity|reflexivity|by left|by vm_compute|by left
    |apply surjective_pairing|].
  split; [exact Hentry|exact Hnew].
Defined.


(** ** Manifests that end the run, and what a pass asks of the service *)

Lemma started_app a b : started (a ++ b) = started a ++ started b.
Proof.
  induction a as [|e a IH]; [reflexivity|].
  destruct e; simpl; by rewrite ?IH.
Qed.

Lemma skipped_app a b : skipped (a ++ b) = skipped a ++ skipped b.
Proof.
  induction a as [|e a IH]; [reflexivity|].
  destruct e; simpl; by rewrite ?IH.
Qed.

Lemma page_events_processed product_id mid :
  Forall (page_event product_id) mid -> processed mid = [].
Proof. apply processed_page_events. Qed.

Lemma manifest_shape_error_raised data e :
  manifest_shape_error data = Some e ->
  (v <- first_value data; py_iter v)%res = inl e.
Proof.
  destruct data as [| | | | | |items]; simpl; try (by intros [= <-]).
  destruct items as [|[k v] items]; simpl; [by intros [= <-]|].
  destruct v; simpl; try discriminate; by intros [= <-].
Qed.

Section PassRequests.

Variable E : environment.

(** X13: a manifest that decodes to something of the wrong shape ends
    the run.  When the decoded document is no object ([AttributeError]),
    an object without member ([IndexError]), or an object whose first
    member is a number, a boolean or null ([TypeError]), and the index
    could be built, the loop over the files ends at that manifest with
    that exception, which the orchestrator does not catch: nothing is
    requested, logged or appended to the checkpoint, and no file after it
    is looked at. *)
Theorem misshapen_manifest_ends_the_run
    ids output_dir filename content data idx e rest w :
  lookup_node ids filename w = Some (File content) ->
  endswith filename ".json" = true ->
  json_loads E content = Some data ->
  index_of output_dir w = inr idx ->
  manifest_shape_error data = Some e ->
  process_entries E ids output_dir (filename :: rest) w = (inl e, w) /\
  (e = IndexError \/ e = AttributeError \/ e = TypeError).
Proof.
  intros Hnode Hjson Hload Hidx Hshape.
  pose proof (manifest_shape_error_raised _ _ Hshape) as Hraise.
  split; [|by apply (products_errors data)].
  simpl. unfold process_entry. rewrite Hnode, Hjson.
  unfold process_manifest, manifest_body, loads. rewrite Hload. simpl.
  rewrite Hidx, Hraise.
  by destruct (products_errors _ _ Hraise) as [->|[->| ->]].
Qed.

Lemma crawl_products_app idx l1 l2 w :
  crawl_products E idx (l1 ++ l2) w
  = match crawl_products E idx l1 w with
    | (inl e, w1) => (inl e, w1)
    | (inr _, w1) => crawl_products E idx l2 w1
    end.
Proof.
  revert w. induction l1 as [|info l1 IH]; intros w; simpl; [reflexivity|].
  destruct (py_getitem info "sku") as [e|product_id]; [reflexivity|].
  destruct (py_in product_id idx); [apply IH|].
  destruct (com_start_crawling E product_id w) as [[e|result] w1]; [reflexivity|apply IH].
Qed.

Lemma crawl_products_returns idx products w :
  1 <= MAX_WORKERS E ->
  Forall has_sku products ->
  exists w', crawl_products E idx products w = (inr tt, w').
Proof.
  intros Hw Hall. revert w.
  induction Hall as [|info products [product_id Hsku] _ IH]; intros w; simpl.
  - by exists w.
  - rewrite Hsku. destruct (py_in product_id idx); [apply IH|].
    destruct (com_start_crawling_returns E product_id w Hw) as (result & w1 & ->).
    apply IH.
Qed.

(** X14: an entry without [sku] ends the run in the middle of a
    manifest.  With at least one worker, when the entries before it all
    carry a [sku], the pass deals with those targets, in order, and then
    raises [KeyError] (the entry is an object without that key) or
    [TypeError] (it is no object); the orchestrator does not catch it:
    the entries after it are not looked at and the manifest is not
    appended to the checkpoint. *)
Theorem entry_without_sku_ends_the_run
    output_dir filename content data idx before bad after e w :
  1 <= MAX_WORKERS E ->
  json_loads E content = Some data ->
  index_of output_dir w = inr idx ->
  (v <- first_value data; py_iter v)%res = inr (before ++ bad :: after) ->
  Forall (fun i => exists p, py_getitem i "sku" = inr p) before ->
  py_getitem bad "sku" = inl e ->
  exists w' new,
    process_manifest E output_dir filename content w = (inl e, w') /\
    (e = KeyError \/ e = TypeError) /\
    checkpoint w' = checkpoint w /\
    trace w' = trace w ++ new /\
    Forall not_checkpoint new /\
    for_each (fun i => py_getitem i "sku") before = inr (processed new).
Proof.
  intros Hw Hload Hidx Hproducts Hbefore Hbad.
  destruct (crawl_products_returns idx before w Hw Hbefore) as [w1 Hrun].
  destruct (crawl_products_pass E _ _ _ _ _ Hrun) as (_ & Hc & new & Ht & Hn & _ & Hp).
  assert (He : e = KeyError \/ e = TypeError).
  { unfold py_getitem in Hbad. destruct bad as [| | | | | |items];
      try (injection Hbad as <-; tauto).
    destruct (dict_lookup "sku" items); [discriminate|]. injection Hbad as <-. tauto. }
  exists w1, new. split; [|split; [assumption|]].
  - unfold process_manifest, manifest_body, loads.
    rewrite Hload. simpl. rewrite Hidx, Hproducts, crawl_products_app, Hrun. simpl.
    rewrite Hbad. by destruct He as [-> | ->].
  - split; [assumption|]. split; [assumption|]. split; [assumption|by apply (Hp tt)].
Qed.

Lemma filter_py_in_step (f : pyobj -> bool) p l :
  List.filter f (p :: l) = if f p then p :: List.filter f l else List.filter f l.
Proof. reflexivity. Qed.

(** X15: what a pass over the targets of one manifest does depends on
    the index built before the first target, and on nothing written
    since.  With at least one worker, a pass that ends normally has dealt
    with every target in order: it skipped exactly the targets found in
    that index and started the collection of every other one, as often as
    the manifest lists it; and its requests are, target after target in
    that order, the comment requests of the pages 0 .. P-1 of the targets
    not in the index, and no other request. *)
Theorem pass_collects_what_the_index_lacks idx products w w' :
  1 <= MAX_WORKERS E ->
  crawl_products E idx products w = (inr tt, w') ->
  exists targets new,
    for_each (fun i => py_getitem i "sku") products = inr targets /\
    trace w' = trace w ++ new /\
    processed new = targets /\
    skipped new = List.filter (fun p => py_in p idx) targets /\
    started new = List.filter (fun p => negb (py_in p idx)) targets /\
    requests new
    = flat_map (fun p => map (comments_url E p) (py_range 0 (pages (COMMENT_PARAM E))))
        (List.filter (fun p => negb (py_in p idx)) targets).
Proof.
  intros Hw. revert w. induction products as [|info products IH]; intros w; simpl.
  { intros [= <-]. exists [], []. by rewrite app_nil_r. }
  destruct (py_getitem info "sku") as [e|product_id] eqn:Hsku; [discriminate|].
  destruct (py_in product_id idx) eqn:Hin.
  - intros Hrest.
    destruct (IH _ Hrest) as (targets & new & Hfor & Ht & Hp & Hs & Hst & Hr).
    exists (product_id :: targets), (TargetSkipped product_id :: new).
    rewrite Hfor. split; [reflexivity|]. split; [rewrite Ht; trace_eq|].
    simpl. rewrite Hin. simpl. by rewrite Hp, Hs, Hst, Hr.
  - destruct (com_start_crawling_requests E product_id w Hw)
      as (result & w1 & mid & Hrun & Ht1 & Hmid & Hr1 & _).
    rewrite Hrun. intros Hrest.
    destruct (IH _ Hrest) as (targets & new & Hfor & Ht & Hp & Hs & Hst & Hr).
    destruct (page_events_started _ _ Hmid) as [Hst1 Hs1].
    exists (product_id :: targets),
      (CrawlStarted product_id :: mid ++ CrawlFinished product_id result :: Sleep :: new).
    rewrite Hfor. split; [reflexivity|].
    split; [rewrite Ht; simpl; rewrite Ht1; trace_eq; by trace_eq|].
    simpl. rewrite processed_app, skipped_app, started_app, requests_app. simpl.
    rewrite (processed_page_events _ _ Hmid), Hs1, Hst1, Hr1, Hin. simpl.
    by rewrite Hp, Hs, Hst, Hr.
Qed.

End PassRequests.

Lemma misshapen_manifest_ends_the_run_witness :
  (lookup_node "ids" "m1.json" (demo_world empty_object_text [])
   = Some (File empty_object_text) /\
   json_loads wide empty_object_text = Some (PyDict []) /\
   index_of "out" (demo_world empty_object_text []) = inr [] /\
   manifest_shape_error (PyDict []) = Some IndexError) /\
  process_entries wide "ids" "out" ["m1.json"; "m2.json"] (demo_world empty_object_text [])
  = (inl IndexError, demo_world empty_object_text []).
Proof.
  assert (Hnode : lookup_node "ids" "m1.json" (demo_world empty_object_text [])
                  = Some (File empty_object_text)) by (by vm_compute).
  assert (Hidx : index_of "out" (demo_world empty_object_text []) = inr [])
    by (by vm_compute).
  split; [by repeat split|].
  exact (proj1 (misshapen_manifest_ends_the_run wide "ids" "out" "m1.json"
                  empty_object_text (PyDict []) [] IndexError ["m2.json"]
                  (demo_world empty_object_text []) Hnode eq_refl eq_refl Hidx eq_refl)).
Defined.

Lemma entry_without_sku_ends_the_run_witness :
  (1 <= MAX_WORKERS wide /\
   json_loads wide missing_sku_text = Some missing_sku /\
   index_of "out" (demo_world missing_sku_text []) = inr []) /\
  exists w' new,
    process_manifest wide "out" "m1.json" missing_sku_text (demo_world missing_sku_text [])
    = (inl KeyError, w') /\
    checkpoint w' = None /\
    trace w' = new /\
    processed new = [PyStr "111"].
Proof.
  assert (Hidx : index_of "out" (demo_world missing_sku_text []) = inr [])
    by (by vm_compute).
  split; [split; [simpl; lia|by split]|].
  destruct (entry_without_sku_ends_the_run wide "out" "m1.json" missing_sku_text
              missing_sku [] [PyDict [("sku", PyStr "111")]]
              (PyDict [("description", PyStr "x")]) [] KeyError
              (demo_world missing_sku_text []))
    as (w' & new & Hrun & _ & Hc & Ht & _ & Hp);
    [simpl; lia|reflexivity|exact Hidx|reflexivity
    |repeat constructor; by exists (PyStr "111")|reflexivity|].
  exists w', new. split; [exact Hrun|]. split; [exact Hc|]. split; [exact Ht|].
  simpl in Hp. by injection Hp as <-.
Defined.

Lemma pass_collects_what_the_index_lacks_witness :
  (1 <= MAX_WORKERS demo /\
   fst (crawl_products demo ["222"]
          [PyDict [("sku", PyStr "111")]; PyDict [("sku", PyStr "222")]]
          (demo_world string_manifest_text [("com_222.csv", File "csv")]))
   = inr tt) /\
  exists new,
    trace (snd (crawl_products demo ["222"]
                  [PyDict [("sku", PyStr "111")]; PyDict [("sku", PyStr "222")]]
                  (demo_world string_manifest_text [("com_222.csv", File "csv")])))
    = new /\
    skipped new = [PyStr "222"] /\
    started new = [PyStr "111"] /\
    requests new
    = [CommentsUrl (PyStr "111") 1 6 0 10; CommentsUrl (PyStr "111") 1 6 1 10].
Proof.
  split; [split; [simpl; lia|by vm_compute]|].
  destruct (pass_collects_what_the_index_lacks demo ["222"]
              [PyDict [("sku", PyStr "111")]; PyDict [("sku", PyStr "222")]]
              (demo_world string_manifest_text [("com_222.csv", File "csv")])
              (snd (crawl_products demo ["222"]
                      [PyDict [("sku", PyStr "111")]; PyDict [("sku", PyStr "222")]]
                      (demo_world string_manifest_text [("com_222.csv", File "csv")]))))
    as (targets & new & Hfor & Ht & _ & Hs & Hst & Hr); [simpl; lia|by vm_compute|].
  injection Hfor as <-.
  exists new. split; [exact Ht|]. split; [exact Hs|]. split; [exact Hst|exact Hr].
Defined.

(** ** What a run leaves on disk *)

Lemma filter_sublist (f : string -> bool) l : List.filter f l `sublist_of` l.
Proof.
  induction l as [|x l IH]; simpl; [constructor|].
  destruct (f x); by constructor.
Qed.

Section DiskFacts.

Variable E : environment.


End DiskFacts.


(** ** The checkpoint file, written and read *)

Lemma recorded_appends names w :
  checkpoint_wf w -> Forall clean names ->
  checkpoint_wf (fold_left (fun w f => append_checkpoint f w) names w) /\
  recorded (fold_left (fun w f => append_checkpoint f w) names w) = recorded w ++ names.
Proof.
  intros Hwf Hclean. revert w Hwf.
  induction Hclean as [|name names Hname _ IH]; intros w Hwf; simpl.
  - split; [assumption|by rewrite app_nil_r].
  - destruct (recorded_append w (append_checkpoint name w) name Hwf Hname eq_refl)
      as [Hwf' Hrec].
    destruct (IH _ Hwf') as [Hwf'' Hrec'].
    split; [assumption|]. rewrite Hrec', Hrec. by rewrite <- app_assoc.
Qed.

(** X17: the checkpoint reads back what was appended to it.  Starting
    from no checkpoint file, or from one made of complete lines, after
    the names of a list have been appended one by one, each followed by
    a line feed, the names the orchestrator reads from the file are the
    names that were there followed by the appended ones, in order, when
    no appended name holds a line break; and the files left to process
    are the listed files that are none of those names, in the order of
    the listing. *)
Theorem checkpoint_reads_back_appended_names names w filenames :
  checkpoint_wf w ->
  Forall clean names ->
  recorded (fold_left (fun w f => append_checkpoint f w) names w) = recorded w ++ names /\
  files_to_process filenames (fold_left (fun w f => append_checkpoint f w) names w)
  = List.filter (fun x => negb (existsb (String.eqb x) (recorded w ++ names))) filenames /\
  (forall x, In x names ->
     ~ In x (files_to_process filenames
               (fold_left (fun w f => append_checkpoint f w) names w))).
Proof.
  intros Hwf Hclean. destruct (recorded_appends names w Hwf Hclean) as [_ Hrec].
  split; [assumption|].
  assert (Hfiles : files_to_process filenames
                     (fold_left (fun w f => append_checkpoint f w) names w)
                   = List.filter
                       (fun x => negb (existsb (String.eqb x) (recorded w ++ names)))
                       filenames)
    by (by rewrite files_to_process_recorded, Hrec).
  split; [assumption|].
  intros x Hx. rewrite Hfiles. intros Hin. apply filter_In in Hin as [_ Hnot].
  apply not_in_existsb in Hnot. apply Hnot, in_or_app. by right.
Qed.

Section Once.

Variable E : environment.

Lemma process_entries_appended ids output_dir filenames w r w' :
  process_entries E ids output_dir filenames w = (r, w') ->
  exists new, trace w' = trace w ++ new /\ appended new `sublist_of` filenames.
Proof.
  revert w. induction filenames as [|filename filenames IH]; intros w; simpl.
  { intros [= <- <-]. exists []. by rewrite app_nil_r. }
  destruct (process_entry E ids output_dir filename w) as [[e|[]] w1] eqn:Hentry.
  - intros [= <- <-].
    destruct (process_entry_cases _ _ _ _ _ _ _ Hentry)
      as [(Hr & _)|(content & _ & _ & Hm)]; [discriminate|].
    destruct (process_manifest_cases _ _ _ _ _ _ _ Hm) as (_ & new & Ht & _ & Hout).
    exists new. split; [assumption|].
    destruct Hout as [_ Hr _ _ _|_ Hr _ _ _|e' _ _ Hnew|? ? ? Hr _ _ _ _ _ _];
      try discriminate.
    rewrite (appended_none _ Hnew). apply sublist_nil_l.
  - intros Hrest. destruct (IH _ Hrest) as (new2 & Ht2 & Hsub2).
    destruct (process_entry_cases _ _ _ _ _ _ _ Hentry)
      as [(_ & -> & _)|(content & _ & _ & Hm)].
    { exists new2. split; [assumption|]. by constructor. }
    destruct (process_manifest_cases _ _ _ _ _ _ _ Hm) as (_ & new & Ht & _ & Hout).
    exists (new ++ new2). split; [by rewrite Ht2, Ht, app_assoc|].
    rewrite appended_app.
    destruct Hout as [_ _ -> _ _|_ _ -> _ _|e' Hr _ _|? ? segment _ _ _ -> Hseg _ _];
      try discriminate.
    + simpl. by constructor.
    + simpl. by constructor.
    + rewrite appended_app, (appended_none _ Hseg). simpl. by constructor.
Qed.

(** X18: the checkpoint never holds a manifest twice.  When the
    checkpoint file is made of complete lines that are all different,
    and the names listed in the manifest directory are all different and
    hold no line break, then after a run, however it ends, the file is
    again made of complete lines that are all different: the names read
    from it are the names read before followed by names of the
    directory, each appended once, in the order of the listing, and none
    of them was in the file before. *)
Theorem run_records_each_manifest_once ids output_dir w r w' :
  checkpoint_wf w ->
  NoDup (recorded w) ->
  (forall files, listdir ids w = inr files -> NoDup files /\ Forall clean files) ->
  crawl_comments_and_qa E ids output_dir w = (r, w') ->
  checkpoint_wf w' /\
  NoDup (recorded w') /\
  exists names,
    recorded w' = recorded w ++ names /\
    (forall files, listdir ids w = inr files -> names `sublist_of` files) /\
    (forall f, In f names -> ~ In f (recorded w)).
Proof.
  intros Hwf Hnodup Hfiles. unfold crawl_comments_and_qa.
  destruct (listdir ids w) as [e|filenames] eqn:Hids.
  { intros [= <- <-]. split; [assumption|]. split; [assumption|].
    exists []. rewrite app_nil_r. repeat split; [discriminate|by intros f []]. }
  destruct (Hfiles filenames eq_refl) as [Hnd Hclean].
  set (w1 := match dirs w !! output_dir with
             | Some _ => w
             | None => set_dirs (<[output_dir:=[]]> (dirs w)) w
             end).
  assert (Hw1 : trace w1 = trace w /\ checkpoint w1 = checkpoint w /\
                listdir ids w1 = inr filenames).
  { unfold w1. destruct (dirs w !! output_dir) as [es|] eqn:Hout; [by repeat split|].
    repeat split. unfold listdir in *. simpl.
    destruct (decide (output_dir = ids)) as [->|Hne]; [|by rewrite lookup_insert_ne].
    rewrite Hout in Hids. discriminate. }
  destruct Hw1 as (Htr & Hcp & ->). intros Hrun.
  destruct (process_entries_justified E _ _ _ _ _ _ Hrun) as (_ & new & Ht & _ & Htext).
  destruct (process_entries_appended _ _ _ _ _ _ Hrun) as (new' & Ht' & Hsub).
  assert (new' = new) as -> by (rewrite Ht in Ht'; by apply app_inv_head in Ht').
  assert (Hsub' : appended new `sublist_of` filenames).
  { etrans; [exact Hsub|]. rewrite files_to_process_recorded. apply filter_sublist. }
  assert (Hfresh : forall f, In f (appended new) -> ~ In f (recorded w)).
  { intros f Hf. apply list_elem_of_In in Hf.
    pose proof (elem_of_sublist _ _ _ Hf Hsub) as Hin. apply list_elem_of_In in Hin.
    rewrite files_to_process_recorded in Hin. apply filter_In in Hin as [_ Hnot].
    apply not_in_existsb in Hnot. by rewrite (recorded_same w w1 Hcp) in Hnot. }
  assert (Hcleannew : Forall clean (appended new)).
  { apply List.Forall_forall. intros f Hf. apply list_elem_of_In in Hf.
    pose proof (elem_of_sublist _ _ _ Hf Hsub') as Hin. apply list_elem_of_In in Hin.
    rewrite List.Forall_forall in Hclean. by apply Hclean. }
  destruct Hwf as (old & Hold & Holdtext).
  assert (Hall : Forall clean (old ++ appended new)) by (by apply Forall_app).
  assert (Htext' : default EmptyString (checkpoint w')
                   = checkpoint_text (old ++ appended new)).
  { rewrite Htext, Hcp, Holdtext. by rewrite checkpoint_text_app. }
  assert (Hrec : recorded w' = recorded w ++ appended new).
  { by rewrite (recorded_wf _ _ Hall Htext'), (recorded_wf _ _ Hold Holdtext). }
  split; [by exists (old ++ appended new)|]. split.
  - rewrite Hrec. apply NoDup_app. split; [assumption|]. split.
    + intros x Hx Hx'. apply list_elem_of_In in Hx, Hx'. by apply (Hfresh x).
    + by apply (sublist_NoDup _ filenames).
  - exists (appended new). split; [assumption|]. split; [|assumption].
    by intros files [= <-].
Qed.

End Once.

Lemma checkpoint_reads_back_appended_names_witness :
  (checkpoint_wf (demo_world EmptyString []) /\ Forall clean ["a.json"; "b.json"]) /\
  checkpoint (fold_left (fun w f => append_checkpoint f w) ["a.json"; "b.json"]
                (demo_world EmptyString []))
  = Some ("a.json" +:+ String LF ("b.json" +:+ String LF EmptyString)) /\
  recorded (fold_left (fun w f => append_checkpoint f w) ["a.json"; "b.json"]
              (demo_world EmptyString []))
  = ["a.json"; "b.json"] /\
  files_to_process ["a.json"; "c.json"; "b.json"]
    (fold_left (fun w f => append_checkpoint f w) ["a.json"; "b.json"]
       (demo_world EmptyString []))
  = ["c.json"].
Proof.
  assert (Hwf : checkpoint_wf (demo_world EmptyString [])) by (by exists []).
  assert (Hclean : Forall clean ["a.json"; "b.json"]) by (by repeat constructor).
  split; [by split|]. split; [reflexivity|].
  destruct (checkpoint_reads_back_appended_names ["a.json"; "b.json"]
              (demo_world EmptyString []) ["a.json"; "c.json"; "b.json"] Hwf Hclean)
    as (Hrec & Hfiles & _).
  split; [exact Hrec|exact Hfiles].
Defined.

Lemma run_records_each_manifest_once_witness :
  (checkpoint_wf (demo_world string_manifest_text []) /\
   NoDup (recorded (demo_world string_manifest_text [])) /\
   listdir "ids" (demo_world string_manifest_text []) = inr ["m1.json"]) /\
  crawl_comments_and_qa demo "ids" "out" (demo_world string_manifest_text [])
  = (inr tt, demo_after_first_run) /\
  NoDup (recorded demo_after_first_run) /\
  exists names, recorded demo_after_first_run = [] ++ names /\ names `sublist_of` ["m1.json"].
Proof.
  assert (Hwf : checkpoint_wf (demo_world string_manifest_text [])) by (by exists []).
  assert (Hnd : NoDup (recorded (demo_world string_manifest_text []))) by constructor.
  assert (Hls : listdir "ids" (demo_world string_manifest_text []) = inr ["m1.json"])
    by (by vm_compute).
  assert (Hrun : crawl_comments_and_qa demo "ids" "out" (demo_world string_manifest_text [])
                 = (inr tt, demo_after_first_run)) by (by vm_compute).
  split; [by repeat split|]. split; [exact Hrun|].
  destruct (run_records_each_manifest_once demo "ids" "out"
              (demo_world string_manifest_text []) (inr tt) demo_after_first_run Hwf Hnd)
    as (_ & Hnd' & names & Hrec & Hsub & _); [|exact Hrun|].
  { intros files Hfiles. rewrite Hls in Hfiles. injection Hfiles as <-.
    split; [apply NoDup_singleton|by repeat constructor]. }
  split; [exact Hnd'|]. exists names. split; [exact Hrec|]. by apply Hsub.
Defined.

(** ** What a run asks of the service *)

Lemma asks_refl Q w : asks Q w w.
Proof. exists []. split; [by rewrite app_nil_r|constructor]. Qed.

Lemma asks_trans Q w1 w2 w3 : asks Q w1 w2 -> asks Q w2 w3 -> asks Q w1 w3.
Proof.
  intros (n1 & H1 & F1) (n2 & H2 & F2). exists (n1 ++ n2). split.
  - by rewrite H2, H1, app_assoc.
  - rewrite requests_app. by apply Forall_app.
Qed.

Lemma asks_nothing Q w w' new :
  trace w' = trace w ++ new -> requests new = [] -> asks Q w w'.
Proof. intros Ht Hr. exists new. split; [assumption|]. rewrite Hr. constructor. Qed.

Lemma asks_log Q e w : requests [e] = [] -> asks Q w (log e w).
Proof. intros He. by apply (asks_nothing Q w (log e w) [e]). Qed.

Lemma run_pool_asks Q
    (task : Z -> DataFrame * world -> res unit * (DataFrame * world)) page_list cd w :
  (forall page cd w r cd' w',
     In page page_list -> task page (cd, w) = (r, (cd', w')) -> asks Q w w') ->
  asks Q w (snd (run_pool task page_list (cd, w))).
Proof.
  revert cd w. induction page_list as [|page page_list IH]; intros cd w Htask.
  - apply asks_refl.
  - change (run_pool task (page :: page_list) (cd, w))
      with (run_pool task page_list (submitted (task page) (cd, w))).
    unfold submitted.
    destruct (task page (cd, w)) as [r [cd' w']] eqn:Hstep. simpl snd at 2.
    eapply asks_trans; [by apply (Htask _ _ _ _ _ _ (or_introl eq_refl) Hstep)|].
    apply IH. intros p c0 w0 r0 c1 w2 Hp. apply Htask. by right.
Qed.

Section RunRequests.

Variable E : environment.

Lemma com_start_crawling_asks product_id w r w' :
  com_start_crawling E product_id w = (r, w') -> asks (comment_page_request E) w w'.
Proof.
  unfold com_start_crawling, com_collect.
  destruct (MAX_WORKERS E <=? 0); [intros [= <- <-]; by apply asks_log|].
  pose proof (run_pool_asks (comment_page_request E) (com_crawl_page E product_id)
                (com_page_list E) (mkDataFrame comment_columns [])
                (log (CrawlStarted product_id) w)) as Hpool.
  destruct (run_pool _ _ _) as [cd w1]. simpl in Hpool.
  destruct (save_comments E product_id cd w1) as [result w2] eqn:Hsave.
  destruct (save_frame_requests _ _ _ _ _ _ _ Hsave) as (extra & Ht2 & Hr2 & _).
  intros [= <- <-].
  apply (asks_trans _ _ (log (CrawlStarted product_id) w)); [by apply asks_log|].
  apply (asks_trans _ _ w1); [apply Hpool|].
  - intros page cd0 w0 r0 cd' w0' Hpage Hstep.
    destruct (com_crawl_page_sends E product_id _ _ _ _ _ _ Hstep) as (more & Ht & Hr & _).
    exists (Request (comments_url E product_id page) :: more). split; [assumption|].
    simpl. rewrite Hr. apply List.Forall_cons; [|apply List.Forall_nil].
    apply py_range_In in Hpage. unfold comment_page_request, comments_url.
    repeat split; lia.
  - apply (asks_trans _ _ w2); [by apply (asks_nothing _ w1 w2 extra)|by apply asks_log].
Qed.

Lemma crawl_products_asks idx products w r w' :
  crawl_products E idx products w = (r, w') -> asks (comment_page_request E) w w'.
Proof.
  revert w. induction products as [|info products IH]; intros w; simpl.
  - intros [= <- <-]. apply asks_refl.
  - destruct (py_getitem info "sku") as [e|product_id].
    { intros [= <- <-]. apply asks_refl. }
    destruct (py_in product_id idx).
    { intros H. apply (asks_trans _ _ (log (TargetSkipped product_id) w));
        [by apply asks_log|exact (IH _ H)]. }
    destruct (com_start_crawling E product_id w) as [[e|result] w1] eqn:Hstart;
      pose proof (com_start_crawling_asks _ _ _ _ Hstart) as Hasks.
    + by intros [= <- <-].
    + intros H. apply (asks_trans _ _ w1); [exact Hasks|].
      apply (asks_trans _ _ (log Sleep w1)); [by apply asks_log|exact (IH _ H)].
Qed.

Lemma process_entries_asks ids output_dir filenames w r w' :
  process_entries E ids output_dir filenames w = (r, w') ->
  asks (comment_page_request E) w w'.
Proof.
  revert w. induction filenames as [|filename filenames IH]; intros w; simpl.
  { intros [= <- <-]. apply asks_refl. }
  assert (Hentry : forall r1 w1,
            process_entry E ids output_dir filename w = (r1, w1) ->
            asks (comment_page_request E) w w1).
  { intros r1 w1. unfold process_entry.
    destruct (lookup_node ids filename w) as [[|content]|];
      try (intros [= <- <-]; apply asks_refl).
    destruct (endswith filename ".json"); [|intros [= <- <-]; apply asks_refl].
    unfold process_manifest, manifest_body.
    destruct (loads E content) as [e|data].
    { destruct e; intros [= <- <-]; try apply asks_refl; by apply asks_log. }
    destruct (index_of output_dir w) as [e|idx].
    { destruct e; intros [= <- <-]; try apply asks_refl; by apply asks_log. }
    destruct (v <- first_value data; py_iter v)%res as [e|products].
    { destruct e; intros [= <- <-]; try apply asks_refl; by apply asks_log. }
    destruct (crawl_products E idx products w) as [[e|[]] w2] eqn:Hcrawl;
      pose proof (crawl_products_asks _ _ _ _ _ Hcrawl) as Hasks.
    - destruct e; intros [= <- <-]; try assumption;
        (apply (asks_trans _ _ w2); [exact Hasks|by apply asks_log]).
    - intros [= <- <-]. apply (asks_trans _ _ w2); [exact Hasks|].
      by apply (asks_nothing _ w2 (append_checkpoint filename w2)
                  [CheckpointAppended filename]). }
  destruct (process_entry E ids output_dir filename w) as [[e|[]] w1] eqn:Hstep.
  - intros [= <- <-]. by apply (Hentry (inl e)).
  - intros Hrest. apply (asks_trans _ _ w1); [by apply (Hentry (inr tt))|by apply IH].
Qed.

(** X19: a run asks the service for comments only.  Every request a run
    of the orchestrator sends is a request for a page of comments, with
    the configured score, sort type and page size and a page number from
    0 to P-1: the orchestrator never asks for the questions of a product
    nor for the answers of a question, whatever the manifests hold. *)
Theorem run_requests_comments_only ids output_dir w r w' :
  crawl_comments_and_qa E ids output_dir w = (r, w') ->
  exists new,
    trace w' = trace w ++ new /\
    Forall (fun u =>
              match u with
              | CommentsUrl _ s st page ps =>
                  s = score (COMMENT_PARAM E) /\ st = sort_type (COMMENT_PARAM E) /\
                  ps = page_size (COMMENT_PARAM E) /\
                  0 <= page < pages (COMMENT_PARAM E)
              | QuestionsUrl _ _ | AnswersUrl _ => False
              end) (requests new).
Proof.
  unfold crawl_comments_and_qa.
  destruct (listdir ids w) as [e|filenames].
  { intros [= <- <-]. exists [LogError]. split; [reflexivity|constructor]. }
  set (w1 := match dirs w !! output_dir with
             | Some _ => w
             | None => set_dirs (<[output_dir:=[]]> (dirs w)) w
             end).
  assert (Htr : trace w1 = trace w) by (unfold w1; by destruct (dirs w !! output_dir)).
  destruct (listdir ids w1) as [e|names1].
  { intros [= <- <-]. exists []. rewrite app_nil_r. split; [assumption|constructor]. }
  intros Hrun. destruct (process_entries_asks _ _ _ _ _ _ Hrun) as (new & Ht & Hnew).
  exists new. rewrite <- Htr. split; [assumption|].
  apply (List.Forall_impl _ (P := comment_page_request E)); [|assumption].
  intros u. by destruct u.
Qed.

End RunRequests.

Lemma run_requests_comments_only_witness :
  crawl_comments_and_qa demo "ids" "out" (demo_world string_manifest_text [])
  = (inr tt, demo_after_first_run) /\
  exists new,
    trace demo_after_first_run = new /\
    requests new
    = [CommentsUrl (PyStr "111") 1 6 0 10; CommentsUrl (PyStr "111") 1 6 1 10;
       CommentsUrl (PyStr "222") 1 6 0 10; CommentsUrl (PyStr "222") 1 6 1 10] /\
    Forall (fun u =>
              match u with
              | CommentsUrl _ s st page ps =>
                  s = 1 /\ st = 6 /\ ps = 10 /\ 0 <= page < 2
              | QuestionsUrl _ _ | AnswersUrl _ => False
              end) (requests new).
Proof.
  assert (Hrun : crawl_comments_and_qa demo "ids" "out" (demo_world string_manifest_text [])
                 = (inr tt, demo_after_first_run)) by (by vm_compute).
  split; [exact Hrun|].
  destruct (run_requests_comments_only demo "ids" "out"
              (demo_world string_manifest_text []) (inr tt) demo_after_first_run Hrun)
    as (new & Ht & Hall).
  exists new. split; [exact Ht|]. split; [|exact Hall].
  simpl in Ht. rewrite <- Ht. by vm_compute.
Defined.

(** ** The search spider *)

(** X20: the height [scroll_to_half] scrolls to is three quarters of the
    height the browser reports, rounded up, not half of it: it is the
    total height less the quarter of it rounded down.  It lies between
    the middle and the bottom of the page, and strictly past the middle
    as soon as the page has any height. *)
Theorem scroll_goes_to_three_quarters total_height :
  3 * total_height <= 4 * half_height total_height < 3 * total_height + 4 /\
  (0 <= total_height ->
   total_height / 2 <= half_height total_height <= total_height) /\
  (1 <= total_height -> total_height < 2 * half_height total_height) /\
  scroll_script total_height
  = "window.scrollTo(0, " +:+ pretty (total_height - total_height / 4) +:+ ")".
Proof.
  unfold half_height.
  pose proof (Z.div_mod total_height 4 ltac:(lia)) as Hdiv.
  pose proof (Z.mod_pos_bound total_height 4 ltac:(lia)) as Hmod.
  pose proof (Z.div_mod total_height 2 ltac:(lia)) as Hdiv2.
  pose proof (Z.mod_pos_bound total_height 2 ltac:(lia)) as Hmod2.
  repeat split; try lia.
Qed.

Lemma last_char_none s : last_char s = None -> s = EmptyString.
Proof.
  induction s as [|c s IH]; [reflexivity|].
  simpl. destruct s as [|d s]; [discriminate|]. intros H. by specialize (IH H).
Qed.

Lemma path_join_plain a b :
  a <> EmptyString -> last_char a <> Some slash -> has_char slash b = false ->
  path_join a (b +:+ ".json") = a +:+ "/" +:+ b +:+ ".json".
Proof.
  intros Ha Hlast Hb. unfold path_join.
  assert (Hfirst : exists c rest, b +:+ ".json" = String c rest /\ Ascii.eqb c slash = false).
  { destruct b as [|c b]; [by exists dot, "json"|].
    simpl in Hb. apply orb_false_elim in Hb as [Hc _]. by exists c, (b +:+ ".json"). }
  destruct Hfirst as (c & rest & -> & ->).
  destruct (last_char a) as [d|] eqn:Hd.
  - destruct (Ascii.eqb d slash) eqn:Hds; [|reflexivity].
    apply Ascii.eqb_eq in Hds as ->. by destruct Hlast.
  - by destruct Ha, (last_char_none _ Hd).
Qed.

Lemma sku_of_product_infos products :
  for_each (fun info => py_getitem info "sku")
    (map (fun p : pyobj * pyobj => product_info (fst p) (snd p)) products)
  = inr (map fst products).
Proof.
  induction products as [|[sku desc] products IH]; [reflexivity|].
  simpl. by rewrite IH.
Qed.

Section SearchFacts.

Variable E : environment.
Variable json_dump : pyobj -> string.

(** X21: what the search spider saves for a keyword is a manifest for
    the orchestrator.  When the directory is named by a path that is not
    empty and does not end in a slash, and does not name a file, when the
    file name holds no slash and is not that of a directory, the document
    [{keyword: [{"sku": ..., "description": ...}, ...]}] is written to
    [filename.json] in that directory, which is created if need be, and
    the path is returned with no error logged.  The targets the
    orchestrator reads from that document are the skus of the products,
    in order; and when the decoder reads back what was written, a pass of
    the orchestrator over that file that ends normally, with an output
    directory that exists, has dealt with exactly those targets, in
    order, before it appends the file to the checkpoint. *)
Theorem saved_product_list_is_a_manifest keyword products save_dir filename w :
  save_dir <> EmptyString ->
  last_char save_dir <> Some slash ->
  names_a_file save_dir w = false ->
  has_char slash filename = false ->
  lookup_node save_dir (filename +:+ ".json") w <> Some Directory ->
  json_loads E (json_dump (keyword_manifest keyword products))
  = Some (keyword_manifest keyword products) ->
  exists w',
    save_product_ids json_dump (keyword_manifest keyword products) save_dir filename w
    = (Some (save_dir +:+ "/" +:+ filename +:+ ".json"), w') /\
    trace w' = trace w /\
    lookup_node save_dir (filename +:+ ".json") w'
    = Some (File (json_dump (keyword_manifest keyword products))) /\
    endswith (filename +:+ ".json") ".json" = true /\
    manifest_targets (keyword_manifest keyword products) = inr (map fst products) /\
    (forall output_dir files w'',
       listdir output_dir w' = inr files ->
       process_entry E save_dir output_dir (filename +:+ ".json") w' = (inr tt, w'') ->
       exists segment,
         trace w'' = trace w' ++ segment ++ [CheckpointAppended (filename +:+ ".json")] /\
         processed segment = map fst products).
Proof.
  intros Hdir Hlast Hfile Hname Hnot Hround.
  assert (Htargets : manifest_targets (keyword_manifest keyword products)
                     = inr (map fst products)).
  { unfold manifest_targets, keyword_manifest. simpl. apply sku_of_product_infos. }
  unfold save_product_ids. rewrite (path_join_plain _ _ Hdir Hlast Hname).
  destruct (String.eqb save_dir EmptyString) eqn:Hempty;
    [by apply String.eqb_eq in Hempty|].
  set (w1 := match dirs w !! save_dir with
             | Some _ => w
             | None => if names_a_file save_dir w then w
                       else set_dirs (<[save_dir:=[]]> (dirs w)) w
             end).
  assert (Hw1 : trace w1 = trace w /\
                exists es, dirs w1 !! save_dir = Some es /\
                           find_entry (filename +:+ ".json") es <> Some Directory).
  { unfold w1. unfold lookup_node in Hnot.
    destruct (dirs w !! save_dir) as [es|] eqn:Hd.
    - split; [reflexivity|]. by exists es.
    - rewrite Hfile. simpl. split; [reflexivity|]. exists [].
      rewrite lookup_insert_eq. by split. }
  destruct Hw1 as (Htr & es & Hes & Hfind).
  assert (Hparts : directory_of (save_dir +:+ "/" +:+ filename +:+ ".json") = save_dir /\
                   basename (save_dir +:+ "/" +:+ filename +:+ ".json")
                   = filename +:+ ".json").
  { unfold directory_of, basename.
    change ("/" +:+ filename +:+ ".json") with (String slash (filename +:+ ".json")).
    rewrite path_split_dir by (by rewrite has_char_app, Hname). simpl.
    split; [|reflexivity]. by destruct save_dir. }
  destruct Hparts as [Hpd Hpb].
  unfold write_file. rewrite Hpd, Hpb, Hes.
  destruct (put_entry (filename +:+ ".json")
              (File (json_dump (keyword_manifest keyword products))) es)
    as [es'|] eqn:Hput.
  2:{ destruct Hfind. by apply (put_entry_fails _ (File (json_dump
                                   (keyword_manifest keyword products)))). }
  eexists. split; [reflexivity|]. split; [assumption|].
  assert (Hlook : lookup_node save_dir (filename +:+ ".json")
                    (set_dirs (<[save_dir:=es']> (dirs w1)) w1)
                  = Some (File (json_dump (keyword_manifest keyword products)))).
  { unfold lookup_node. simpl. rewrite lookup_insert_eq.
    by apply (put_entry_found _ _ es). }
  split; [assumption|]. split; [apply endswith_app|]. split; [assumption|].
  intros output_dir files w'' Hls Hentry.
  destruct (process_entry_cases E _ _ _ _ _ _ Hentry)
    as [(_ & _ & Hnotm)|(content & Hnode & _ & Hm)].
  { specialize (Hnotm _ Hlook). by rewrite endswith_app in Hnotm. }
  rewrite Hlook in Hnode. injection Hnode as <-.
  destruct (process_manifest_cases E _ _ _ _ _ _ Hm) as (_ & new & Ht & _ & Hout).
  destruct Hout as [Hnone _ _ _ _|Hmissing _ _ _ _|e Hr _ _
                   |data targets segment _ Hdata Htg -> _ Hproc _];
    [congruence|congruence|discriminate|].
  exists segment. split; [assumption|].
  rewrite Hround in Hdata. injection Hdata as <-. congruence.
Qed.

End SearchFacts.

Lemma saved_product_list_is_a_manifest_witness :
  (names_a_file "ids" (demo_world EmptyString []) = false /\
   lookup_node "ids" "rings.json" (demo_world EmptyString []) <> Some Directory /\
   json_loads wide searched_text = Some (keyword_manifest "rings" [(PyStr "111", PyStr "ring")])) /\
  exists w',
    save_product_ids (fun _ => searched_text)
      (keyword_manifest "rings" [(PyStr "111", PyStr "ring")]) "ids" "rings"
      (demo_world EmptyString [])
    = (Some "ids/rings.json", w') /\
    listdir "ids" w' = inr ["m1.json"; "rings.json"] /\
    lookup_node "ids" "rings.json" w' = Some (File searched_text) /\
    manifest_targets (keyword_manifest "rings" [(PyStr "111", PyStr "ring")])
    = inr [PyStr "111"].
Proof.
  assert (Hfile : names_a_file "ids" (demo_world EmptyString []) = false)
    by (by vm_compute).
  assert (Hnot : lookup_node "ids" "rings.json" (demo_world EmptyString [])
                 <> Some Directory) by (by vm_compute).
  split; [by repeat split|].
  destruct (saved_product_list_is_a_manifest wide (fun _ => searched_text) "rings"
              [(PyStr "111", PyStr "ring")] "ids" "rings" (demo_world EmptyString []))
    as (w' & Hsave & _ & Hlook & _ & Htargets & _);
    [discriminate|discriminate|exact Hfile|reflexivity|exact Hnot|reflexivity|].
  exists w'. split; [exact Hsave|]. split; [|by split].
  vm_compute in Hsave. injection Hsave as <-. by vm_compute.
Defined.

(** ** Nothing is left undone *)

Section Complete.

Variable E : environment.


End Complete.


(** ** The search spider and the browser *)

Lemma app_eq_cut {A} (x : A) l1 l2 pre post :
  l1 ++ l2 = pre ++ x :: post ->
  (exists mid, l1 = pre ++ x :: mid /\ post = mid ++ l2) \/
  (exists pre2, pre = l1 ++ pre2 /\ l2 = pre2 ++ x :: post).
Proof.
  revert pre. induction l1 as [|a l1 IH]; intros pre Heq.
  - right. by exists pre.
  - destruct pre as [|b pre]; simpl in Heq; injection Heq as -> Heq.
    + left. by exists l1.
    + destruct (IH _ Heq) as [(mid & -> & ->)|(pre2 & -> & ->)].
      * left. by exists mid.
      * right. by exists pre2.
Qed.

Lemma all_returned_nil B before : all_returned B before [].
Proof. intros pre c post Heq. by destruct pre. Qed.

Lemma all_returned_one B before c :
  raised B before c = None -> all_returned B before [c].
Proof.
  intros Hc pre c' post Heq. destruct pre as [|x pre].
  - injection Heq as <- _. by rewrite app_nil_r.
  - injection Heq as _ Heq. by destruct pre.
Qed.

Lemma all_returned_app B before n1 n2 :
  all_returned B before n1 -> all_returned B (before ++ n1) n2 ->
  all_returned B before (n1 ++ n2).
Proof.
  intros H1 H2 pre c post Heq.
  destruct (app_eq_cut _ _ _ _ _ Heq) as [(mid & -> & _)|(pre2 & -> & ->)].
  - by apply (H1 pre c mid).
  - rewrite app_assoc. by apply (H2 pre2 c post).
Qed.

Lemma stopped_at_last_one B before c e :
  raised B before c = Some e -> stopped_at_last B before [c] e.
Proof.
  intros Hc. exists [], c. split; [reflexivity|]. split; [apply all_returned_nil|].
  by rewrite app_nil_r.
Qed.

Lemma stopped_at_last_app B before n1 n2 e :
  all_returned B before n1 -> stopped_at_last B (before ++ n1) n2 e ->
  stopped_at_last B before (n1 ++ n2) e.
Proof.
  intros H1 (pre & c & -> & Hpre & Hc). exists (n1 ++ pre), c.
  split; [by rewrite app_assoc|]. split; [by apply all_returned_app|].
  by rewrite app_assoc.
Qed.

(** After the call that raised, no call follows. *)
Lemma stopped_at_last_is_last B before new e pre c post :
  stopped_at_last B before new e ->
  new = pre ++ c :: post -> raised B (before ++ pre) c <> None -> post = [].
Proof.
  intros (pre0 & c0 & -> & Hret & _) Heq Hc.
  destruct (app_eq_cut _ _ _ _ _ Heq) as [(mid & -> & _)|(pre2 & -> & Hlast)].
  - destruct Hc. by apply (Hret pre c mid).
  - destruct pre2 as [|x pre2]; simpl in Hlast.
    + by injection Hlast as _ <-.
    + injection Hlast as _ Hlast. by destruct pre2.
Qed.

Section BrowserFacts.

Variable B : browser.
Variable json_dump : pyobj -> string.
Variable get_pinyin_initials : string -> string.

Lemma tidy_ret {A} (a : A) : tidy B (s_ret a).
Proof.
  intros s r s' [= <- <-]. exists []. rewrite app_nil_r.
  split; [reflexivity|]. split; [constructor|apply all_returned_nil].
Qed.

Lemma tidy_call c : ordinary c -> tidy B (call B c).
Proof.
  intros Hc s r s'. unfold call.
  destruct (raised B (calls s) c) as [e|] eqn:Hr; intros [= <- <-];
    exists [c]; (split; [reflexivity|]);
    (split; [apply List.Forall_cons; [assumption|apply List.Forall_nil]|]).
  - left. by apply stopped_at_last_one.
  - by apply all_returned_one.
Qed.

Lemma tidy_ask {A} c (answer : list browser_call -> A) :
  ordinary c -> tidy B (ask B c answer).
Proof.
  intros Hc s r s'. unfold ask.
  destruct (call B c s) as [[e|[]] s1] eqn:Hcall; intros [= <- <-].
  - apply (tidy_call c Hc s (inl e) s1 Hcall).
  - apply (tidy_call c Hc s (inr tt) s1 Hcall).
Qed.

Lemma tidy_bind {A C} (m : search A) (k : A -> search C) :
  tidy B m -> (forall a, tidy B (k a)) -> tidy B (s_bind m k).
Proof.
  intros Hm Hk s r s'. unfold s_bind.
  destruct (m s) as [[e|a] s1] eqn:Hms.
  - intros [= <- <-]. apply (Hm s (inl e) s1 Hms).
  - intros Hks. destruct (Hm s (inr a) s1 Hms) as (n1 & Hc1 & Ho1 & Hr1).
    destruct (Hk a s1 r s' Hks) as (n2 & Hc2 & Ho2 & Hr2).
    exists (n1 ++ n2). split; [by rewrite Hc2, Hc1, app_assoc|].
    split; [by apply Forall_app|]. rewrite Hc1 in Hr2.
    destruct r as [e|c].
    + destruct Hr2 as [Hstop|(-> & Hall & Hempty)].
      * left. by apply stopped_at_last_app.
      * right. split; [reflexivity|]. split; [by apply all_returned_app|assumption].
    + by apply all_returned_app.
Qed.

(** The same when the first computation asks the browser: what follows
    need only be tidy for the answers the browser can give. *)
Lemma tidy_bind_ask {A C} c (answer : list browser_call -> A) (k : A -> search C) :
  ordinary c -> (forall before, tidy B (k (answer before))) ->
  tidy B (s_bind (ask B c answer) k).
Proof.
  intros Hc Hk s r s'. unfold s_bind.
  destruct (ask B c answer s) as [[e|a] s1] eqn:Hms.
  - intros [= <- <-]. apply (tidy_ask c answer Hc s (inl e) s1 Hms).
  - intros Hks.
    destruct (tidy_ask c answer Hc s (inr a) s1 Hms) as (n1 & Hc1 & Ho1 & Hr1).
    assert (Ha : a = answer (calls s)).
    { revert Hms. unfold ask. destruct (call B c s) as [[e|[]] s0]; [discriminate|].
      by intros [= <- _]. }
    subst a.
    destruct (Hk (calls s) s1 r s' Hks) as (n2 & Hc2 & Ho2 & Hr2).
    exists (n1 ++ n2). split; [by rewrite Hc2, Hc1, app_assoc|].
    split; [by apply Forall_app|]. rewrite Hc1 in Hr2.
    destruct r as [e|x].
    + destruct Hr2 as [Hstop|(-> & Hall & Hempty)].
      * left. by apply stopped_at_last_app.
      * right. split; [reflexivity|]. split; [by apply all_returned_app|assumption].
    + by apply all_returned_app.
Qed.

Lemma tidy_last_handle before : tidy B (last_handle (window_handles B before)).
Proof.
  unfold last_handle. destruct (last (window_handles B before)) eqn:Hlast;
    [apply tidy_ret|].
  intros s r s' [= <- <-]. exists []. rewrite app_nil_r.
  split; [reflexivity|]. split; [constructor|].
  right. split; [reflexivity|]. split; [apply all_returned_nil|].
  exists before. by apply last_None.
Qed.

Lemma tidy_save document save_dir filename :
  tidy B (s_save json_dump document save_dir filename).
Proof.
  intros s r s' [= <- <-]. exists []. simpl. rewrite app_nil_r.
  split; [reflexivity|]. split; [constructor|apply all_returned_nil].
Qed.

Lemma ordinary_call c :
  match c with StartFirefox | QuitDriver => False | _ => True end -> ordinary c.
Proof. destruct c; intros H; try destruct H; by split. Qed.

Lemma tidy_perform_login username password :
  tidy B (perform_login B username password).
Proof.
  unfold perform_login.
  repeat (apply tidy_bind; [by apply tidy_call, ordinary_call|intros _]).
  by apply tidy_call, ordinary_call.
Qed.

Lemma tidy_scroll_to_half : tidy B (scroll_to_half B).
Proof.
  unfold scroll_to_half.
  apply tidy_bind; [by apply tidy_ask, ordinary_call|intros h].
  by apply tidy_call, ordinary_call.
Qed.

Lemma tidy_read_products n i product_list : tidy B (read_products B n i product_list).
Proof.
  revert i product_list. induction n as [|n IH]; intros i product_list; simpl.
  - apply tidy_ret.
  - apply tidy_bind; [by apply tidy_ask, ordinary_call|intros sku].
    apply tidy_bind; [by apply tidy_call, ordinary_call|intros _].
    apply tidy_bind; [by apply tidy_ask, ordinary_call|intros desc].
    apply IH.
Qed.

Lemma tidy_search_keyword save_dir keyword :
  tidy B (search_keyword B json_dump get_pinyin_initials save_dir keyword).
Proof.
  unfold search_keyword.
  apply tidy_bind; [by apply tidy_call, ordinary_call|intros _].
  apply tidy_bind_ask; [by apply ordinary_call|intros before].
  apply tidy_bind; [apply tidy_last_handle|intros h].
  apply tidy_bind; [by apply tidy_call, ordinary_call|intros _].
  apply tidy_bind; [by apply tidy_call, ordinary_call|intros _].
  apply tidy_bind; [by apply tidy_call, ordinary_call|intros _].
  apply tidy_bind; [apply tidy_scroll_to_half|intros _].
  apply tidy_bind; [by apply tidy_ask, ordinary_call|intros n].
  apply tidy_bind; [apply tidy_read_products|intros product_list].
  apply tidy_save.
Qed.

Lemma tidy_search_keywords save_dir keywords :
  tidy B (search_keywords B json_dump get_pinyin_initials save_dir keywords).
Proof.
  induction keywords as [|keyword keywords IH]; simpl.
  - apply tidy_ret.
  - apply tidy_bind; [apply tidy_search_keyword|intros _; apply IH].
Qed.

Lemma tidy_with_driver keywords username password save_dir :
  tidy B (with_driver B json_dump get_pinyin_initials keywords username password save_dir).
Proof.
  unfold with_driver.
  apply tidy_bind; [by apply tidy_call, ordinary_call|intros _].
  apply tidy_bind; [apply tidy_perform_login|intros _].
  apply tidy_search_keywords.
Qed.












(** X23: the browser is closed once, at the end, whenever it was opened.
    When the driver cannot be started the spider makes no other call to
    the browser; a [WebDriverException] is then logged and swallowed, any
    other exception goes to the caller.  When the driver starts, the
    calls of the spider end with the one call that quits the driver,
    whatever happened in between; between the start and the quit there
    is no call after one that raised; and a [WebDriverException] reaches
    the caller only when the quit itself raised it: raised by any other
    call it is logged and swallowed. *)
Theorem browser_is_quit_once_at_the_end keywords username password save_dir s r s' :
  jd_search_spider B json_dump get_pinyin_initials keywords username password save_dir s
  = (r, s') ->
  (forall e,
     raised B (calls s) StartFirefox = Some e ->
     calls s' = calls s ++ [StartFirefox] /\
     r = match e with
         | WebDriverException => inr tt
         | OtherException => inl OtherException
         end) /\
  (raised B (calls s) StartFirefox = None ->
   exists mid,
     calls s' = calls s ++ StartFirefox :: mid ++ [QuitDriver] /\
     Forall (fun c => c <> StartFirefox /\ c <> QuitDriver) mid /\
     (forall pre c post,
        mid = pre ++ c :: post ->
        raised B (calls s ++ StartFirefox :: pre) c <> None -> post = []) /\
     (r = inl WebDriverException ->
      raised B (calls s ++ StartFirefox :: mid) QuitDriver = Some WebDriverException)).
Proof.
  unfold jd_search_spider, get_driver, call at 1.
  destruct (raised B (calls s) StartFirefox) as [e0|] eqn:Hstart.
  { intros Hrun. split; [|discriminate]. intros e [= <-].
    destruct e0; injection Hrun as <- <-; by split. }
  set (s1 := mkSession (disk s) (calls s ++ [StartFirefox]) (saved s)).
  intros Hrun. split; [discriminate|]. intros _.
  destruct (with_driver B json_dump get_pinyin_initials keywords username password
              save_dir s1) as [r0 s2] eqn:Hwork.
  destruct (tidy_with_driver _ _ _ _ _ _ _ Hwork) as (mid & Hcalls & Hord & Hshape).
  simpl in Hcalls. exists mid.
  assert (Hassoc : forall l, (calls s ++ [StartFirefox]) ++ l = calls s ++ StartFirefox :: l)
    by (intros l; by rewrite <- app_assoc).
  assert (Hstop : forall pre c post,
            mid = pre ++ c :: post ->
            raised B (calls s ++ StartFirefox :: pre) c <> None -> post = []).
  { intros pre c post Hmid Hc. rewrite <- Hassoc in Hc. simpl in Hshape.
    destruct r0 as [e|u].
    - destruct Hshape as [Hlast|(_ & Hall & _)].
      + by apply (stopped_at_last_is_last _ _ _ _ _ _ _ Hlast Hmid).
      + destruct Hc. by apply (Hall pre c post).
    - destruct Hc. by apply (Hshape pre c post). }
  assert (Hend : forall r1 s3,
            calls s3 = calls s2 -> r1 <> inl WebDriverException ->
            match call B QuitDriver s3 with
            | (inl e, s4) => (inl e, s4)
            | (inr _, s4) => (r1, s4)
            end = (r, s') ->
            calls s' = calls s ++ StartFirefox :: mid ++ [QuitDriver] /\
            (r = inl WebDriverException ->
             raised B (calls s ++ StartFirefox :: mid) QuitDriver
             = Some WebDriverException)).
  { intros r1 s3 Hsame Hr1. unfold call. rewrite Hsame, Hcalls, Hassoc.
    destruct (raised B (calls s ++ StartFirefox :: mid) QuitDriver) as [e|] eqn:Hquit;
      intros [= <- <-]; simpl; (split; [by rewrite <- app_assoc|]).
    - by intros [= ->].
    - intros Hr. by destruct Hr1. }
  destruct r0 as [[|]|[]].
  - destruct (Hend (inr tt) (s_log_error s2) eq_refl ltac:(discriminate) Hrun)
      as [Hc Hq]. by repeat split.
  - destruct (Hend (inl OtherException) s2 eq_refl ltac:(discriminate) Hrun)
      as [Hc Hq]. by repeat split.
  - destruct (Hend (inr tt) s2 eq_refl ltac:(discriminate) Hrun) as [Hc Hq].
    by repeat split.
Qed.


End BrowserFacts.

Example demo_search_example :
  fst demo_search = inr tt /\
  calls (snd demo_search)
  = [StartFirefox; OpenLogin;
     FindField LoginName; TypeInto LoginName "user";
     FindField LoginPassword; TypeInto LoginPassword "secret";
     FindField LoginSubmit; ClickOn LoginSubmit;
     OpenTab; ReadHandles; SwitchTo "w1"; OpenSearch "gold ring"; WaitForItems;
     ReadHeight; RunScript "window.scrollTo(0, 750)"; FindProducts;
     ReadSku 0; FindName 0; ReadText 0;
     OpenTab; ReadHandles; SwitchTo "w1"; OpenSearch "silver"; WaitForItems;
     QuitDriver] /\
  saved (snd demo_search)
  = [("gold_ring", keyword_manifest "gold ring" [(PyStr "111", PyStr "ring")])] /\
  listdir "ids" (disk (snd demo_search)) = inr ["m1.json"; "gold_ring.json"] /\
  trace (disk (snd demo_search)) = [LogError].
Proof.
  split; [vm_compute; reflexivity|]. split; [vm_compute; reflexivity|].
  split; [vm_compute; reflexivity|]. split; vm_compute; reflexivity.
Qed.

Lemma browser_is_quit_once_at_the_end_witness :
  raised demo_browser (calls demo_session) StartFirefox = None /\
  exists mid,
    calls (snd demo_search) = calls demo_session ++ StartFirefox :: mid ++ [QuitDriver] /\
    Forall (fun c => c <> StartFirefox /\ c <> QuitDriver) mid.
Proof.
  split; [reflexivity|].
  destruct (browser_is_quit_once_at_the_end demo_browser (fun _ => searched_text)
              (fun s => s) ["gold ring"; "silver"; "jade"] "user" "secret" "ids"
              demo_session (fst demo_search) (snd demo_search))
    as [_ Hquit]; [vm_compute; reflexivity|].
  destruct (Hquit eq_refl) as (mid & Hcalls & Hord & _).
  exists mid. split; [exact Hcalls|exact Hord].
Defined.

